(** * Fabric Ansible collection: MSP compiler and ordering-service-node reconciler

    A shallow embedding of [plugins/module_utils/msp_utils.py] and of the
    [main] function of [plugins/modules/ordering_service_node.py].

    Python's nested dictionaries are modelled as a tree type [value] whose
    mappings are stdpp finite maps, so that equality of trees ignores the
    insertion order of keys (as Python's [==] on dicts does) and respects the
    order of sequences. *)

From Stdlib Require Import ZArith Lia Ascii.
From stdpp Require Import base option list gmap strings.

Set Warnings "-register-all,-clear-no-such-hyp".
Open Scope string_scope.
Open Scope list_scope.

(** ** Python values *)

Inductive value :=
| VNone
| VBool (b : bool)
| VInt (z : Z)
| VStr (s : string)
| VList (l : list value)
| VDict (d : gmap string value).

Fixpoint value_eq_dec (x y : value) {struct x} : {x = y} + {x <> y}.
Proof.
  refine
    (match x, y with
     | VNone, VNone => left eq_refl
     | VBool a, VBool b => cast_if (decide (a = b))
     | VInt a, VInt b => cast_if (decide (a = b))
     | VStr a, VStr b => cast_if (decide (a = b))
     | VList a, VList b => cast_if (@list_eq_dec _ value_eq_dec a b)
     | VDict a, VDict b => cast_if (@gmap_eq_dec _ _ _ _ value_eq_dec a b)
     | _, _ => right _
     end); congruence.
Defined.

#[global] Instance value_eqdec : EqDecision value := value_eq_dec.

(** [dict(k1=v1, ...)] and dict literals. *)
Definition dict (kvs : list (string * value)) : value :=
  VDict (list_to_map kvs).

(** Python truthiness, as used by [if x:] and [not x]. *)
Definition truthy (v : value) : bool :=
  match v with
  | VNone => false
  | VBool b => b
  | VInt z => negb (Z.eqb z 0)
  | VStr s => negb (String.eqb s "")
  | VList l => match l with [] => false | _ => true end
  | VDict d => negb (bool_decide (d = ∅))
  end.

(** ** Exceptions *)

(** The pieces of an f-string: literal text and formatted values. *)
Inductive fpart :=
| Lit (s : string)
| Fmt (v : value).

Inductive pyexc :=
| KeyError (key : string)
| IndexError (what : string)
| TypeError (what : string)
| AttributeError (what : string)
| PyException (msg : list fpart)
| RemoteError (msg : string).

Definition exc_class (e : pyexc) : string :=
  match e with
  | KeyError _ => "KeyError"
  | IndexError _ => "IndexError"
  | TypeError _ => "TypeError"
  | AttributeError _ => "AttributeError"
  | PyException _ => "Exception"
  | RemoteError _ => "RemoteError"
  end.

Inductive result (A : Type) :=
| Ok (a : A)
| Raise (e : pyexc).
Arguments Ok {A} a.
Arguments Raise {A} e.

Definition rbind {A B} (r : result A) (k : A -> result B) : result B :=
  match r with
  | Ok a => k a
  | Raise e => Raise e
  end.

Notation "x <-- r ;; k" := (rbind r (fun x => k))
  (at level 100, r at next level, right associativity).

Definition default_or {A} (o : option A) (d : A) : A :=
  match o with
  | Some x => x
  | None => d
  end.

(** [v[k]] for a string key [k]: a missing key of a mapping is a [KeyError];
    subscripting anything else by a string is a [TypeError]. *)
Definition getitem (v : value) (k : string) : result value :=
  match v with
  | VDict d =>
      match d !! k with
      | Some x => Ok x
      | None => Raise (KeyError k)
      end
  | _ => Raise (TypeError "subscript")
  end.

(** [k in v]: key membership for a mapping, element membership for a
    sequence, substring test for a string; other values are not iterable. *)
Definition contains (k : string) (v : value) : result bool :=
  match v with
  | VDict d => Ok (bool_decide (is_Some (d !! k)))
  | VList l => Ok (bool_decide (VStr k ∈ l))
  | VStr s => Ok (bool_decide (is_Some (String.index 0 k s)))
  | _ => Raise (TypeError "in")
  end.

(** [del v[k]]. *)
Definition delitem (v : value) (k : string) : result value :=
  match v with
  | VDict d =>
      match d !! k with
      | Some _ => Ok (VDict (delete k d))
      | None => Raise (KeyError k)
      end
  | _ => Raise (TypeError "del")
  end.

(** [v.get(k, default)]: only mappings have a [get] method. *)
Definition get (v : value) (k : string) (default : value) : result value :=
  match v with
  | VDict d => Ok (default_or (d !! k) default)
  | _ => Raise (AttributeError "get")
  end.

(** [v.pop(k, None)] for its effect on [v]: a list rejects the second
    argument, other values have no [pop]. *)
Definition pop (v : value) (k : string) : result value :=
  match v with
  | VDict d => Ok (VDict (delete k d))
  | VList _ => Raise (TypeError "pop")
  | _ => Raise (AttributeError "pop")
  end.

(** [v[k] = x]. *)
Definition setitem (v : value) (k : string) (x : value) : result value :=
  match v with
  | VDict d => Ok (VDict (<[k := x]> d))
  | _ => Raise (TypeError "setitem")
  end.

(** Follows a path of keys through nested mappings, when it is there. *)
Fixpoint lookup_path (path : list string) (v : value) : option value :=
  match path with
  | [] => Some v
  | k :: rest =>
      match v with
      | VDict d =>
          match d !! k with
          | Some x => lookup_path rest x
          | None => None
          end
      | _ => None
      end
  end.

(** ** Size of a value, the measure for structural induction *)

Fixpoint value_size (v : value) : nat :=
  match v with
  | VList l => S (foldr (fun x n => value_size x + n) 0 l)
  | VDict d => S (map_fold (fun _ x n => value_size x + n) 0 d)
  | _ => 1
  end.

(** ** Dict diff/merge engine *)

Module dict_utils.

(** Modelled from the spec: [plugins/module_utils/dict_utils.py] is not part
    of the sources at hand.  [copy_dict] is the deep structural copy of
    section 4.1. *)
Fixpoint copy_value (v : value) : value :=
  match v with
  | VList l => VList (map copy_value l)
  | VDict d => VDict (copy_value <$> d)
  | _ => v
  end.

(** Modelled from the spec: [copy_dict] on a mapping copies every value. *)
Definition copy_dict (d : gmap string value) : gmap string value :=
  copy_value <$> d.

(** Modelled from the spec: deep structural equality; sequences are compared
    in order and mappings regardless of key order, which is equality of
    [value]. *)
Definition equal_dicts (a b : gmap string value) : bool := bool_decide (a = b).

(** Modelled from the spec: for each key of the overlay, two mappings are
    merged recursively and anything else is replaced by the overlay's value;
    keys absent from the overlay are kept.  The optional convention that an
    explicit null removes a key is not adopted. *)
Fixpoint merge_value (base overlay : value) : value :=
  match base, overlay with
  | VDict b, VDict o =>
      VDict (union_with (fun x y => Some (merge_value x y)) b o)
  | _, _ => overlay
  end.

(** Modelled from the spec: [merge_dicts] on two mappings, key by key. *)
Definition merge_dicts (base overlay : gmap string value) : gmap string value :=
  union_with (fun x y => Some (merge_value x y)) base overlay.

(** Modelled from the spec: the top-level keys on which [a] and [b] differ,
    each with the value from [b]. *)
Definition diff_dicts (a b : gmap string value) : gmap string value :=
  filter (fun kv => a !! kv.1 <> Some kv.2) b.

End dict_utils.

(** ** Organizations *)

Module organizations.

(** Modelled from the spec: the [Organization] class lives in
    [plugins/module_utils/organizations.py], which is not part of the sources
    at hand.  The fields follow the positional arguments of the constructor
    call in [msp_to_organization]; the last one is the signing identity. *)
Record Organization := {
  name : string;
  msp_id : string;
  root_certs : value;
  intermediate_certs : value;
  admins : value;
  revocation_list : value;
  tls_root_certs : value;
  tls_intermediate_certs : value;
  fabric_node_ous : value;
  organizational_unit_identifiers : value;
  signing_identity : value
}.

End organizations.

(** ** MSP compiler *)

Module msp_utils.
Import organizations.

Definition get_default_admins_policy (organization : Organization) : value :=
  dict [
    ("type", VInt 1);
    ("value", dict [
       ("identities", VList [
          dict [
            ("principal", dict [
               ("msp_identifier", VStr (msp_id organization));
               ("role", VStr "ADMIN")]);
            ("principal_classification", VStr "ROLE")]]);
       ("rule", dict [
          ("n_out_of", dict [
             ("n", VInt 1);
             ("rules", VList [dict [("signed_by", VInt 0)]])])])])].

Definition get_default_readers_policy (organization : Organization) : value :=
  dict [
    ("type", VInt 1);
    ("value", dict [
       ("identities", VList [
          dict [
            ("principal", dict [
               ("msp_identifier", VStr (msp_id organization));
               ("role", VStr "MEMBER")]);
            ("principal_classification", VStr "ROLE")]]);
       ("rule", dict [
          ("n_out_of", dict [
             ("n", VInt 1);
             ("rules", VList [dict [("signed_by", VInt 0)]])])])])].

Definition get_default_writers_policy (organization : Organization) : value :=
  dict [
    ("type", VInt 1);
    ("value", dict [
       ("identities", VList [
          dict [
            ("principal", dict [
               ("msp_identifier", VStr (msp_id organization));
               ("role", VStr "MEMBER")]);
            ("principal_classification", VStr "ROLE")]]);
       ("rule", dict [
          ("n_out_of", dict [
             ("n", VInt 1);
             ("rules", VList [dict [("signed_by", VInt 0)]])])])])].

Definition get_default_endorsement_policy (organization : Organization) : value :=
  dict [
    ("type", VInt 1);
    ("value", dict [
       ("identities", VList [
          dict [
            ("principal", dict [
               ("msp_identifier", VStr (msp_id organization));
               ("role", VStr "MEMBER")]);
            ("principal_classification", VStr "ROLE")]]);
       ("rule", dict [
          ("n_out_of", dict [
             ("n", VInt 1);
             ("rules", VList [dict [("signed_by", VInt 0)]])])])])].

(** The [policies] mapping of the MSP: the three defaults, the endorsement
    policy when required, then the caller's policies, each stored under its
    name (a later assignment to the same key overwrites). *)
Definition msp_policies (organization : Organization)
    (endorsement_policy_required : bool)
    (policies : gmap string value) : gmap string value :=
  let initial : gmap string value :=
    list_to_map [
      ("Admins", dict [
         ("mod_policy", VStr "Admins");
         ("policy", get_default_admins_policy organization)]);
      ("Readers", dict [
         ("mod_policy", VStr "Admins");
         ("policy", get_default_readers_policy organization)]);
      ("Writers", dict [
         ("mod_policy", VStr "Admins");
         ("policy", get_default_writers_policy organization)])] in
  let with_endorsement :=
    if endorsement_policy_required
    then <["Endorsement" := dict [
             ("mod_policy", VStr "Admins");
             ("policy", get_default_endorsement_policy organization)]]> initial
    else initial in
  map_fold
    (fun policyName policy acc =>
       <[policyName := dict [("mod_policy", VStr "Admins"); ("policy", policy)]]> acc)
    with_endorsement policies.

Definition organization_to_msp (organization : Organization)
    (endorsement_policy_required : bool)
    (policies : gmap string value) : value :=
  dict [
    ("groups", dict []);
    ("mod_policy", VStr "Admins");
    ("policies", VDict (msp_policies organization endorsement_policy_required policies));
    ("values", dict [
       ("MSP", dict [
          ("mod_policy", VStr "Admins");
          ("value", dict [
             ("config", dict [
                ("admins", admins organization);
                ("crypto_config", dict [
                   ("identity_identifier_hash_function", VStr "SHA256");
                   ("signature_hash_family", VStr "SHA2")]);
                ("fabric_node_ous", fabric_node_ous organization);
                ("intermediate_certs", intermediate_certs organization);
                ("name", VStr (msp_id organization));
                ("organizational_unit_identifiers",
                   organizational_unit_identifiers organization);
                ("revocation_list", revocation_list organization);
                ("root_certs", root_certs organization);
                ("signing_identity", VNone);
                ("tls_intermediate_certs", tls_intermediate_certs organization);
                ("tls_root_certs", tls_root_certs organization)]);
             ("type", VInt 0)])])])].

Definition msp_to_organization (msp_id : string) (msp : value)
    : result Organization :=
  values <-- getitem msp "values" ;;
  msp_value <-- getitem values "MSP" ;;
  value_ <-- getitem msp_value "value" ;;
  msp_config <-- getitem value_ "config" ;;
  root_certs <-- getitem msp_config "root_certs" ;;
  intermediate_certs <-- getitem msp_config "intermediate_certs" ;;
  admins <-- getitem msp_config "admins" ;;
  revocation_list <-- getitem msp_config "revocation_list" ;;
  tls_root_certs <-- getitem msp_config "tls_root_certs" ;;
  tls_intermediate_certs <-- getitem msp_config "tls_intermediate_certs" ;;
  fabric_node_ous <-- getitem msp_config "fabric_node_ous" ;;
  organizational_unit_identifiers <--
    getitem msp_config "organizational_unit_identifiers" ;;
  Ok (Build_Organization msp_id msp_id root_certs intermediate_certs admins
        revocation_list tls_root_certs tls_intermediate_certs fabric_node_ous
        organizational_unit_identifiers VNone).

(** *** Writing an identity out as an MSP directory *)

(** What [convert_identity_to_msp_path] reads of an enrolled identity. *)
Record Identity := {
  cert : value;
  ca : value;
  private_key : value
}.

(** The operations on the file system, in the order they are made. *)
Inductive fs_call :=
| fs_mkdtemp
| fs_mkdir (path : string)
| fs_write (path : string) (data : value).

(** The file system, over a state [F]: [tempfile.mkdtemp], [os.mkdir] and
    writing a file opened with mode ['wb']. *)
Record FileSystem (F : Type) := {
  mkdtemp : F -> result (string * F);
  mkdir : string -> F -> result (unit * F);
  write_file : string -> value -> F -> result (unit * F)
}.
Arguments mkdtemp {F} _ _.
Arguments mkdir {F} _ _ _.
Arguments write_file {F} _ _ _ _.

Definition FS (F A : Type) : Type :=
  F * list fs_call -> result A * (F * list fs_call).

Definition fs_ret {F A} (a : A) : FS F A := fun w => (Ok a, w).

Definition fs_raise {F A} (e : pyexc) : FS F A := fun w => (Raise e, w).

Definition fs_bind {F A B} (m : FS F A) (k : A -> FS F B) : FS F B :=
  fun w =>
    match m w with
    | (Ok a, w') => k a w'
    | (Raise e, w') => (Raise e, w')
    end.

(** An operation is logged, then it fails, leaving the file system as it
    was, or it answers and moves the file system. *)
Definition fs_do {F A} (c : fs_call) (op : F -> result (A * F)) : FS F A :=
  fun w =>
    match op w.1 with
    | Ok (a, f') => (Ok a, (f', w.2 ++ [c]))
    | Raise e => (Raise e, (w.1, w.2 ++ [c]))
    end.

Notation "x <~~ m ;; k" := (fs_bind m (fun x => k))
  (at level 100, m at next level, right associativity).

Fixpoint ends_with_sep (s : string) : bool :=
  match s with
  | EmptyString => false
  | String c EmptyString => bool_decide (c = "/"%char)
  | String _ rest => ends_with_sep rest
  end.

(** [os.path.join(a, b)] on a POSIX system. *)
Definition path_join (a b : string) : string :=
  if String.prefix "/" b then b
  else if String.eqb a "" || ends_with_sep a then a +:+ b
  else a +:+ "/" +:+ b.

Section convert.
Context {F : Type} (fs : FileSystem F).

Definition convert_identity_to_msp_path (identity : Identity) (path : string)
    : FS F string :=
  if negb (truthy (ca identity)) then
    fs_raise (PyException [Lit
      "The specified identity cannot be used as it does not have a CA field"])
  else
    msp_path <~~ (if String.eqb path "temp"
                  then fs_do fs_mkdtemp (mkdtemp fs)
                  else fs_ret path) ;;
    let admincerts_path := path_join msp_path "admincerts" in
    _ <~~ fs_do (fs_mkdir admincerts_path) (mkdir fs admincerts_path) ;;
    _ <~~ fs_do (fs_write (path_join admincerts_path "cert.pem") (cert identity))
            (write_file fs (path_join admincerts_path "cert.pem") (cert identity)) ;;
    let cacerts_path := path_join msp_path "cacerts" in
    _ <~~ fs_do (fs_mkdir cacerts_path) (mkdir fs cacerts_path) ;;
    _ <~~ fs_do (fs_write (path_join cacerts_path "cert.pem") (ca identity))
            (write_file fs (path_join cacerts_path "cert.pem") (ca identity)) ;;
    let signcerts_path := path_join msp_path "signcerts" in
    _ <~~ fs_do (fs_mkdir signcerts_path) (mkdir fs signcerts_path) ;;
    _ <~~ fs_do (fs_write (path_join signcerts_path "cert.pem") (cert identity))
            (write_file fs (path_join signcerts_path "cert.pem") (cert identity)) ;;
    let keystore_path := path_join msp_path "keystore" in
    _ <~~ fs_do (fs_mkdir keystore_path) (mkdir fs keystore_path) ;;
    _ <~~ (if truthy (private_key identity)
           then fs_do (fs_write (path_join keystore_path "key.pem")
                         (private_key identity))
                  (write_file fs (path_join keystore_path "key.pem")
                     (private_key identity))
           else fs_ret ()) ;;
    fs_ret msp_path.

End convert.

End msp_utils.

(** ** Ordering service node reconciler *)

Module ordering_service_node.
Import dict_utils.

Inductive state_choice := present | absent.

Record hsm_params := {
  pkcs11endpoint : option string;
  label : string;
  pin : string
}.

(** [module.params], after the argument specification has been applied. *)
Record module_params := {
  p_state : state_choice;
  p_name : string;
  p_msp_id : option string;
  p_orderer_type : string;
  p_system_channel_id : string;
  p_config_block : option string;
  p_enrollment_id : option string;
  p_enrollment_secret : option string;
  p_admins : option (list string);
  p_crypto : option (gmap string value);
  p_config_override : option (gmap string value);
  p_resources : option (gmap string value);
  p_storage : gmap string value;
  p_hsm : option hsm_params;
  p_zone : option string;
  p_version : option string;
  p_wait_timeout : Z
}.

(** [module.params['resources'] = dict()] and
    [module.params['storage'] = dict()]. *)
Definition clear_resources_and_storage (params : module_params) : module_params :=
  {| p_state := p_state params;
     p_name := p_name params;
     p_msp_id := p_msp_id params;
     p_orderer_type := p_orderer_type params;
     p_system_channel_id := p_system_channel_id params;
     p_config_block := p_config_block params;
     p_enrollment_id := p_enrollment_id params;
     p_enrollment_secret := p_enrollment_secret params;
     p_admins := p_admins params;
     p_crypto := p_crypto params;
     p_config_override := p_config_override params;
     p_resources := Some ∅;
     p_storage := ∅;
     p_hsm := p_hsm params;
     p_zone := p_zone params;
     p_version := p_version params;
     p_wait_timeout := p_wait_timeout params |}.

(** What the module reads of a certificate authority: the host name and the
    port of its [api_url] (the port already rendered by [str]), its CA names
    and its certificate. *)
Record certificate_authority := {
  ca_hostname : value;
  ca_port : string;
  ca_name : value;
  tlsca_name : value;
  pem : value
}.

(** The calls made on the console and on the ordering service node object. *)
Inductive call :=
| call_get_component_by_display_name (kind name : string)
| call_is_free_cluster
| call_delete_ordering_service_node (id : value)
| call_delete_ext_ordering_service_node (id : value)
| call_resolve_ordering_service_node_version (version : string)
| call_resolve_peer_version (version : string)
| call_create_ordering_service (data : value)
| call_update_ordering_service_node (id : value) (data : gmap string value)
| call_edit_admin_certs (id : value) (append remove : list string)
| call_submit_config_block (id : value) (config_block : string)
| call_edit_ordering_service_node (id : value) (data : value)
| call_extract_ordering_service_node_info (node : value)
| call_wait_for (timeout : Z).

(** The calls that change the remote state. *)
Definition is_write (c : call) : bool :=
  match c with
  | call_delete_ordering_service_node _
  | call_delete_ext_ordering_service_node _
  | call_create_ordering_service _
  | call_update_ordering_service_node _ _
  | call_edit_admin_certs _ _ _
  | call_submit_config_block _ _
  | call_edit_ordering_service_node _ _ => true
  | _ => false
  end.

(** The method behind a call. *)
Definition call_name (c : call) : string :=
  match c with
  | call_get_component_by_display_name _ _ => "get_component_by_display_name"
  | call_is_free_cluster => "is_free_cluster"
  | call_delete_ordering_service_node _ => "delete_ordering_service_node"
  | call_delete_ext_ordering_service_node _ => "delete_ext_ordering_service_node"
  | call_resolve_ordering_service_node_version _ =>
      "resolve_ordering_service_node_version"
  | call_resolve_peer_version _ => "resolve_peer_version"
  | call_create_ordering_service _ => "create_ordering_service"
  | call_update_ordering_service_node _ _ => "update_ordering_service_node"
  | call_edit_admin_certs _ _ _ => "edit_admin_certs"
  | call_submit_config_block _ _ => "submit_config_block"
  | call_edit_ordering_service_node _ _ => "edit_ordering_service_node"
  | call_extract_ordering_service_node_info _ =>
      "extract_ordering_service_node_info"
  | call_wait_for _ => "wait_for"
  end.

(** The external collaborators of [main], over a remote state [R]: the
    console client, the helpers of [module_utils.utils], the
    [OrderingServiceNode] class, [normalize_whitespace], the second
    construction of the module, the file system and base64. *)
Record Console (R : Type) := {
  get_component_by_display_name : string -> string -> R -> result (value * R);
  is_free_cluster : R -> result (bool * R);
  delete_ordering_service_node : value -> R -> result (unit * R);
  delete_ext_ordering_service_node : value -> R -> result (unit * R);
  resolve_ordering_service_node_version : string -> R -> result (value * R);
  resolve_peer_version : string -> R -> result (value * R);
  create_ordering_service : value -> R -> result (value * R);
  update_ordering_service_node :
    value -> gmap string value -> R -> result (value * R);
  edit_admin_certs : value -> list string -> list string -> R -> result (unit * R);
  submit_config_block : value -> string -> R -> result (unit * R);
  edit_ordering_service_node : value -> value -> R -> result (value * R);
  extract_ordering_service_node_info : value -> R -> result (value * R);
  get_ordering_service_by_module :
    module_params -> R -> result (list (value * value) * R);
  get_certificate_authority_by_module :
    module_params -> R -> result (certificate_authority * R);
  from_json : value -> result value;
  consenter_proposal_fin : value -> bool;
  wait_for : value -> Z -> R -> result (unit * R);
  to_json : value -> value;
  normalize_whitespace : string -> string;
  read_file : string -> R -> result (string * R);
  b64encode : string -> string
}.
Arguments get_component_by_display_name {R} _ _ _ _.
Arguments is_free_cluster {R} _ _.
Arguments delete_ordering_service_node {R} _ _ _.
Arguments delete_ext_ordering_service_node {R} _ _ _.
Arguments resolve_ordering_service_node_version {R} _ _ _.
Arguments resolve_peer_version {R} _ _ _.
Arguments create_ordering_service {R} _ _ _.
Arguments update_ordering_service_node {R} _ _ _ _.
Arguments edit_admin_certs {R} _ _ _ _ _.
Arguments submit_config_block {R} _ _ _ _.
Arguments edit_ordering_service_node {R} _ _ _ _.
Arguments extract_ordering_service_node_info {R} _ _ _.
Arguments get_ordering_service_by_module {R} _ _ _.
Arguments get_certificate_authority_by_module {R} _ _ _.
Arguments from_json {R} _ _.
Arguments consenter_proposal_fin {R} _ _.
Arguments wait_for {R} _ _ _ _.
Arguments to_json {R} _ _.
Arguments normalize_whitespace {R} _ _.
Arguments read_file {R} _ _ _.
Arguments b64encode {R} _ _.

(** *** The monad of [main]: remote state, log of calls, exceptions *)

Definition M (R A : Type) : Type := R * list call -> result A * (R * list call).

Definition ret {R A} (a : A) : M R A := fun w => (Ok a, w).

Definition raise {R A} (e : pyexc) : M R A := fun w => (Raise e, w).

Definition bind {R A B} (m : M R A) (k : A -> M R B) : M R B :=
  fun w =>
    match m w with
    | (Ok a, w') => k a w'
    | (Raise e, w') => (Raise e, w')
    end.

Definition lift {R A} (r : result A) : M R A := fun w => (r, w).

(** A call on a collaborator: it is logged, then it either fails, leaving the
    remote state as it was, or answers and moves the remote state. *)
Definition invoke {R A} (c : call) (op : R -> result (A * R)) : M R A :=
  fun w =>
    match op w.1 with
    | Ok (a, r') => (Ok a, (r', w.2 ++ [c]))
    | Raise e => (Raise e, (w.1, w.2 ++ [c]))
    end.

(** A collaborator that is not part of the console's interface. *)
Definition perform {R A} (op : R -> result (A * R)) : M R A :=
  fun w =>
    match op w.1 with
    | Ok (a, r') => (Ok a, (r', w.2))
    | Raise e => (Raise e, w)
    end.

Notation "x <~ m ;; k" := (bind m (fun x => k))
  (at level 100, m at next level, right associativity).

Fixpoint result_mapM {A B} (f : A -> result B) (l : list A) : result (list B) :=
  match l with
  | [] => Ok []
  | x :: rest =>
      y <-- f x ;;
      ys <-- result_mapM f rest ;;
      Ok (y :: ys)
  end.

Definition of_option_str (o : option string) : value :=
  match o with
  | Some s => VStr s
  | None => VNone
  end.

Definition of_option_dict (o : option (gmap string value)) : value :=
  match o with
  | Some d => VDict d
  | None => VNone
  end.

(** *** Pure steps of the update path *)

(** "never send the limits back": [del resources[thing]['limits']] when both
    keys are there. *)
Definition strip_limits (thing : string) (resources : value) : result value :=
  has_thing <-- contains thing resources ;;
  if has_thing : bool then
    inner <-- getitem resources thing ;;
    has_limits <-- contains "limits" inner ;;
    if has_limits : bool then
      inner' <-- delitem inner "limits" ;;
      setitem resources thing inner'
    else Ok resources
  else Ok resources.

(** The two scrubbing steps on the observed node, which is mutated in place:
    the result is the node as the rest of the update path sees it. *)
Definition scrub_resources (ordering_service_node : value)
    : result (gmap string value) :=
  resources <-- getitem ordering_service_node "resources" ;;
  resources <-- strip_limits "orderer" resources ;;
  resources <-- strip_limits "proxy" resources ;;
  resources <-- pop resources "init" ;;
  match ordering_service_node with
  | VDict d => Ok (<["resources" := resources]> d)
  | _ => Raise (TypeError "subscript")
  end.

(** The expected configuration of the update path, before the version is
    resolved: the four parameters, each dropped when it is [None]. *)
Definition expected_update_configuration (params : module_params)
    : gmap string value :=
  let e0 : gmap string value :=
    list_to_map [
      ("config_override", of_option_dict (p_config_override params));
      ("resources", of_option_dict (p_resources params));
      ("crypto", of_option_dict (p_crypto params));
      ("version", of_option_str (p_version params))] in
  let e1 := if bool_decide (e0 !! "config_override" = Some VNone)
            then delete "config_override" e0 else e0 in
  let e2 := if bool_decide (e1 !! "resources" = Some VNone)
            then delete "resources" e1 else e1 in
  let e3 := if bool_decide (e2 !! "crypto" = Some VNone)
            then delete "crypto" e2 else e2 in
  if bool_decide (e3 !! "version" = Some VNone)
  then delete "version" e3 else e3.

Definition permitted_changes : list string :=
  ["resources"; "config_override"; "version"; "crypto"].

(** The loop over the keys of the diff that rejects a banned change. *)
Fixpoint check_changes (changes : list string)
    (ordering_service_node new_ordering_service_node : gmap string value)
    : result unit :=
  match changes with
  | [] => Ok ()
  | change :: rest =>
      if bool_decide (change ∈ permitted_changes)
      then check_changes rest ordering_service_node new_ordering_service_node
      else
        old <-- getitem (VDict ordering_service_node) change ;;
        new <-- getitem (VDict new_ordering_service_node) change ;;
        Raise (PyException [
          Fmt (VStr change); Lit " cannot be changed from "; Fmt old;
          Lit " to "; Fmt new; Lit " for existing ordering service node"])
  end.

Definition check_permitted (diff ordering_service_node
    new_ordering_service_node : gmap string value) : result unit :=
  check_changes (map_to_list diff).*1 ordering_service_node
    new_ordering_service_node.

(** "apply the change to the entire resources". *)
Definition with_entire_resources (params : module_params)
    (diff new_ordering_service_node : gmap string value)
    : result (gmap string value) :=
  match p_resources params with
  | Some _ =>
      resources <-- getitem (VDict new_ordering_service_node) "resources" ;;
      Ok (<["resources" := resources]> diff)
  | None => Ok diff
  end.

(** *** Pure steps of the admin certificate comparison *)

Definition crypto_admincerts (crypto : gmap string value) (config_type : string)
    : result value :=
  a <-- get (VDict crypto) config_type (dict []) ;;
  b <-- get a "component" (dict []) ;;
  get b "admincerts" VNone.

(** The desired admin certificates: the [admins] parameter, else the ones of
    [crypto.enrollment.component], else the ones of [crypto.msp.component]. *)
Definition find_expected_admins (params : module_params) : result value :=
  let expected_admins :=
    match p_admins params with
    | Some l => VList (VStr <$> l)
    | None => VNone
    end in
  if truthy expected_admins then Ok expected_admins
  else
    match p_crypto params with
    | Some crypto =>
        if truthy (VDict crypto) then
          from_enrollment <-- crypto_admincerts crypto "enrollment" ;;
          if truthy from_enrollment then Ok from_enrollment
          else crypto_admincerts crypto "msp"
        else Ok expected_admins
    | None => Ok expected_admins
    end.

(** The strings that [map(normalize_whitespace, v)] goes through: the
    elements of a list, the characters of a string, the keys of a mapping;
    anything else is not iterable.  Admin certificates are strings; what
    [normalize_whitespace] does with an element that is not one is outside
    the sources at hand and is reported as a [TypeError]. *)
Definition as_str_list (v : value) : result (list string) :=
  match v with
  | VList l =>
      result_mapM
        (fun x => match x with
                  | VStr s => Ok s
                  | _ => Raise (TypeError "normalize_whitespace")
                  end) l
  | VStr s => Ok ((fun c => String c EmptyString) <$> String.list_ascii_of_string s)
  | VDict d => Ok (map_to_list d).*1
  | _ => Raise (TypeError "iter")
  end.

Definition nonempty {A} (l : list A) : bool :=
  match l with
  | [] => false
  | _ => true
  end.

(** *** Pure steps of the create path *)

Definition default_resources : gmap string value :=
  list_to_map [
    ("type", VStr "dict");
    ("default", dict []);
    ("options", dict [
       ("orderer", dict [
          ("type", VStr "dict");
          ("default", dict []);
          ("options", dict [
             ("requests", dict [
                ("type", VStr "dict");
                ("default", dict []);
                ("options", dict [
                   ("cpu", dict [("type", VStr "str"); ("default", VStr "250m")]);
                   ("memory", dict [("type", VStr "str"); ("default", VStr "500M")])])])])]);
       ("proxy", dict [
          ("type", VStr "dict");
          ("default", dict []);
          ("options", dict [
             ("requests", dict [
                ("type", VStr "dict");
                ("default", dict []);
                ("options", dict [
                   ("cpu", dict [("type", VStr "str"); ("default", VStr "100m")]);
                   ("memory", dict [("type", VStr "str"); ("default", VStr "200M")])])])])])])].

(** "strip out the storage class if it is not specified". *)
Definition strip_storage_class (entry : value) : result value :=
  has_class <-- contains "class" entry ;;
  if has_class : bool then
    storage_class <-- getitem entry "class" ;;
    if bool_decide (storage_class = VNone) then delitem entry "class"
    else Ok entry
  else Ok entry.

Definition strip_storage_classes (storage : gmap string value)
    : result (gmap string value) :=
  kvs <-- result_mapM
            (fun kv => v <-- strip_storage_class kv.2 ;; Ok (kv.1, v))
            (map_to_list storage) ;;
  Ok (list_to_map kvs).

(** [merge_dicts(resources, module.params['resources'])]: the engine is total,
    an overlay without keys leaves the base as it is. *)
Definition merge_optional (base : gmap string value)
    (overlay : option (gmap string value)) : gmap string value :=
  match overlay with
  | Some o => merge_dicts base o
  | None => base
  end.

Definition hsm_config_override (hsm : hsm_params) : gmap string value :=
  list_to_map [
    ("General", dict [
       ("BCCSP", dict [
          ("Default", VStr "PKCS11");
          ("PKCS11", dict [
             ("Label", VStr (label hsm));
             ("Pin", VStr (pin hsm))])])])].

(** The HSM step on the expected configuration. *)
Definition add_hsm (params : module_params) (expected : gmap string value)
    : result (gmap string value) :=
  match p_hsm params with
  | Some hsm =>
      let expected :=
        match pkcs11endpoint hsm with
        | Some endpoint =>
            if truthy (VStr endpoint)
            then <["hsm" := dict [("pkcs11endpoint", VStr endpoint)]]> expected
            else expected
        | None => expected
        end in
      config_override <-- getitem (VDict expected) "config_override" ;;
      match config_override with
      | VDict target =>
          Ok (<["config_override" :=
                  VDict (merge_dicts target (hsm_config_override hsm))]> expected)
      | _ => Raise (TypeError "merge_dicts")
      end
  | None => Ok expected
  end.

Definition crypto_ca_config (params : module_params)
    (certificate_authority : certificate_authority) (name : value) : value :=
  dict [
    ("host", ca_hostname certificate_authority);
    ("port", VStr (ca_port certificate_authority));
    ("name", name);
    ("tls_cert", pem certificate_authority);
    ("enroll_id", of_option_str (p_enrollment_id params));
    ("enroll_secret", of_option_str (p_enrollment_secret params))].

Inductive outcome :=
| exit_json (changed : bool) (ordering_service_node : option value)
| fail_json (msg : pyexc).

Section reconciler.
Context {R : Type} (console : Console R).

Definition get_crypto_enrollment_component_config (params : module_params)
    : value :=
  dict [("admincerts",
         match p_admins params with
         | Some l => VList (VStr <$> l)
         | None => VNone
         end)].

Definition get_crypto_enrollment_ca_config (params : module_params) : M R value :=
  certificate_authority <~
    perform (get_certificate_authority_by_module console params) ;;
  ret (crypto_ca_config params certificate_authority
         (ca_name certificate_authority)).

Definition get_crypto_enrollment_tlsca_config (params : module_params)
    : M R value :=
  certificate_authority <~
    perform (get_certificate_authority_by_module console params) ;;
  ret (crypto_ca_config params certificate_authority
         (tlsca_name certificate_authority)).

Definition get_crypto_enrollment_config (params : module_params) : M R value :=
  let component := get_crypto_enrollment_component_config params in
  ca <~ get_crypto_enrollment_ca_config params ;;
  tlsca <~ get_crypto_enrollment_tlsca_config params ;;
  ret (dict [("component", component); ("ca", ca); ("tlsca", tlsca)]).

Definition get_crypto (params : module_params) : M R value :=
  enrollment <~ get_crypto_enrollment_config params ;;
  ret (dict [("enrollment", enrollment)]).

(** The branch [state == 'present' and not ordering_service_node_exists].
    [first_params] are the parameters of the module built at the start of
    [main], [create_module] is the outcome of building the module again with
    the stricter requirements. *)
Definition create_path (first_params : module_params)
    (create_module : result module_params) : M R (value * bool) :=
  nodes <~ perform (get_ordering_service_by_module console first_params) ;;
  first_node <~
    match nodes with
    | n :: _ => ret n
    | [] => raise (IndexError "nodes")
    end ;;
  let cluster_id := first_node.1 in
  let cluster_name := first_node.2 in
  params <~ lift create_module ;;
  storage <~ lift (strip_storage_classes (p_storage params)) ;;
  let resources := merge_optional (copy_dict default_resources) (p_resources params) in
  let expected : gmap string value :=
    list_to_map [
      ("display_name", VStr (p_name first_params));
      ("cluster_id", cluster_id);
      ("cluster_name", cluster_name);
      ("msp_id", of_option_str (p_msp_id params));
      ("orderer_type", VStr (p_orderer_type params));
      ("system_channel_id", VStr (p_system_channel_id params));
      ("config_override", of_option_dict (p_config_override params));
      ("resources", VDict resources);
      ("storage", VDict storage)] in
  free <~ invoke call_is_free_cluster (is_free_cluster console) ;;
  let expected :=
    if free : bool then delete "storage" (delete "resources" expected)
    else expected in
  expected <~ lift (add_hsm params expected) ;;
  let expected :=
    match p_zone params with
    | Some zone => <["zone" := VStr zone]> expected
    | None => expected
    end in
  expected <~
    match p_version params with
    | Some version =>
        resolved_version <~
          invoke (call_resolve_ordering_service_node_version version)
            (resolve_ordering_service_node_version console version) ;;
        ret (<["version" := resolved_version]> expected)
    | None => ret expected
    end ;;
  config_override <~ lift (getitem (VDict expected) "config_override") ;;
  let expected := <["config_override" := VList [config_override]]> expected in
  let expected :=
    match p_zone params with
    | Some zone => <["zone" := VList [VStr zone]]> expected
    | None => expected
    end in
  crypto <~ get_crypto params ;;
  let expected := <["crypto" := VList [crypto]]> expected in
  ordering_service <~
    invoke (call_create_ordering_service (VDict expected))
      (create_ordering_service console (VDict expected)) ;;
  ordering_service_node <~
    match ordering_service with
    | VList (n :: _) => ret n
    | VList [] => raise (IndexError "ordering_service")
    | _ => ret ordering_service
    end ;;
  ret (ordering_service_node, true).

(** The expected configuration of the update path, with the version
    resolved by the console. *)
Definition expected_for_update (params : module_params)
    : M R (gmap string value) :=
  let expected := expected_update_configuration params in
  match p_version params with
  | Some version =>
      resolved_version <~
        invoke (call_resolve_peer_version version)
          (resolve_peer_version console version) ;;
      ret (<["version" := resolved_version]> expected)
  | None => ret expected
  end.

(** From the diff on: the check for banned changes, the payload, and the
    update call when the node has changed.  Returns the node to go on with
    and whether an update was made. *)
Definition apply_update (params : module_params)
    (ordering_service_node new_ordering_service_node diff : gmap string value)
    : M R (value * bool) :=
  _ <~ lift (check_permitted diff ordering_service_node
               new_ordering_service_node) ;;
  diff <~ lift (with_entire_resources params diff new_ordering_service_node) ;;
  let ordering_service_node_changed :=
    negb (equal_dicts ordering_service_node new_ordering_service_node) in
  if ordering_service_node_changed then
    id <~ lift (getitem (VDict ordering_service_node) "id") ;;
    updated <~
      invoke (call_update_ordering_service_node id diff)
        (update_ordering_service_node console id diff) ;;
    ret (updated, true)
  else ret (VDict ordering_service_node, false).

(** The comparison of the admin certificates; returns whether an edit was
    made.  The order of the two lists is the order in which the set
    differences are enumerated. *)
Definition reconcile_admin_certs (params : module_params)
    (ordering_service_node : value) : M R bool :=
  expected_admins <~ lift (find_expected_admins params) ;;
  if truthy expected_admins then
    expected_list <~ lift (as_str_list expected_admins) ;;
    let expected_admins_set : gset string :=
      list_to_set (normalize_whitespace console <$> expected_list) in
    actual_admins <~ lift (get ordering_service_node "admin_certs" VNone) ;;
    if bool_decide (actual_admins = VNone) then ret false
    else
      actual_list <~ lift (as_str_list actual_admins) ;;
      let actual_admins_set : gset string :=
        list_to_set (normalize_whitespace console <$> actual_list) in
      let append_admin_certs := elements (expected_admins_set ∖ actual_admins_set) in
      let remove_admin_certs := elements (actual_admins_set ∖ expected_admins_set) in
      if nonempty append_admin_certs || nonempty remove_admin_certs then
        id <~ lift (getitem ordering_service_node "id") ;;
        _ <~ invoke (call_edit_admin_certs id append_admin_certs remove_admin_certs)
               (edit_admin_certs console id append_admin_certs remove_admin_certs) ;;
        ret true
      else ret false
  else ret false.

(** The config block step; returns the node to go on with and whether the
    block was submitted. *)
Definition join_system_channel (params : module_params)
    (ordering_service_node : value) : M R (value * bool) :=
  fin <~ lift (getitem ordering_service_node "consenter_proposal_fin") ;;
  if truthy fin then ret (ordering_service_node, false)
  else
    match p_config_block params with
    | Some config_block_file =>
        if truthy (VStr config_block_file) then
          config_block <~ perform (read_file console config_block_file) ;;
          let config_block := b64encode console config_block in
          id <~ lift (getitem ordering_service_node "id") ;;
          _ <~ invoke (call_submit_config_block id config_block)
                 (submit_config_block console id config_block) ;;
          let data := dict [("consenter_proposal_fin", VBool true)] in
          edited <~ invoke (call_edit_ordering_service_node id data)
                      (edit_ordering_service_node console id data) ;;
          ret (edited, true)
        else ret (ordering_service_node, false)
    | None => ret (ordering_service_node, false)
    end.

(** The branch [state == 'present' and ordering_service_node_exists]. *)
Definition update_path (params : module_params) (ordering_service_node : value)
    : M R (value * bool) :=
  ordering_service_node <~ lift (scrub_resources ordering_service_node) ;;
  expected <~ expected_for_update params ;;
  let new_ordering_service_node :=
    merge_dicts (copy_dict ordering_service_node) expected in
  let diff := diff_dicts ordering_service_node new_ordering_service_node in
  updated <~ apply_update params ordering_service_node
               new_ordering_service_node diff ;;
  edited <~ reconcile_admin_certs params updated.1 ;;
  joined <~ join_system_channel params updated.1 ;;
  ret (joined.1, updated.2 || edited || joined.2).

(** The end of [main]: wait for the node when it has joined the system
    channel, and report. *)
Definition finish (params : module_params) (ordering_service_node : value)
    (changed : bool) : M R outcome :=
  info <~ invoke (call_extract_ordering_service_node_info ordering_service_node)
            (extract_ordering_service_node_info console ordering_service_node) ;;
  node <~ lift (from_json console info) ;;
  _ <~ (if consenter_proposal_fin console node
        then invoke (call_wait_for (p_wait_timeout params))
               (wait_for console node (p_wait_timeout params))
        else ret ()) ;;
  ret (exit_json changed (Some (to_json console node))).

(** The body of the [try] block.  [actual_params] is what [_load_params]
    returns, [params] the parameters of the module built at the start and
    [create_module] the outcome of building it again on the create path. *)
Definition main_body (actual_params : gmap string value)
    (params : module_params) (create_module : result module_params)
    : M R outcome :=
  ordering_service_node <~
    invoke (call_get_component_by_display_name "fabric-orderer" (p_name params))
      (get_component_by_display_name console "fabric-orderer" (p_name params)) ;;
  let ordering_service_node_exists :=
    negb (bool_decide (ordering_service_node = VNone)) in
  ordering_service_node_corrupt <~
    (if ordering_service_node_exists
     then lift (contains "deployment_attrs_missing" ordering_service_node)
     else ret false) ;;
  free <~ invoke call_is_free_cluster (is_free_cluster console) ;;
  params <~
    (if free : bool then
       if bool_decide (is_Some (actual_params !! "resources"))
          || bool_decide (is_Some (actual_params !! "storage"))
       then raise (PyException [Lit
         "Cannot specify resources or storage for a free IBM Kubernetes Service cluster"])
       else if ordering_service_node_exists
            then ret (clear_resources_and_storage params)
            else ret params
     else ret params) ;;
  match p_state params with
  | absent =>
      if ordering_service_node_exists then
        id <~ lift (getitem ordering_service_node "id") ;;
        _ <~ invoke (call_delete_ordering_service_node id)
               (delete_ordering_service_node console id) ;;
        ret (exit_json true None)
      else ret (exit_json false None)
  | present =>
      ordering_service_node_exists <~
        (if ordering_service_node_corrupt : bool then
           id <~ lift (getitem ordering_service_node "id") ;;
           _ <~ invoke (call_delete_ext_ordering_service_node id)
                  (delete_ext_ordering_service_node console id) ;;
           ret false
         else ret ordering_service_node_exists) ;;
      reconciled <~
        (if ordering_service_node_exists : bool
         then update_path params ordering_service_node
         else create_path params create_module) ;;
      finish params reconciled.1 reconciled.2
  end.

(** [main]: an exception of the body is reported through [fail_json]. *)
Definition main (actual_params : gmap string value)
    (params : module_params) (create_module : result module_params)
    (w : R * list call) : outcome * (R * list call) :=
  match main_body actual_params params create_module w with
  | (Ok out, w') => (out, w')
  | (Raise e, w') => (fail_json e, w')
  end.

End reconciler.

End ordering_service_node.

(** ** A console kept in memory, for running [main] on examples *)

Module fixtures.
Import ordering_service_node.

(** Removes blanks, tabs and line ends. *)
Fixpoint strip_whitespace (s : string) : string :=
  match s with
  | EmptyString => EmptyString
  | String c rest =>
      if bool_decide (c ∈ [" "; "009"; "010"; "013"]%char)
      then strip_whitespace rest
      else String c (strip_whitespace rest)
  end.

Definition sample_ca : certificate_authority :=
  {| ca_hostname := VStr "ca.example.org";
     ca_port := "7054";
     ca_name := VStr "ca";
     tlsca_name := VStr "tlsca";
     pem := VStr "LS0tLS1CRUdJTg==" |}.

(** Applies an incremental admin certificate edit to a stored node. *)
Definition apply_admin_certs (append remove : list string) (node : value) : value :=
  match node with
  | VDict d =>
      let current :=
        match d !! "admin_certs" with
        | Some (VList l) => l
        | _ => []
        end in
      let kept := filter (fun c => c ∉ (VStr <$> remove)) current in
      VDict (<["admin_certs" := VList (kept ++ (VStr <$> append))]> d)
  | _ => node
  end.

(** The remote state is the stored node, [VNone] when there is none.  An
    update replaces the top-level keys of the payload, a creation stores the
    request with an [id], an empty list of admin certificates and the join
    flag unset. *)
Definition memory_console : Console value :=
  {| get_component_by_display_name := fun _ _ r => Ok (r, r);
     is_free_cluster := fun r => Ok (false, r);
     delete_ordering_service_node := fun _ _ => Ok ((), VNone);
     delete_ext_ordering_service_node := fun _ _ => Ok ((), VNone);
     resolve_ordering_service_node_version := fun _ r => Ok (VStr "2.2.3", r);
     resolve_peer_version := fun _ r => Ok (VStr "2.2.5", r);
     create_ordering_service := fun data _ =>
       match data with
       | VDict d =>
           let node :=
             VDict (<["id" := VStr "orderer1"]>
                      (<["admin_certs" := VList []]>
                         (<["consenter_proposal_fin" := VBool false]> d))) in
           Ok (VList [node], node)
       | _ => Raise (RemoteError "bad request")
       end;
     update_ordering_service_node := fun _ data r =>
       match r with
       | VDict d => Ok (VDict (data ∪ d), VDict (data ∪ d))
       | _ => Raise (RemoteError "not found")
       end;
     edit_admin_certs := fun _ append remove r =>
       Ok ((), apply_admin_certs append remove r);
     submit_config_block := fun _ _ r => Ok ((), r);
     edit_ordering_service_node := fun _ data r =>
       match r, data with
       | VDict d, VDict e => Ok (VDict (e ∪ d), VDict (e ∪ d))
       | _, _ => Raise (RemoteError "not found")
       end;
     extract_ordering_service_node_info := fun node r => Ok (node, r);
     get_ordering_service_by_module := fun _ r =>
       Ok ([(VStr "cluster1", VStr "Ordering Service")], r);
     get_certificate_authority_by_module := fun _ r => Ok (sample_ca, r);
     from_json := fun info => Ok info;
     consenter_proposal_fin := fun node =>
       match node with
       | VDict d => truthy (default_or (d !! "consenter_proposal_fin") VNone)
       | _ => false
       end;
     wait_for := fun _ _ r => Ok ((), r);
     to_json := fun node => node;
     normalize_whitespace := strip_whitespace;
     read_file := fun _ r => Ok ("block", r);
     b64encode := fun s => s |}.

Definition sample_params : module_params :=
  {| p_state := present;
     p_name := "Ordering Service Node 2";
     p_msp_id := Some "OrdererOrgMSP";
     p_orderer_type := "raft";
     p_system_channel_id := "testchainid";
     p_config_block := None;
     p_enrollment_id := None;
     p_enrollment_secret := None;
     p_admins := None;
     p_crypto := None;
     p_config_override := Some ∅;
     p_resources := None;
     p_storage := list_to_map [("orderer", dict [("size", VStr "100Gi"); ("class", VNone)])];
     p_hsm := None;
     p_zone := None;
     p_version := None;
     p_wait_timeout := 60 |}.


Definition with_resources (r : option (gmap string value)) (p : module_params)
    : module_params :=
  {| p_state := p_state p; p_name := p_name p; p_msp_id := p_msp_id p;
     p_orderer_type := p_orderer_type p;
     p_system_channel_id := p_system_channel_id p;
     p_config_block := p_config_block p;
     p_enrollment_id := p_enrollment_id p;
     p_enrollment_secret := p_enrollment_secret p;
     p_admins := p_admins p; p_crypto := p_crypto p;
     p_config_override := p_config_override p;
     p_resources := r; p_storage := p_storage p;
     p_hsm := p_hsm p; p_zone := p_zone p; p_version := p_version p;
     p_wait_timeout := p_wait_timeout p |}.

Definition with_version (v : option string) (p : module_params) : module_params :=
  {| p_state := p_state p; p_name := p_name p; p_msp_id := p_msp_id p;
     p_orderer_type := p_orderer_type p;
     p_system_channel_id := p_system_channel_id p;
     p_config_block := p_config_block p;
     p_enrollment_id := p_enrollment_id p;
     p_enrollment_secret := p_enrollment_secret p;
     p_admins := p_admins p; p_crypto := p_crypto p;
     p_config_override := p_config_override p;
     p_resources := p_resources p; p_storage := p_storage p;
     p_hsm := p_hsm p; p_zone := p_zone p; p_version := v;
     p_wait_timeout := p_wait_timeout p |}.

Definition with_admins (a : option (list string)) (p : module_params)
    : module_params :=
  {| p_state := p_state p; p_name := p_name p; p_msp_id := p_msp_id p;
     p_orderer_type := p_orderer_type p;
     p_system_channel_id := p_system_channel_id p;
     p_config_block := p_config_block p;
     p_enrollment_id := p_enrollment_id p;
     p_enrollment_secret := p_enrollment_secret p;
     p_admins := a; p_crypto := p_crypto p;
     p_config_override := p_config_override p;
     p_resources := p_resources p; p_storage := p_storage p;
     p_hsm := p_hsm p; p_zone := p_zone p; p_version := p_version p;
     p_wait_timeout := p_wait_timeout p |}.

(** An existing, fully deployed node as the console reports it. *)
Definition sample_node : gmap string value :=
  list_to_map [
    ("id", VStr "orderer1");
    ("display_name", VStr "Ordering Service Node 2");
    ("msp_id", VStr "OrdererOrgMSP");
    ("config_override", dict []);
    ("resources", dict [
       ("orderer", dict [
          ("requests", dict [("cpu", VStr "250m"); ("memory", VStr "500M")]);
          ("limits", dict [("cpu", VStr "2")])]);
       ("proxy", dict [
          ("requests", dict [("cpu", VStr "100m"); ("memory", VStr "200M")])])]);
    ("admin_certs", VList [VStr "B"; VStr "C"]);
    ("consenter_proposal_fin", VBool true)].

(** [sample_node] once its limits are scrubbed. *)
Definition scrubbed_sample_node : gmap string value :=
  list_to_map [
    ("id", VStr "orderer1");
    ("display_name", VStr "Ordering Service Node 2");
    ("msp_id", VStr "OrdererOrgMSP");
    ("config_override", dict []);
    ("resources", dict [
       ("orderer", dict [
          ("requests", dict [("cpu", VStr "250m"); ("memory", VStr "500M")])]);
       ("proxy", dict [
          ("requests", dict [("cpu", VStr "100m"); ("memory", VStr "200M")])])]);
    ("admin_certs", VList [VStr "B"; VStr "C"]);
    ("consenter_proposal_fin", VBool true)].


(** Resources that differ from [sample_node] in the orderer limits only. *)
Definition other_limits : gmap string value :=
  list_to_map [("orderer", dict [("limits", dict [("cpu", VStr "1")])])].

(** The console holding [sample_node], with an empty log. *)
Definition start : value * list call := (VDict sample_node, []).

Definition outcome_changed (o : outcome) : option bool :=
  match o with
  | exit_json changed _ => Some changed
  | fail_json _ => None
  end.



Definition with_state (s : state_choice) (p : module_params) : module_params :=
  {| p_state := s; p_name := p_name p; p_msp_id := p_msp_id p;
     p_orderer_type := p_orderer_type p;
     p_system_channel_id := p_system_channel_id p;
     p_config_block := p_config_block p;
     p_enrollment_id := p_enrollment_id p;
     p_enrollment_secret := p_enrollment_secret p;
     p_admins := p_admins p; p_crypto := p_crypto p;
     p_config_override := p_config_override p;
     p_resources := p_resources p; p_storage := p_storage p;
     p_hsm := p_hsm p; p_zone := p_zone p; p_version := p_version p;
     p_wait_timeout := p_wait_timeout p |}.

Definition with_config_block (f : option string) (p : module_params)
    : module_params :=
  {| p_state := p_state p; p_name := p_name p; p_msp_id := p_msp_id p;
     p_orderer_type := p_orderer_type p;
     p_system_channel_id := p_system_channel_id p;
     p_config_block := f;
     p_enrollment_id := p_enrollment_id p;
     p_enrollment_secret := p_enrollment_secret p;
     p_admins := p_admins p; p_crypto := p_crypto p;
     p_config_override := p_config_override p;
     p_resources := p_resources p; p_storage := p_storage p;
     p_hsm := p_hsm p; p_zone := p_zone p; p_version := p_version p;
     p_wait_timeout := p_wait_timeout p |}.

Definition with_config_override (c : option (gmap string value))
    (p : module_params) : module_params :=
  {| p_state := p_state p; p_name := p_name p; p_msp_id := p_msp_id p;
     p_orderer_type := p_orderer_type p;
     p_system_channel_id := p_system_channel_id p;
     p_config_block := p_config_block p;
     p_enrollment_id := p_enrollment_id p;
     p_enrollment_secret := p_enrollment_secret p;
     p_admins := p_admins p; p_crypto := p_crypto p;
     p_config_override := c;
     p_resources := p_resources p; p_storage := p_storage p;
     p_hsm := p_hsm p; p_zone := p_zone p; p_version := p_version p;
     p_wait_timeout := p_wait_timeout p |}.

Definition with_hsm (h : option hsm_params) (p : module_params) : module_params :=
  {| p_state := p_state p; p_name := p_name p; p_msp_id := p_msp_id p;
     p_orderer_type := p_orderer_type p;
     p_system_channel_id := p_system_channel_id p;
     p_config_block := p_config_block p;
     p_enrollment_id := p_enrollment_id p;
     p_enrollment_secret := p_enrollment_secret p;
     p_admins := p_admins p; p_crypto := p_crypto p;
     p_config_override := p_config_override p;
     p_resources := p_resources p; p_storage := p_storage p;
     p_hsm := h; p_zone := p_zone p; p_version := p_version p;
     p_wait_timeout := p_wait_timeout p |}.

Definition with_zone (z : option string) (p : module_params) : module_params :=
  {| p_state := p_state p; p_name := p_name p; p_msp_id := p_msp_id p;
     p_orderer_type := p_orderer_type p;
     p_system_channel_id := p_system_channel_id p;
     p_config_block := p_config_block p;
     p_enrollment_id := p_enrollment_id p;
     p_enrollment_secret := p_enrollment_secret p;
     p_admins := p_admins p; p_crypto := p_crypto p;
     p_config_override := p_config_override p;
     p_resources := p_resources p; p_storage := p_storage p;
     p_hsm := p_hsm p; p_zone := z; p_version := p_version p;
     p_wait_timeout := p_wait_timeout p |}.

Definition sample_hsm : hsm_params :=
  {| pkcs11endpoint := Some "tcp://pkcs11-proxy.example.org:2345";
     label := "fabric";
     pin := "987654" |}.

(** [sample_node] as the console reports it once its deployment is gone. *)
Definition corrupt_node : gmap string value :=
  <["deployment_attrs_missing" := VBool true]> sample_node.

(** [sample_node] before it has joined the system channel. *)
Definition pending_node : gmap string value :=
  <["consenter_proposal_fin" := VBool false]> sample_node.

(** The console [c] on a free cluster. *)
Definition on_free_cluster {R} (c : Console R) : Console R :=
  {| get_component_by_display_name := get_component_by_display_name c;
     is_free_cluster := fun r => Ok (true, r);
     delete_ordering_service_node := delete_ordering_service_node c;
     delete_ext_ordering_service_node := delete_ext_ordering_service_node c;
     resolve_ordering_service_node_version :=
       resolve_ordering_service_node_version c;
     resolve_peer_version := resolve_peer_version c;
     create_ordering_service := create_ordering_service c;
     update_ordering_service_node := update_ordering_service_node c;
     edit_admin_certs := edit_admin_certs c;
     submit_config_block := submit_config_block c;
     edit_ordering_service_node := edit_ordering_service_node c;
     extract_ordering_service_node_info := extract_ordering_service_node_info c;
     get_ordering_service_by_module := get_ordering_service_by_module c;
     get_certificate_authority_by_module :=
       get_certificate_authority_by_module c;
     from_json := from_json c;
     consenter_proposal_fin := consenter_proposal_fin c;
     wait_for := wait_for c;
     to_json := to_json c;
     normalize_whitespace := normalize_whitespace c;
     read_file := read_file c;
     b64encode := b64encode c |}.

Definition sample_organization : organizations.Organization :=
  organizations.Build_Organization "Org1" "Org1MSP"
    (VList [VStr "cm9vdA=="]) (VList []) (VList [VStr "YWRtaW4="]) (VList [])
    (VList [VStr "dGxzcm9vdA=="]) (VList [])
    (dict [("enable", VBool true)]) (VList []) VNone.

(** An MSP whose config stops after the intermediate certificates. *)
Definition truncated_msp : value :=
  dict [("values", dict [("MSP", dict [("value", dict [("config", dict [
    ("root_certs", VList [VStr "cm9vdA=="]);
    ("intermediate_certs", VList [])])])])])].

Definition sample_identity : msp_utils.Identity :=
  {| msp_utils.cert := VStr "Y2VydA==";
     msp_utils.ca := VStr "Y2E=";
     msp_utils.private_key := VStr "a2V5" |}.

Definition identity_without_ca : msp_utils.Identity :=
  {| msp_utils.cert := VStr "Y2VydA==";
     msp_utils.ca := VNone;
     msp_utils.private_key := VStr "a2V5" |}.

(** A file system kept in memory: a path holds a directory ([None]) or the
    data of a file; [mkdir] fails on a path that is taken. *)
Definition memory_file_system : msp_utils.FileSystem (gmap string (option value)) :=
  {| msp_utils.mkdtemp := fun f =>
       Ok ("/tmp/tmpk3x9", <["/tmp/tmpk3x9" := None]> f);
     msp_utils.mkdir := fun path f =>
       if bool_decide (is_Some (f !! path))
       then Raise (PyException [Lit "File exists: "; Fmt (VStr path)])
       else Ok ((), <[path := None]> f);
     msp_utils.write_file := fun path data f =>
       Ok ((), <[path := Some data]> f) |}.

End fixtures.

(** * Vocabulary of the statements *)

Section statement_vocabulary.
Import dict_utils ordering_service_node.
Context {R : Type} (console : Console R).

(** The shape of a default policy, read off the tree by subscripting: a
    signature policy (type 1) over one principal classified by ROLE, under a
    1-out-of-1 rule signed by the principal at index 0. *)
Definition is_single_role_policy (msp_identifier role : string) (policy : value)
    : Prop :=
  lookup_path ["type"] policy = Some (VInt 1) /\
  (exists identity,
     lookup_path ["value"; "identities"] policy = Some (VList [identity]) /\
     lookup_path ["principal_classification"] identity = Some (VStr "ROLE") /\
     lookup_path ["principal"; "msp_identifier"] identity
       = Some (VStr msp_identifier) /\
     lookup_path ["principal"; "role"] identity = Some (VStr role)) /\
  lookup_path ["value"; "rule"; "n_out_of"; "n"] policy = Some (VInt 1) /\
  lookup_path ["value"; "rule"; "n_out_of"; "rules"] policy
    = Some (VList [dict [("signed_by", VInt 0)]]).

(** The config sub-tree of an MSP holds every field that
    [msp_to_organization] reads; nothing is asked of its [name]. *)
Definition well_formed_msp (msp : value) : Prop :=
  exists config,
    lookup_path ["values"; "MSP"; "value"; "config"] msp = Some (VDict config) /\
    Forall (fun field => is_Some (config !! field))
      ["root_certs"; "intermediate_certs"; "admins"; "revocation_list";
       "tls_root_certs"; "tls_intermediate_certs"; "fabric_node_ous";
       "organizational_unit_identifiers"].

(** [m] only appends to the log, and every call it appends satisfies [P]. *)
Definition emits {A} (P : call -> Prop) (m : M R A) : Prop :=
  forall w r w', m w = (r, w') -> exists l, w'.2 = w.2 ++ l /\ Forall P l.

Definition optional_entry (k : string) (o : option value) : list (string * value) :=
  match o with
  | Some v => [(k, v)]
  | None => []
  end.

Definition is_update (c : call) : Prop :=
  match c with
  | call_update_ordering_service_node _ _ => True
  | _ => False
  end.


(** The value [v] without what it holds at [path]; a value that holds
    nothing there is left as it is. *)
Fixpoint remove_path (path : list string) (v : value) : value :=
  match path with
  | [] => v
  | k :: rest =>
      match v with
      | VDict d =>
          match rest with
          | [] => VDict (delete k d)
          | _ :: _ =>
              match d !! k with
              | Some x => VDict (<[k := remove_path rest x]> d)
              | None => v
              end
          end
      | _ => v
      end
  end.

(** The node without [resources.orderer.limits], [resources.proxy.limits]
    and [resources.init]. *)
Definition without_scrubbed_fields (node : value) : value :=
  remove_path ["resources"; "init"]
    (remove_path ["resources"; "proxy"; "limits"]
       (remove_path ["resources"; "orderer"; "limits"] node)).

(** The caller's resources set one of the fields that are scrubbed from the
    observed state. *)
Definition sets_scrubbed_field (resources : gmap string value) : Prop :=
  is_Some (lookup_path ["orderer"; "limits"] (VDict resources)) \/
  is_Some (lookup_path ["proxy"; "limits"] (VDict resources)) \/
  is_Some (lookup_path ["init"] (VDict resources)).

Definition admins_settled (params : module_params)
    (node : gmap string value) : Prop :=
  exists desired,
    find_expected_admins params = Ok desired /\
    (truthy desired = false \/
     exists E,
       as_str_list desired = Ok E /\
       (default_or (node !! "admin_certs") VNone = VNone \/
        exists A,
          as_str_list (default_or (node !! "admin_certs") VNone) = Ok A /\
          (list_to_set (normalize_whitespace console <$> E) : gset string)
            = list_to_set (normalize_whitespace console <$> A))).


Definition is_edit_admin_certs (c : call) : Prop :=
  match c with
  | call_edit_admin_certs _ _ _ => True
  | _ => False
  end.

Definition is_resolve_ordering_service_node_version (c : call) : Prop :=
  match c with
  | call_resolve_ordering_service_node_version _ => True
  | _ => False
  end.

Definition is_resolve_peer_version (c : call) : Prop :=
  match c with
  | call_resolve_peer_version _ => True
  | _ => False
  end.

End statement_vocabulary.

(** * Vocabulary of the further statements *)

Section further_vocabulary.
Import dict_utils msp_utils ordering_service_node.
Context {R : Type} (console : Console R).

(** An entry of the [policies] of an MSP. *)
Definition wrap_policy (policy : value) : value :=
  dict [("mod_policy", VStr "Admins"); ("policy", policy)].

(** Where the MSP keeps its config, and the fields of it that
    [msp_to_organization] reads, in the order it reads them. *)
Definition msp_config_path : list string := ["values"; "MSP"; "value"; "config"].

Definition msp_config_fields : list string :=
  ["root_certs"; "intermediate_certs"; "admins"; "revocation_list";
   "tls_root_certs"; "tls_intermediate_certs"; "fabric_node_ous";
   "organizational_unit_identifiers"].

(** The operations that lay an identity out under [msp_path], in order. *)
Definition msp_directory_calls (msp_path : string) (identity : Identity)
    : list fs_call :=
  [fs_mkdir (path_join msp_path "admincerts");
   fs_write (path_join (path_join msp_path "admincerts") "cert.pem") (cert identity);
   fs_mkdir (path_join msp_path "cacerts");
   fs_write (path_join (path_join msp_path "cacerts") "cert.pem") (ca identity);
   fs_mkdir (path_join msp_path "signcerts");
   fs_write (path_join (path_join msp_path "signcerts") "cert.pem") (cert identity);
   fs_mkdir (path_join msp_path "keystore")]
  ++ (if truthy (private_key identity)
      then [fs_write (path_join (path_join msp_path "keystore") "key.pem")
              (private_key identity)]
      else []).


(** The [admins] parameter as a value. *)
Definition admins_value (params : module_params) : value :=
  match p_admins params with
  | Some l => VList (VStr <$> l)
  | None => VNone
  end.

(** The edit that marks a node as added to the system channel. *)
Definition joined_flag : value := dict [("consenter_proposal_fin", VBool true)].

(** A write is among the calls [l]. *)
Definition written (l : list call) : Prop :=
  Exists (fun c => is_write c = true) l.

Definition outcome_flag (o : outcome) : bool :=
  match o with
  | exit_json changed _ => changed
  | fail_json _ => false
  end.

(** [m], when it returns, has made a write exactly when the flag of its
    result is set. *)
Definition tracks {A} (flag : A -> bool) (m : M R A) : Prop :=
  forall w a w', m w = (Ok a, w') ->
    exists l, w'.2 = w.2 ++ l /\ (flag a = true <-> written l).

(** [m] makes no write. *)
Definition quiet {A} (m : M R A) : Prop :=
  emits (fun c => is_write c = false) m.

(** The calls whose method is one of [names]. *)
Definition among (names : list string) (c : call) : Prop :=
  call_name c ∈ names.

Definition free_cluster_message : list fpart :=
  [Lit "Cannot specify resources or storage for a free IBM Kubernetes Service cluster"].

(** The request for a one-node ordering service that the create path
    sends: the name, the identity of the organization and the channel; the
    config override, the zone and the crypto configuration each wrapped in a
    list; a version exactly when one was asked for; and resources and
    storage either both left out or the caller's resources over the default
    table and the storage with its null classes stripped. *)
Definition one_node_request (first_params params : module_params)
    (data : value) : Prop :=
  exists d,
    data = VDict d /\
    d !! "display_name" = Some (VStr (p_name first_params)) /\
    d !! "msp_id" = Some (of_option_str (p_msp_id params)) /\
    d !! "orderer_type" = Some (VStr (p_orderer_type params)) /\
    d !! "system_channel_id" = Some (VStr (p_system_channel_id params)) /\
    (exists config_override,
       d !! "config_override" = Some (VList [config_override]) /\
       (p_hsm params = None ->
        config_override = of_option_dict (p_config_override params))) /\
    d !! "zone" = (fun zone => VList [VStr zone]) <$> p_zone params /\
    (is_Some (d !! "version") <-> is_Some (p_version params)) /\
    (exists crypto,
       d !! "crypto" = Some (VList [VDict crypto]) /\
       crypto_admincerts crypto "enrollment" = Ok (admins_value params)) /\
    (d !! "resources" = None /\ d !! "storage" = None \/
     d !! "resources"
       = Some (VDict (merge_optional (copy_dict default_resources)
                        (p_resources params))) /\
     exists storage,
       strip_storage_classes (p_storage params) = Ok storage /\
       d !! "storage" = Some (VDict storage)).

(** Every creation among the calls sends such a request. *)
Definition creates_one_node (first_params params : module_params) (c : call)
    : Prop :=
  match c with
  | call_create_ordering_service data => one_node_request first_params params data
  | _ => True
  end.
End further_vocabulary.

(** * Properties *)

(** ** Structural induction on values *)

Lemma value_size_elem (l : list value) (x : value) :
  x ∈ l -> value_size x < value_size (VList l).
Proof.
  induction 1 as [x l|x y l _ IH]; simpl in *; lia.
Qed.

Lemma value_size_lookup (d : gmap string value) (k : string) (x : value) :
  d !! k = Some x -> value_size x < value_size (VDict d).
Proof.
  intros Hk. simpl.
  rewrite <- (insert_delete_id d k x Hk).
  rewrite map_fold_insert_L.
  - lia.
  - intros; lia.
  - apply lookup_delete_eq.
Qed.

Lemma value_ind' (P : value -> Prop) :
  P VNone -> (forall b, P (VBool b)) -> (forall z, P (VInt z)) ->
  (forall s, P (VStr s)) ->
  (forall l, Forall P l -> P (VList l)) ->
  (forall d, map_Forall (fun _ => P) d -> P (VDict d)) ->
  forall v, P v.
Proof.
  intros HN HB HI HS HL HD v.
  remember (value_size v) as n eqn:Hn.
  revert v Hn. induction n as [n IH] using lt_wf_ind. intros v ->.
  destruct v as [| | | |l|d]; auto.
  - apply HL. apply Forall_forall. intros x Hx.
    eapply IH; [|reflexivity]. by apply value_size_elem.
  - apply HD. intros k x Hk.
    eapply IH; [|reflexivity]. by eapply value_size_lookup.
Qed.

(** ** The MSP compiler *)

Section msp_properties.
Import organizations msp_utils.

(** C1: parsing back the MSP built from an organization, with no endorsement
    policy and no extra policies, succeeds and returns an organization that
    agrees with the original on the MSP identifier and on every certificate,
    revocation and OU field; its signing identity is null. *)
Theorem msp_round_trip (O : Organization) :
  exists O',
    msp_to_organization (msp_id O) (organization_to_msp O false ∅) = Ok O' /\
    msp_id O' = msp_id O /\
    root_certs O' = root_certs O /\
    intermediate_certs O' = intermediate_certs O /\
    admins O' = admins O /\
    revocation_list O' = revocation_list O /\
    tls_root_certs O' = tls_root_certs O /\
    tls_intermediate_certs O' = tls_intermediate_certs O /\
    fabric_node_ous O' = fabric_node_ous O /\
    organizational_unit_identifiers O' = organizational_unit_identifiers O /\
    signing_identity O' = VNone.
Proof.
  eexists. split; [reflexivity|]. simpl. repeat split.
Qed.

(** C8: without endorsement policy and extra policies, the policies of the
    MSP are exactly Admins, Readers and Writers, each governed by Admins and
    each a single-principal 1-out-of-1 ROLE policy for the organization's MSP
    identifier: ADMIN for Admins, MEMBER for Readers and Writers. *)
Theorem default_policies_shape (O : Organization) :
  exists policies admins_policy readers_policy writers_policy,
    lookup_path ["policies"] (organization_to_msp O false ∅)
      = Some (VDict policies) /\
    dom policies = {["Admins"; "Readers"; "Writers"]} /\
    policies !! "Admins"
      = Some (dict [("mod_policy", VStr "Admins"); ("policy", admins_policy)]) /\
    policies !! "Readers"
      = Some (dict [("mod_policy", VStr "Admins"); ("policy", readers_policy)]) /\
    policies !! "Writers"
      = Some (dict [("mod_policy", VStr "Admins"); ("policy", writers_policy)]) /\
    policies !! "Endorsement" = None /\
    is_single_role_policy (msp_id O) "ADMIN" admins_policy /\
    is_single_role_policy (msp_id O) "MEMBER" readers_policy /\
    is_single_role_policy (msp_id O) "MEMBER" writers_policy.
Proof.
  exists (msp_policies O false ∅), (get_default_admins_policy O),
    (get_default_readers_policy O), (get_default_writers_policy O).
  unfold msp_policies. rewrite map_fold_empty.
  split; [reflexivity|]. split; [reflexivity|].
  split; [reflexivity|]. split; [reflexivity|]. split; [reflexivity|].
  split; [reflexivity|].
  repeat split; try reflexivity; eexists; repeat split; reflexivity.
Qed.

Lemma getitem_lookup (d : gmap string value) (k : string) (x : value) :
  d !! k = Some x -> getitem (VDict d) k = Ok x.
Proof. intros H. simpl. by rewrite H. Qed.

Lemma lookup_path_cons_inv (k : string) (rest : list string) (v x : value) :
  lookup_path (k :: rest) v = Some x ->
  exists d y, v = VDict d /\ d !! k = Some y /\ lookup_path rest y = Some x.
Proof.
  simpl. destruct v as [| | | | |d]; try discriminate.
  destruct (d !! k) as [y|] eqn:E; [|discriminate].
  intros H. by exists d, y.
Qed.

(** C9: on a well-formed tree, whatever the [name] stored in its config, the
    organization returned carries the [msp_id] argument both as its name and
    as its MSP identifier. *)
Theorem msp_to_organization_names (id : string) (msp : value) :
  well_formed_msp msp ->
  exists O,
    msp_to_organization id msp = Ok O /\ name O = id /\ msp_id O = id.
Proof.
  intros (config & Hpath & Hfields).
  apply lookup_path_cons_inv in Hpath as (d1 & v1 & -> & H1 & Hpath).
  apply lookup_path_cons_inv in Hpath as (d2 & v2 & -> & H2 & Hpath).
  apply lookup_path_cons_inv in Hpath as (d3 & v3 & -> & H3 & Hpath).
  apply lookup_path_cons_inv in Hpath as (d4 & v4 & -> & H4 & Hpath).
  simpl in Hpath. injection Hpath as ->.
  repeat match goal with
         | H : Forall _ (_ :: _) |- _ =>
             apply Forall_cons in H as [[? ?] H]
         end.
  unfold msp_to_organization.
  rewrite (getitem_lookup _ _ _ H1). simpl.
  rewrite H2. simpl. rewrite H3. simpl. rewrite H4. simpl.
  repeat match goal with
         | H : config !! _ = Some _ |- _ => rewrite H; simpl; clear H
         end.
  eexists. split; [reflexivity|]. split; reflexivity.
Qed.

(** The name stored in the config is [Other] here, the argument prevails. *)
Lemma msp_to_organization_names_witness :
  exists O,
    msp_to_organization "Org1MSP"
      (dict [("values", dict [("MSP", dict [("value", dict [("config", dict [
         ("name", VStr "Other");
         ("root_certs", VList [VStr "cert"]);
         ("intermediate_certs", VList []);
         ("admins", VList []);
         ("revocation_list", VList []);
         ("tls_root_certs", VList []);
         ("tls_intermediate_certs", VList []);
         ("fabric_node_ous", VNone);
         ("organizational_unit_identifiers", VList [])])])])])]) = Ok O /\
    name O = "Org1MSP" /\ msp_id O = "Org1MSP".
Proof.
  apply msp_to_organization_names.
  eexists. split; [reflexivity|].
  repeat (constructor; [eexists; reflexivity|]). constructor.
Defined.

(** One step of a failing path: either the value is no mapping or the key is
    missing, and the failure is passed on by the steps that follow. *)
Lemma getitem_cases (v : value) (k : string) :
  (exists d x, v = VDict d /\ d !! k = Some x /\ getitem v k = Ok x) \/
  (exists d, v = VDict d /\ d !! k = None /\ getitem v k = Raise (KeyError k)) \/
  ((forall d, v <> VDict d) /\ getitem v k = Raise (TypeError "subscript")).
Proof.
  destruct v as [| | | | |d]; try (right; right; split; [congruence|reflexivity]).
  simpl. destruct (d !! k) as [x|] eqn:E.
  - left. by exists d, x.
  - right. left. by exists d.
Qed.

(** C7, as the code has it: when the path [values.MSP.value.config] is absent
    from the tree, the path splits at its first key that cannot be followed:
    what comes before it leads to a value, and [msp_to_organization] fails
    there with Python's own lookup error, a [KeyError] naming that key when
    the value is a mapping and a [TypeError] when it is not.  An organization
    that is returned never has a signing identity. *)
Theorem msp_to_organization_missing_path (id : string) (msp : value) :
  (lookup_path ["values"; "MSP"; "value"; "config"] msp = None ->
   exists before key after v,
     ["values"; "MSP"; "value"; "config"] = before ++ key :: after /\
     lookup_path before msp = Some v /\
     lookup_path (before ++ [key]) msp = None /\
     msp_to_organization id msp =
       Raise (match v with
              | VDict _ => KeyError key
              | _ => TypeError "subscript"
              end)) /\
  (forall O, msp_to_organization id msp = Ok O -> signing_identity O = VNone).
Proof.
  split.
  - unfold msp_to_organization. intros Hpath.
    destruct (getitem_cases msp "values")
      as [(d1 & v1 & -> & H1 & ->)|[(d1 & -> & H1 & ->)|[Hno ->]]].
    2:{ exists [], "values", ["MSP"; "value"; "config"], (VDict d1).
        simpl. by rewrite H1. }
    2:{ exists [], "values", ["MSP"; "value"; "config"], msp.
        split; [done|]. split; [done|].
        destruct msp; try done. by destruct (Hno d). }
    simpl in Hpath. rewrite H1 in Hpath. simpl.
    destruct (getitem_cases v1 "MSP")
      as [(d2 & v2 & -> & H2 & ->)|[(d2 & -> & H2 & ->)|[Hno ->]]].
    2:{ exists ["values"], "MSP", ["value"; "config"], (VDict d2).
        simpl. by rewrite H1, H2. }
    2:{ exists ["values"], "MSP", ["value"; "config"], v1.
        simpl. rewrite H1. split; [done|]. split; [done|].
        destruct v1; try done. by destruct (Hno d). }
    rewrite H2 in Hpath. simpl.
    destruct (getitem_cases v2 "value")
      as [(d3 & v3 & -> & H3 & ->)|[(d3 & -> & H3 & ->)|[Hno ->]]].
    2:{ exists ["values"; "MSP"], "value", ["config"], (VDict d3).
        simpl. by rewrite H1, H2, H3. }
    2:{ exists ["values"; "MSP"], "value", ["config"], v2.
        simpl. rewrite H1, H2. split; [done|]. split; [done|].
        destruct v2; try done. by destruct (Hno d). }
    rewrite H3 in Hpath. simpl.
    destruct (getitem_cases v3 "config")
      as [(d4 & v4 & -> & H4 & ->)|[(d4 & -> & H4 & ->)|[Hno ->]]].
    + rewrite H4 in Hpath. discriminate.
    + exists ["values"; "MSP"; "value"], "config", [], (VDict d4).
      simpl. by rewrite H1, H2, H3, H4.
    + exists ["values"; "MSP"; "value"], "config", [], v3.
      simpl. rewrite H1, H2, H3. split; [done|]. split; [done|].
      destruct v3; try done. by destruct (Hno d).
  - unfold msp_to_organization. intros O H.
    repeat match type of H with
           | rbind ?r _ = Ok _ =>
               destruct r; simpl in H; [|discriminate]
           end.
    by injection H as <-.
Qed.

(** A tree whose [MSP] is a list fails on [value] with a [TypeError]; a tree
    built by [organization_to_msp] parses to an organization without signing
    identity. *)
Lemma msp_to_organization_missing_path_witness :
  let tree := dict [("values", dict [("MSP", VList [])])] in
  (exists before key after v,
     ["values"; "MSP"; "value"; "config"] = before ++ key :: after /\
     lookup_path before tree = Some v /\
     lookup_path (before ++ [key]) tree = None /\
     msp_to_organization "Org1MSP" tree =
       Raise (match v with
              | VDict _ => KeyError key
              | _ => TypeError "subscript"
              end)) /\
  (forall O,
     msp_to_organization "Org1MSP"
       (dict [("values", dict [("MSP", dict [("value", dict [("config", dict [
          ("root_certs", VList [VStr "cert"]);
          ("intermediate_certs", VList []);
          ("admins", VList []);
          ("revocation_list", VList []);
          ("tls_root_certs", VList []);
          ("tls_intermediate_certs", VList []);
          ("fabric_node_ous", VNone);
          ("organizational_unit_identifiers", VList [])])])])])]) = Ok O ->
     signing_identity O = VNone).
Proof.
  intros tree. split.
  - apply (proj1 (msp_to_organization_missing_path "Org1MSP" tree)).
    reflexivity.
  - apply (proj2 (msp_to_organization_missing_path "Org1MSP" _)).
Defined.

(** The errors on the two kinds of broken path, computed. *)
Lemma msp_to_organization_path_errors :
  msp_to_organization "Org1MSP" (dict [("values", dict [("MSP", VList [])])])
    = Raise (TypeError "subscript") /\
  msp_to_organization "Org1MSP"
    (dict [("values", dict [("MSP", dict [("value", dict [])])])])
    = Raise (KeyError "config").
Proof. split; reflexivity. Qed.

(** C7, as stated, fails: on a tree without [values] the error raised is a
    [KeyError], there is no error of a class [MalformedMspError]. *)
Lemma msp_to_organization_raises_key_error :
  lookup_path ["values"; "MSP"] (dict []) = None /\
  msp_to_organization "Org1MSP" (dict []) = Raise (KeyError "values") /\
  ~ (exists e,
       msp_to_organization "Org1MSP" (dict []) = Raise e /\
       exc_class e = "MalformedMspError").
Proof.
  split; [reflexivity|]. split; [reflexivity|].
  intros (e & He & Hclass). vm_compute in He. injection He as <-.
  discriminate Hclass.
Qed.

End msp_properties.

(** ** The dict diff/merge engine *)

Section dict_properties.
Import dict_utils.

Lemma copy_value_id (v : value) : copy_value v = v.
Proof.
  induction v as [| | | |l IH|d IH] using value_ind'; simpl; auto.
  - f_equal. induction IH as [|x l Hx _ IHl]; simpl; congruence.
  - f_equal. apply map_eq. intros k. rewrite lookup_fmap.
    destruct (d !! k) as [x|] eqn:E; simpl; auto. f_equal. by eapply IH.
Qed.

Lemma copy_dict_id (d : gmap string value) : copy_dict d = d.
Proof.
  unfold copy_dict. apply map_eq. intros k. rewrite lookup_fmap.
  destruct (d !! k); simpl; auto. by rewrite copy_value_id.
Qed.

Lemma merge_dicts_lookup (base overlay : gmap string value) (k : string) :
  merge_dicts base overlay !! k =
    match overlay !! k with
    | None => base !! k
    | Some y =>
        match base !! k with
        | Some x => Some (merge_value x y)
        | None => Some y
        end
    end.
Proof.
  unfold merge_dicts. rewrite lookup_union_with.
  destruct (base !! k), (overlay !! k); reflexivity.
Qed.

Lemma diff_dicts_lookup (a b : gmap string value) (k : string) :
  diff_dicts a b !! k =
    match b !! k with
    | Some v => if decide (a !! k = Some v) then None else Some v
    | None => None
    end.
Proof.
  unfold diff_dicts. rewrite map_lookup_filter.
  destruct (b !! k) as [v|]; simpl; [|reflexivity].
  destruct (decide (a !! k = Some v)) as [E|E].
  - rewrite option_guard_False; [reflexivity|]. simpl. by intros H.
  - rewrite option_guard_True; [reflexivity|]. done.
Qed.

(** Spec section 8: no spurious diffs on identical trees. *)
Lemma diff_dicts_same (a : gmap string value) : diff_dicts a a = ∅.
Proof.
  apply map_eq. intros k. rewrite diff_dicts_lookup, lookup_empty.
  destruct (a !! k) as [v|] eqn:E; [|reflexivity].
  by rewrite decide_True.
Qed.

(** The diff between a tree and the result of merging an overlay into its
    copy only has keys of the overlay. *)
Lemma diff_after_merge_dom (a overlay : gmap string value) (k : string) :
  is_Some (diff_dicts a (merge_dicts (copy_dict a) overlay) !! k) ->
  is_Some (overlay !! k).
Proof.
  rewrite diff_dicts_lookup, merge_dicts_lookup, copy_dict_id.
  destruct (overlay !! k) as [y|]; [by eexists|].
  destruct (a !! k) as [x|] eqn:E.
  - rewrite decide_True by done. by intros [? ?].
  - by intros [? ?].
Qed.

(** A key is in the diff exactly when the two trees disagree on it and the
    second one has it. *)
Lemma diff_dicts_differ (a b : gmap string value) (k : string) :
  diff_dicts a b !! k = if decide (a !! k = b !! k) then None else b !! k.
Proof.
  rewrite diff_dicts_lookup. destruct (b !! k) as [v|] eqn:E.
  - destruct (decide (a !! k = Some v)); reflexivity.
  - by destruct (decide (a !! k = None)).
Qed.




Lemma remove_path_absent (path : list string) (v : value) :
  lookup_path path v = None -> remove_path path v = v.
Proof.
  revert v. induction path as [|k rest IH]; intros v; [discriminate|].
  simpl. destruct v as [| | | | |d]; try done.
  destruct (d !! k) as [x|] eqn:E.
  - intros Hx. destruct rest as [|k' rest']; [discriminate|].
    by rewrite (IH x Hx), insert_id.
  - intros _. destruct rest; [|done]. by rewrite delete_id.
Qed.

Lemma remove_path_cons (k : string) (rest : list string)
    (d : gmap string value) :
  rest <> [] ->
  remove_path (k :: rest) (VDict d) =
    match d !! k with
    | Some x => VDict (<[k := remove_path rest x]> d)
    | None => VDict d
    end.
Proof. by destruct rest. Qed.

Lemma remove_path_not_dict (path : list string) (v : value) :
  (forall d, v <> VDict d) -> remove_path path v = v.
Proof. intros Hv. destruct path, v; try done. by destruct (Hv d). Qed.

(** Removing a path that the overlay does not set commutes with merging. *)
Lemma remove_path_merge (path : list string) (base overlay : value) :
  lookup_path path overlay = None ->
  remove_path path (merge_value base overlay)
  = merge_value (remove_path path base) overlay.
Proof.
  revert base overlay. induction path as [|k rest IH]; intros base overlay;
    [discriminate|].
  intros Hpath.
  destruct overlay as [| | | | |o];
    try (match goal with
         | |- context [merge_value base ?v] =>
             assert (forall b, merge_value b v = v) as Hv
               by (intros []; reflexivity)
         end;
         by rewrite !Hv).
  destruct base as [| | | | |b];
    try (cbn [merge_value]; rewrite (remove_path_absent _ _ Hpath);
         by rewrite remove_path_not_dict by done).
  simpl in Hpath. cbn [merge_value].
  destruct (decide (rest = [])) as [->|Hrest].
  - destruct (o !! k) eqn:Ho; [discriminate|].
    cbn [remove_path merge_value]. apply (f_equal VDict).
    apply map_eq. intros j.
    destruct (decide (j = k)) as [->|Hj].
    + by rewrite lookup_delete_eq, lookup_union_with, lookup_delete_eq, Ho.
    + by rewrite lookup_delete_ne, !lookup_union_with, lookup_delete_ne.
  - rewrite !remove_path_cons by done. rewrite lookup_union_with.
    destruct (b !! k) as [x|] eqn:Hb; destruct (o !! k) as [y|] eqn:Ho;
      cbn [union_with option_union_with merge_value].
    + f_equal. apply map_eq. intros j.
      destruct (decide (j = k)) as [->|Hj].
      * rewrite lookup_insert_eq, lookup_union_with, lookup_insert_eq, Ho.
        simpl. f_equal. by apply IH.
      * by rewrite lookup_insert_ne, !lookup_union_with, lookup_insert_ne.
    + f_equal. apply map_eq. intros j.
      destruct (decide (j = k)) as [->|Hj].
      * by rewrite lookup_insert_eq, lookup_union_with, lookup_insert_eq, Ho.
      * by rewrite lookup_insert_ne, !lookup_union_with, lookup_insert_ne.
    + rewrite (remove_path_absent _ _ Hpath). f_equal. apply insert_id.
      by rewrite lookup_union_with, Hb, Ho.
    + done.
Qed.

End dict_properties.

(** ** The reconciler *)

Section reconciler_properties.
Import dict_utils ordering_service_node.
Context {R : Type} (console : Console R).

Lemma emits_ret {A} P (a : A) : emits (R:=R) P (ret a).
Proof.
  intros w r w' [= <- <-]. exists []. by rewrite app_nil_r.
Qed.

Lemma emits_raise {A} P (e : pyexc) : emits P (@raise R A e).
Proof.
  intros w r w' [= <- <-]. exists []. by rewrite app_nil_r.
Qed.

Lemma emits_lift {A} P (x : result A) : emits (R:=R) P (lift x).
Proof.
  intros w r w' [= <- <-]. exists []. by rewrite app_nil_r.
Qed.

Lemma emits_perform {A} P (op : R -> result (A * R)) : emits P (perform op).
Proof.
  intros w r w'. unfold perform.
  destruct (op w.1) as [[a r']|e]; intros [= <- <-];
    exists []; by rewrite app_nil_r.
Qed.

Lemma emits_invoke {A} (P : call -> Prop) c (op : R -> result (A * R)) :
  P c -> emits P (invoke c op).
Proof.
  intros Hc w r w'. unfold invoke.
  destruct (op w.1) as [[a r']|e]; intros [= <- <-];
    exists [c]; split; auto.
Qed.

Lemma emits_bind {A B} P (m : M R A) (k : A -> M R B) :
  emits P m -> (forall a, emits P (k a)) -> emits P (bind m k).
Proof.
  intros Hm Hk w r w'. unfold bind.
  destruct (m w) as [[a|e] w1] eqn:E.
  - intros H. destruct (Hm _ _ _ E) as (l1 & E1 & H1).
    destruct (Hk a _ _ _ H) as (l2 & E2 & H2).
    exists (l1 ++ l2). rewrite E2, E1, app_assoc. split; [done|].
    by apply Forall_app.
  - intros [= <- <-]. exact (Hm _ _ _ E).
Qed.

Lemma emits_weaken {A} (P Q : call -> Prop) (m : M R A) :
  (forall c, P c -> Q c) -> emits P m -> emits Q m.
Proof.
  intros HPQ Hm w r w' E. destruct (Hm _ _ _ E) as (l & ? & Hl).
  exists l. split; [done|]. eapply Forall_impl; eauto.
Qed.

Lemma bind_ok_inv {A B} (m : M R A) (k : A -> M R B) w b w' :
  bind m k w = (Ok b, w') ->
  exists a w0, m w = (Ok a, w0) /\ k a w0 = (Ok b, w').
Proof.
  unfold bind. destruct (m w) as [[a|e] w0]; [|discriminate].
  intros H. by exists a, w0.
Qed.

Lemma expected_update_configuration_entries (params : module_params) :
  expected_update_configuration params =
    list_to_map
      (optional_entry "config_override" (VDict <$> p_config_override params) ++
       optional_entry "resources" (VDict <$> p_resources params) ++
       optional_entry "crypto" (VDict <$> p_crypto params) ++
       optional_entry "version" (VStr <$> p_version params)).
Proof.
  unfold expected_update_configuration.
  destruct (p_config_override params), (p_resources params),
    (p_crypto params), (p_version params); reflexivity.
Qed.

Lemma expected_update_configuration_keys (params : module_params) (k : string) :
  is_Some (expected_update_configuration params !! k) -> k ∈ permitted_changes.
Proof.
  rewrite expected_update_configuration_entries. intros [v Hv].
  apply elem_of_list_to_map_2 in Hv.
  apply (list_elem_of_fmap_2 fst) in Hv. simpl in Hv.
  revert Hv. unfold permitted_changes.
  destruct (p_config_override params), (p_resources params),
    (p_crypto params), (p_version params); simpl; set_solver.
Qed.

Lemma expected_update_configuration_resources (params : module_params) :
  expected_update_configuration params !! "resources"
    = VDict <$> p_resources params.
Proof.
  unfold expected_update_configuration.
  destruct (p_config_override params), (p_resources params),
    (p_crypto params), (p_version params); reflexivity.
Qed.

Lemma expected_for_update_inv (params : module_params) w expected w1 :
  expected_for_update console params w = (Ok expected, w1) ->
  (forall k, is_Some (expected !! k) -> k ∈ permitted_changes) /\
  expected !! "resources" = VDict <$> p_resources params /\
  exists l, w1.2 = w.2 ++ l /\
    Forall (fun c => exists v, c = call_resolve_peer_version v) l.
Proof.
  unfold expected_for_update.
  destruct (p_version params) as [version|] eqn:Ev.
  - unfold bind, invoke, ret.
    destruct (resolve_peer_version console version w.1) as [[rv r']|e];
      [|discriminate].
    intros [= <- <-]. split; [|split].
    + intros k. destruct (decide (k = "version")) as [->|Hk].
      * intros _. unfold permitted_changes. set_solver.
      * rewrite lookup_insert_ne by done.
        apply expected_update_configuration_keys.
    + rewrite lookup_insert_ne by done.
      apply expected_update_configuration_resources.
    + exists [call_resolve_peer_version version]. split; [done|].
      repeat constructor. by eexists.
  - intros [= <- <-]. split; [|split].
    + apply expected_update_configuration_keys.
    + apply expected_update_configuration_resources.
    + exists []. by rewrite app_nil_r.
Qed.

Lemma check_changes_permitted changes (a b : gmap string value) :
  Forall (fun k => k ∈ permitted_changes) changes ->
  check_changes changes a b = Ok ().
Proof.
  induction 1 as [|k l Hk _ IH]; simpl; [done|].
  by rewrite bool_decide_eq_true_2.
Qed.

Lemma check_permitted_after_merge (a expected : gmap string value) :
  (forall k, is_Some (expected !! k) -> k ∈ permitted_changes) ->
  check_permitted (diff_dicts a (merge_dicts (copy_dict a) expected)) a
    (merge_dicts (copy_dict a) expected) = Ok ().
Proof.
  intros Hkeys. unfold check_permitted. apply check_changes_permitted.
  apply Forall_forall. intros k Hk.
  apply list_elem_of_fmap in Hk as ([k' v] & -> & Hkv). simpl.
  apply elem_of_map_to_list in Hkv.
  apply Hkeys. eapply diff_after_merge_dom. by eexists.
Qed.


Ltac emits_step :=
  first
    [ apply emits_ret | apply emits_raise | apply emits_lift
    | apply emits_perform
    | apply emits_invoke; solve [simpl; tauto | intros; discriminate]
    | apply emits_bind; [|intros ?]
    | match goal with
      | |- emits _ (if ?b then _ else _) => destruct b
      | |- emits _ (match ?x with _ => _ end) => destruct x
      end ].

Lemma reconcile_admin_certs_emits params node :
  emits (fun c => ~ is_update c) (reconcile_admin_certs console params node).
Proof. unfold reconcile_admin_certs. repeat emits_step. Qed.

Lemma join_system_channel_emits params node :
  emits (fun c => ~ is_update c) (join_system_channel console params node).
Proof. unfold join_system_channel. repeat emits_step. Qed.

(** The entire resources subtree goes into the payload when the caller
    supplied resources. *)
Lemma with_entire_resources_lookup params diff new payload (k : string) :
  with_entire_resources params diff new = Ok payload ->
  payload !! k =
    if decide (k = "resources" /\ is_Some (p_resources params))
    then new !! "resources" else diff !! k.
Proof.
  unfold with_entire_resources.
  destruct (p_resources params) as [r|].
  - simpl. destruct (new !! "resources") as [x|] eqn:E; [|discriminate].
    simpl. intros [= <-].
    destruct (decide (k = "resources")) as [->|Hk].
    + rewrite decide_True by (split; [done|by eexists]).
      by rewrite lookup_insert_eq.
    + rewrite decide_False by (by intros [? _]).
      by rewrite lookup_insert_ne.
  - intros [= <-]. rewrite decide_False; [done|].
    intros [_ [? ?]]. discriminate.
Qed.

Lemma with_entire_resources_ok params (obs expected diff : gmap string value) :
  expected !! "resources" = VDict <$> p_resources params ->
  exists payload,
    with_entire_resources params diff (merge_dicts (copy_dict obs) expected)
      = Ok payload.
Proof.
  intros Hres. unfold with_entire_resources.
  destruct (p_resources params) as [r|]; [|by eexists].
  simpl in *. rewrite merge_dicts_lookup, Hres.
  destruct (copy_dict obs !! "resources"); simpl; by eexists.
Qed.

(** The run of the update path up to the update call. *)
Lemma update_path_steps params node obs expected w w1 :
  scrub_resources node = Ok obs ->
  expected_for_update console params w = (Ok expected, w1) ->
  exists payload,
    with_entire_resources params
      (diff_dicts obs (merge_dicts (copy_dict obs) expected))
      (merge_dicts (copy_dict obs) expected) = Ok payload /\
    update_path console params node w =
      bind
        (if negb (equal_dicts obs (merge_dicts (copy_dict obs) expected))
         then
           id <~ lift (getitem (VDict obs) "id") ;;
           updated <~ invoke (call_update_ordering_service_node id payload)
                        (update_ordering_service_node console id payload) ;;
           ret (updated, true)
         else ret (VDict obs, false))
        (fun updated =>
           edited <~ reconcile_admin_certs console params updated.1 ;;
           joined <~ join_system_channel console params updated.1 ;;
           ret (joined.1, updated.2 || edited || joined.2)) w1.
Proof.
  intros Hscrub Hexp.
  destruct (expected_for_update_inv _ _ _ _ Hexp) as (Hkeys & Hres & _).
  destruct (with_entire_resources_ok params obs expected
              (diff_dicts obs (merge_dicts (copy_dict obs) expected)) Hres)
    as [payload Hpayload].
  exists payload. split; [done|].
  unfold update_path, bind at 1, lift at 1. rewrite Hscrub.
  unfold bind at 1. rewrite Hexp.
  unfold apply_update, bind at 2, bind at 2, lift at 1.
  rewrite (check_permitted_after_merge obs expected Hkeys).
  unfold bind at 2, lift at 1. rewrite Hpayload. reflexivity.
Qed.


Lemma after_update_emits params (updated : value * bool) :
  emits (fun c => ~ is_update c)
    (edited <~ reconcile_admin_certs console params updated.1 ;;
     joined <~ join_system_channel console params updated.1 ;;
     ret (joined.1, updated.2 || edited || joined.2)).
Proof.
  apply emits_bind; [apply reconcile_admin_certs_emits|intros edited].
  apply emits_bind; [apply join_system_channel_emits|intros joined].
  apply emits_ret.
Qed.

(** On the update path, when the observed (scrubbed) state and the merged
    new state differ and the node has an [id], the update call is made with a
    payload that holds the top-level keys on which the two states differ,
    each with its new value, except that [resources] carries the whole new
    resources subtree whenever the parameters in force hold resources.  No
    other update call follows. *)
Lemma update_path_sends_diff (params : module_params) (node : value)
    (obs expected : gmap string value) (id : value) (w w1 : R * list call) :
  scrub_resources node = Ok obs ->
  expected_for_update console params w = (Ok expected, w1) ->
  obs <> merge_dicts (copy_dict obs) expected ->
  obs !! "id" = Some id ->
  exists payload rest,
    (update_path console params node w).2.2
      = w1.2 ++ call_update_ordering_service_node id payload :: rest /\
    Forall (fun c => ~ is_update c) rest /\
    forall k,
      payload !! k =
        if decide (k = "resources" /\ is_Some (p_resources params))
        then merge_dicts (copy_dict obs) expected !! "resources"
        else if decide (obs !! k = merge_dicts (copy_dict obs) expected !! k)
             then None
             else merge_dicts (copy_dict obs) expected !! k.
Proof.
  intros Hscrub Hexp Hneq Hid.
  destruct (update_path_steps params node obs expected w w1 Hscrub Hexp)
    as (payload & Hpayload & ->).
  exists payload.
  unfold equal_dicts. rewrite bool_decide_eq_false_2 by done. simpl.
  unfold bind at 1, bind at 1, lift at 1. simpl. rewrite Hid.
  unfold bind at 1, invoke at 1.
  destruct (update_ordering_service_node console id payload w1.1)
    as [[updated r']|e] eqn:Eupd.
  - unfold ret at 1.
    match goal with
    | |- context [bind ?m ?k ?w0] => destruct (bind m k w0) as [res w'] eqn:Erest
    end.
    destruct (after_update_emits params (updated, true) _ _ _ Erest)
      as (rest & Hlog & Hrest).
    exists rest. simpl in *.
    rewrite Hlog, <- app_assoc. split; [done|]. split; [done|].
    intros k. rewrite (with_entire_resources_lookup _ _ _ _ k Hpayload).
    by rewrite diff_dicts_differ.
  - exists []. simpl. split; [done|]. split; [done|].
    intros k. rewrite (with_entire_resources_lookup _ _ _ _ k Hpayload).
    by rewrite diff_dicts_differ.
Qed.





Lemma strip_limits_inv (thing : string) (r r' : value) :
  strip_limits thing r = Ok r' ->
  match r with
  | VDict d =>
      exists d', r' = VDict d' /\
        lookup_path [thing; "limits"] r' = None /\
        forall k, k <> thing -> d' !! k = d !! k
  | _ => r' = r
  end.
Proof.
  unfold strip_limits.
  destruct r as [| | |s|l|d]; simpl; try discriminate.
  - case_bool_decide; simpl; [discriminate|]. by intros [= <-].
  - case_bool_decide; simpl; [discriminate|]. by intros [= <-].
  - case_bool_decide as Hthing; simpl.
    + destruct Hthing as [x Hx]. rewrite Hx. simpl.
      destruct x as [| | |s|l|dx]; simpl; try discriminate.
      * case_bool_decide; simpl; [discriminate|]. intros [= <-].
        exists d. simpl. by rewrite Hx.
      * case_bool_decide; simpl; [discriminate|]. intros [= <-].
        exists d. simpl. by rewrite Hx.
      * case_bool_decide as Hlimits; simpl.
        -- destruct Hlimits as [y Hy]. rewrite Hy. simpl. intros [= <-].
           eexists. split; [reflexivity|]. simpl.
           rewrite lookup_insert_eq, lookup_delete_eq. split; [done|].
           intros k Hk. by rewrite lookup_insert_ne.
        -- intros [= <-]. exists d. simpl. rewrite Hx.
           split; [done|]. split; [|done].
           destruct (dx !! "limits") eqn:E; [|done].
           exfalso. apply Hlimits. by eexists.
    + intros [= <-]. exists d. simpl. split; [done|]. split; [|done].
      destruct (d !! thing) eqn:E; [|done].
      exfalso. apply Hthing. by eexists.
Qed.

(** What the scrubbing leaves: the node with its resources replaced by
    resources without the three fields. *)
Lemma scrub_resources_inv (node : value) (obs : gmap string value) :
  scrub_resources node = Ok obs ->
  exists d r r',
    node = VDict d /\ d !! "resources" = Some (VDict r) /\
    obs = <["resources" := VDict r']> d /\
    lookup_path ["orderer"; "limits"] (VDict r') = None /\
    lookup_path ["proxy"; "limits"] (VDict r') = None /\
    r' !! "init" = None.
Proof.
  unfold scrub_resources.
  destruct node as [| | | | |d]; simpl; try discriminate.
  destruct (d !! "resources") as [r0|] eqn:Hres; simpl; [|discriminate].
  destruct (strip_limits "orderer" r0) as [r1|] eqn:H1; simpl; [|discriminate].
  destruct (strip_limits "proxy" r1) as [r2|] eqn:H2; simpl; [|discriminate].
  apply strip_limits_inv in H1, H2.
  destruct r0 as [| | | | |d0].
  1-5: subst r1; subst r2; simpl; discriminate.
  destruct H1 as (d1 & -> & Ho1 & Hk1).
  destruct H2 as (d2 & -> & Hp2 & Hk2).
  simpl. intros [= <-].
  exists d, d0, (delete "init" d2). split; [done|]. split; [done|].
  split; [done|]. simpl in *.
  rewrite !lookup_delete_ne by done. rewrite Hk2 by done.
  split; [done|]. split; [done|]. apply lookup_delete_eq.
Qed.

(** The scrubbed observed state has none of the three fields; when merging
    the expected configuration into the scrubbed state changes nothing, the
    diff is empty and no update call is made. *)
Lemma unchanged_merge_sends_nothing (params : module_params) (node : value)
    (obs expected : gmap string value) (w w1 : R * list call) :
  scrub_resources node = Ok obs ->
  (lookup_path ["resources"; "orderer"; "limits"] (VDict obs) = None /\
   lookup_path ["resources"; "proxy"; "limits"] (VDict obs) = None /\
   lookup_path ["resources"; "init"] (VDict obs) = None) /\
  (expected_for_update console params w = (Ok expected, w1) ->
   merge_dicts (copy_dict obs) expected = obs ->
   diff_dicts obs (merge_dicts (copy_dict obs) expected) = ∅ /\
   exists rest,
     (update_path console params node w).2.2 = w1.2 ++ rest /\
     Forall (fun c => ~ is_update c) rest).
Proof.
  intros Hscrub. split.
  - destruct (scrub_resources_inv _ _ Hscrub)
      as (d & r & r' & -> & Hr & -> & Ho & Hp & Hi).
    simpl in *. rewrite lookup_insert_eq. by rewrite Hi.
  - intros Hexp Hsame. split.
    + rewrite Hsame. apply diff_dicts_same.
    + destruct (update_path_steps params node obs expected w w1 Hscrub Hexp)
        as (payload & _ & ->).
      rewrite Hsame. unfold equal_dicts.
      rewrite bool_decide_eq_true_2 by done. simpl.
      unfold bind at 1, ret at 1.
      match goal with
      | |- context [bind ?m ?k ?w0] =>
          destruct (bind m k w0) as [res w'] eqn:Erest
      end.
      destruct (after_update_emits params (VDict obs, false) _ _ _ Erest)
        as (rest & Hlog & Hrest).
      by exists rest.
Qed.


(** A path that the overlay has is there after the merge. *)
Lemma lookup_path_merge (path : list string) (base overlay : value) :
  is_Some (lookup_path path overlay) ->
  is_Some (lookup_path path (merge_value base overlay)).
Proof.
  revert base overlay. induction path as [|k rest IH]; intros base overlay.
  - simpl. by eexists.
  - simpl. destruct overlay as [| | | | |o]; try (by intros [? ?]).
    destruct (o !! k) as [y|] eqn:Ho; [|by intros [? ?]].
    intros Hy. destruct base as [| | | | |b]; simpl; try by rewrite Ho.
    rewrite lookup_union_with, Ho.
    destruct (b !! k) as [x|]; simpl; [by apply IH|done].
Qed.

Lemma scrubbed_field_differs params node obs expected resources :
  scrub_resources node = Ok obs ->
  p_resources params = Some resources ->
  expected !! "resources" = VDict <$> p_resources params ->
  sets_scrubbed_field resources ->
  obs <> merge_dicts (copy_dict obs) expected.
Proof.
  intros Hscrub Hp Hres Hsets Heq.
  destruct (scrub_resources_inv _ _ Hscrub)
    as (d & r & r' & -> & Hr & -> & Ho & Hp' & Hi).
  apply (f_equal (fun m => m !! "resources")) in Heq.
  rewrite merge_dicts_lookup, copy_dict_id, Hres, Hp in Heq.
  rewrite lookup_insert_eq in Heq. simpl in Heq. injection Heq as Heq.
  assert (forall path, is_Some (lookup_path path (VDict resources)) ->
                       is_Some (lookup_path path (VDict r'))) as Hpath.
  { intros path H. rewrite Heq.
    apply (lookup_path_merge path (VDict r') (VDict resources) H). }
  destruct Hsets as [H|[H|H]]; apply Hpath in H; destruct H as [x H].
  - by rewrite Ho in H.
  - by rewrite Hp' in H.
  - simpl in H. by rewrite Hi in H.
Qed.

Lemma reconcile_admin_certs_settled params node w :
  admins_settled console params node ->
  reconcile_admin_certs console params (VDict node) w = (Ok false, w).
Proof.
  intros (desired & Hfind & Hcases).
  unfold reconcile_admin_certs, bind at 1, lift at 1. rewrite Hfind.
  destruct Hcases as [->|(E & HE & Hcases)]; [done|].
  destruct (truthy desired); [|done].
  unfold bind at 1, lift at 1. rewrite HE.
  unfold bind at 1, lift at 1. simpl.
  destruct Hcases as [->|(A & HA & Hsets)]; [done|].
  case_bool_decide; [done|].
  unfold bind at 1, lift at 1. rewrite HA. rewrite Hsets.
  rewrite difference_diag_L, elements_empty. done.
Qed.




Lemma join_system_channel_no_admin_edit params node :
  emits (fun c => ~ is_edit_admin_certs c)
    (join_system_channel console params node).
Proof. unfold join_system_channel. repeat emits_step. Qed.

Lemma create_path_no_admin_edit params create_module :
  emits (fun c => ~ is_edit_admin_certs c)
    (create_path console params create_module).
Proof.
  unfold create_path, get_crypto, get_crypto_enrollment_config,
    get_crypto_enrollment_ca_config, get_crypto_enrollment_tlsca_config.
  repeat emits_step.
Qed.

(** The admin certificate step when the desired and the observed sets
    differ: one incremental edit with the two set differences. *)
Lemma reconcile_admin_certs_edit params (node desired actual id : value)
    (E A : list string) w :
  find_expected_admins params = Ok desired ->
  truthy desired = true ->
  as_str_list desired = Ok E ->
  get node "admin_certs" VNone = Ok actual ->
  actual <> VNone ->
  as_str_list actual = Ok A ->
  getitem node "id" = Ok id ->
  (list_to_set (normalize_whitespace console <$> E) : gset string)
    <> list_to_set (normalize_whitespace console <$> A) ->
  let append :=
    elements ((list_to_set (normalize_whitespace console <$> E) : gset string)
              ∖ list_to_set (normalize_whitespace console <$> A)) in
  let remove :=
    elements ((list_to_set (normalize_whitespace console <$> A) : gset string)
              ∖ list_to_set (normalize_whitespace console <$> E)) in
  reconcile_admin_certs console params node w =
    match edit_admin_certs console id append remove w.1 with
    | Ok (_, r') =>
        (Ok true, (r', w.2 ++ [call_edit_admin_certs id append remove]))
    | Raise e =>
        (Raise e, (w.1, w.2 ++ [call_edit_admin_certs id append remove]))
    end.
Proof.
  intros Hfind Htruthy HE Hget Hnone HA Hid Hneq append remove.
  unfold reconcile_admin_certs, bind at 1, lift at 1. rewrite Hfind, Htruthy.
  unfold bind at 1, lift at 1. rewrite HE.
  unfold bind at 1, lift at 1. rewrite Hget.
  rewrite bool_decide_eq_false_2 by done.
  unfold bind at 1, lift at 1. rewrite HA.
  fold append remove.
  assert (nonempty append || nonempty remove = true) as ->.
  { destruct append as [|x l] eqn:Ea; [|done].
    destruct remove as [|y l] eqn:Er; [|done].
    exfalso. apply Hneq.
    apply elements_empty_inv in Ea, Er.
    apply set_eq. intros x. split; intros Hx.
    - destruct (decide
        (x ∈ (list_to_set (normalize_whitespace console <$> A) : gset string)))
        as [|Hn]; [done|].
      exfalso. apply (not_elem_of_empty (C:=gset string) x).
      rewrite <- Ea. by apply elem_of_difference.
    - destruct (decide
        (x ∈ (list_to_set (normalize_whitespace console <$> E) : gset string)))
        as [|Hn]; [done|].
      exfalso. apply (not_elem_of_empty (C:=gset string) x).
      rewrite <- Er. by apply elem_of_difference. }
  unfold bind at 1, lift at 1. rewrite Hid.
  unfold bind, invoke, ret.
  by destruct (edit_admin_certs console id append remove w.1) as [[[] r']|e].
Qed.


Lemma difference_of_pairs (a b c : string) :
  a <> b -> a <> c ->
  ({[a; b]} : gset string) ∖ {[b; c]} = {[a]}.
Proof. intros Hab Hac. apply set_eq. intros x. set_unfold. naive_solver. Qed.

Lemma difference_of_pairs_rev (a b c : string) :
  a <> c -> b <> c ->
  ({[b; c]} : gset string) ∖ {[a; b]} = {[c]}.
Proof. intros Hac Hbc. apply set_eq. intros x. set_unfold. naive_solver. Qed.

(** C5, as the code has it: on the update path, after the update step,
    when the desired admin certificates are found, the node reports its admin
    certificates and the two normalized sets differ, one incremental
    [edit_admin_certs] call is made with the certificates only desired and
    the certificates only observed, and no other such call follows; desired
    {a, b} against observed {b, c} gives [a] to add and [c] to remove.  The
    desired certificates are the [admins] parameter, else those of
    [crypto.enrollment.component], else those of [crypto.msp.component].
    The create path makes no [edit_admin_certs] call. *)
Theorem admin_certs_reconciled_on_update :
  (forall params node obs expected updated desired actual id E A w w1 w2,
     scrub_resources node = Ok obs ->
     expected_for_update console params w = (Ok expected, w1) ->
     apply_update console params obs (merge_dicts (copy_dict obs) expected)
       (diff_dicts obs (merge_dicts (copy_dict obs) expected)) w1
       = (Ok updated, w2) ->
     find_expected_admins params = Ok desired ->
     truthy desired = true ->
     as_str_list desired = Ok E ->
     get updated.1 "admin_certs" VNone = Ok actual ->
     actual <> VNone ->
     as_str_list actual = Ok A ->
     getitem updated.1 "id" = Ok id ->
     let Es : gset string := list_to_set (normalize_whitespace console <$> E) in
     let As : gset string := list_to_set (normalize_whitespace console <$> A) in
     Es <> As ->
     exists append remove rest,
       (update_path console params node w).2.2
         = w2.2 ++ call_edit_admin_certs id append remove :: rest /\
       Forall (fun c => ~ is_edit_admin_certs c) rest /\
       NoDup append /\ NoDup remove /\
       (forall c, c ∈ append <-> c ∈ Es /\ c ∉ As) /\
       (forall c, c ∈ remove <-> c ∈ As /\ c ∉ Es) /\
       (forall a b c, a <> b -> a <> c -> b <> c ->
          Es = {[a; b]} -> As = {[b; c]} -> append = [a] /\ remove = [c])) /\
  (forall params l,
     p_admins params = Some l -> l <> [] ->
     find_expected_admins params = Ok (VList (VStr <$> l))) /\
  (forall params crypto,
     p_admins params = None \/ p_admins params = Some [] ->
     p_crypto params = Some crypto -> crypto <> ∅ ->
     find_expected_admins params =
       (from_enrollment <-- crypto_admincerts crypto "enrollment" ;;
        if truthy from_enrollment then Ok from_enrollment
        else crypto_admincerts crypto "msp")) /\
  (forall params create_module,
     emits (fun c => ~ is_edit_admin_certs c)
       (create_path console params create_module)).
Proof.
  split; [|split; [|split]].
  - intros params node obs expected updated desired actual id E A w w1 w2
      Hscrub Hexp Happly Hfind Htruthy HE Hget Hnone HA Hid Es As Hneq.
    exists (elements (Es ∖ As)), (elements (As ∖ Es)).
    assert (exists rest,
      (update_path console params node w).2.2
        = w2.2 ++ call_edit_admin_certs id (elements (Es ∖ As))
                    (elements (As ∖ Es)) :: rest /\
      Forall (fun c => ~ is_edit_admin_certs c) rest) as (rest & Hlog & Hrest).
    { unfold update_path, bind at 1, lift at 1. rewrite Hscrub.
      unfold bind at 1. rewrite Hexp.
      unfold bind at 1. rewrite Happly.
      unfold bind at 1.
      rewrite (reconcile_admin_certs_edit params updated.1 desired actual id
                 E A w2 Hfind Htruthy HE Hget Hnone HA Hid Hneq).
      fold Es As.
      destruct (edit_admin_certs console id (elements (Es ∖ As))
                  (elements (As ∖ Es)) w2.1) as [[[] r']|e].
      - match goal with
        | |- context [bind ?m ?k ?w0] =>
            destruct (bind m k w0) as [res w'] eqn:Erest
        end.
        assert (emits (fun c => ~ is_edit_admin_certs c)
                  (joined <~ join_system_channel console params updated.1 ;;
                   ret (joined.1, updated.2 || true || joined.2))) as Hemits.
        { apply emits_bind; [apply join_system_channel_no_admin_edit|].
          intros joined. apply emits_ret. }
        destruct (Hemits _ _ _ Erest) as (rest & Hlog & Hrest).
        exists rest. simpl in *. by rewrite Hlog, <- app_assoc.
      - exists []. by simpl. }
    exists rest. split; [done|]. split; [done|].
    split; [apply NoDup_elements|]. split; [apply NoDup_elements|].
    split; [|split].
    + intros c. by rewrite elem_of_elements, elem_of_difference.
    + intros c. by rewrite elem_of_elements, elem_of_difference.
    + intros a b c Hab Hac Hbc -> ->.
      rewrite difference_of_pairs, difference_of_pairs_rev by done.
      by rewrite !elements_singleton.
  - intros params l Hl Hnil. unfold find_expected_admins. rewrite Hl.
    destruct l; [done|]. reflexivity.
  - intros params crypto Hadmins Hcrypto Hne. unfold find_expected_admins.
    rewrite Hcrypto.
    assert (truthy (VDict crypto) = true) as ->.
    { simpl. by rewrite bool_decide_eq_false_2. }
    by destruct Hadmins as [-> | ->].
  - intros params create_module. apply create_path_no_admin_edit.
Qed.

Lemma update_path_no_orderer_resolver params node :
  emits (fun c => ~ is_resolve_ordering_service_node_version c)
    (update_path console params node).
Proof.
  unfold update_path, expected_for_update, apply_update,
    reconcile_admin_certs, join_system_channel.
  repeat emits_step.
Qed.

Lemma create_path_no_peer_resolver params create_module :
  emits (fun c => ~ is_resolve_peer_version c)
    (create_path console params create_module).
Proof.
  unfold create_path, get_crypto, get_crypto_enrollment_config,
    get_crypto_enrollment_ca_config, get_crypto_enrollment_tlsca_config.
  repeat emits_step.
Qed.

(** C2 fails on the code: with a version given, the update path resolves it
    through [resolve_peer_version] and never calls
    [resolve_ordering_service_node_version], which is the one the create
    path uses; the create path never calls [resolve_peer_version]. *)
Theorem update_resolves_version_as_peer :
  (forall params version w,
     p_version params = Some version ->
     (expected_for_update console params w).2.2
       = w.2 ++ [call_resolve_peer_version version]) /\
  (forall params node,
     emits (fun c => ~ is_resolve_ordering_service_node_version c)
       (update_path console params node)) /\
  (forall params create_module,
     emits (fun c => ~ is_resolve_peer_version c)
       (create_path console params create_module)).
Proof.
  split; [|split].
  - intros params version w Hv. unfold expected_for_update. rewrite Hv.
    unfold bind, invoke, ret.
    by destruct (resolve_peer_version console version w.1) as [[rv r']|e].
  - apply update_path_no_orderer_resolver.
  - apply create_path_no_peer_resolver.
Qed.

End reconciler_properties.

(** ** The scrubbed node and the way into the update path *)

Section scrubbing.
Import dict_utils ordering_service_node.
Context {R : Type} (console : Console R).

Lemma strip_limits_remove (thing : string) (r r' : value) :
  strip_limits thing r = Ok r' -> r' = remove_path [thing; "limits"] r.
Proof.
  unfold strip_limits.
  destruct r as [| | |s|l|d]; simpl; try discriminate.
  - case_bool_decide; simpl; [discriminate|]. by intros [= <-].
  - case_bool_decide; simpl; [discriminate|]. by intros [= <-].
  - case_bool_decide as Hthing; simpl.
    + destruct Hthing as [x Hx]. rewrite Hx. simpl.
      destruct x as [| | |s|l|dx]; simpl; try discriminate.
      * case_bool_decide; simpl; [discriminate|]. intros [= <-].
        by rewrite insert_id.
      * case_bool_decide; simpl; [discriminate|]. intros [= <-].
        by rewrite insert_id.
      * case_bool_decide as Hlimits; simpl.
        -- destruct Hlimits as [y Hy]. rewrite Hy. simpl. by intros [= <-].
        -- intros [= <-]. rewrite delete_id, insert_id; [done..|].
           destruct (dx !! "limits") eqn:E; [|done].
           destruct Hlimits. by eexists.
    + intros [= <-]. destruct (d !! thing) eqn:E; [|done].
      destruct Hthing. by eexists.
Qed.

(** The scrubbed node is the node without the three fields, and nothing
    else of it is touched. *)
Lemma scrub_resources_remove (node : value) (obs : gmap string value) :
  scrub_resources node = Ok obs -> VDict obs = without_scrubbed_fields node.
Proof.
  unfold scrub_resources, without_scrubbed_fields.
  destruct node as [| | | | |d]; try discriminate. cbn [getitem].
  destruct (d !! "resources") as [r0|] eqn:Hres; [|discriminate].
  cbn [rbind].
  destruct (strip_limits "orderer" r0) as [r1|] eqn:H1; [|discriminate].
  cbn [rbind].
  destruct (strip_limits "proxy" r1) as [r2|] eqn:H2; [|discriminate].
  cbn [rbind].
  apply strip_limits_remove in H1, H2.
  destruct r2 as [| | | | |d2]; try discriminate. cbn [pop rbind].
  intros [= <-].
  rewrite (remove_path_cons "resources" ["orderer"; "limits"]) by done.
  rewrite Hres, <- H1.
  rewrite (remove_path_cons "resources" ["proxy"; "limits"]) by done.
  rewrite lookup_insert_eq, <- H2, insert_insert_eq.
  rewrite (remove_path_cons "resources" ["init"]) by done.
  by rewrite lookup_insert_eq, insert_insert_eq.
Qed.

Lemma scrubbed_merge_unchanged (d obs expected : gmap string value) :
  scrub_resources (VDict d) = Ok obs ->
  lookup_path ["resources"; "orderer"; "limits"] (VDict expected) = None ->
  lookup_path ["resources"; "proxy"; "limits"] (VDict expected) = None ->
  lookup_path ["resources"; "init"] (VDict expected) = None ->
  without_scrubbed_fields (VDict (merge_dicts d expected))
    = without_scrubbed_fields (VDict d) ->
  merge_dicts (copy_dict obs) expected = obs.
Proof.
  intros Hscrub Ho Hp Hi Hsame.
  apply scrub_resources_remove in Hscrub.
  assert (merge_value (VDict obs) (VDict expected) = VDict obs) as H.
  { rewrite Hscrub at 1. unfold without_scrubbed_fields.
    rewrite <- !remove_path_merge by done.
    change (merge_value (VDict d) (VDict expected))
      with (VDict (merge_dicts d expected)).
    fold (without_scrubbed_fields (VDict (merge_dicts d expected))).
    by rewrite Hsame. }
  rewrite copy_dict_id. simpl in H. by injection H.
Qed.

Lemma overlay_sets_no_scrubbed_field (params : module_params)
    (expected : gmap string value) :
  expected !! "resources" = VDict <$> p_resources params ->
  (forall resources,
     p_resources params = Some resources -> ~ sets_scrubbed_field resources) ->
  lookup_path ["resources"; "orderer"; "limits"] (VDict expected) = None /\
  lookup_path ["resources"; "proxy"; "limits"] (VDict expected) = None /\
  lookup_path ["resources"; "init"] (VDict expected) = None.
Proof.
  intros Hres Hsets. cbn [lookup_path]. rewrite Hres.
  destruct (p_resources params) as [resources|]; [|done]. simpl.
  specialize (Hsets resources eq_refl). unfold sets_scrubbed_field in Hsets.
  simpl in Hsets.
  repeat split.
  - destruct (resources !! "orderer") as [[| | | | |x]|]; try done.
    simpl in *.
    destruct (x !! "limits") eqn:E; [|done]. destruct Hsets. left.
    by eexists.
  - destruct (resources !! "proxy") as [[| | | | |x]|]; try done.
    simpl in *.
    destruct (x !! "limits") eqn:E; [|done]. destruct Hsets. right. left.
    by eexists.
  - destruct (resources !! "init") eqn:E; [|done]. destruct Hsets.
    right. right. by eexists.
Qed.

(** What [main] does with a node that exists and has its deployment, when
    asked for state [present]: the lookup, the free cluster test, the
    update path and the end. *)
Lemma main_on_existing_node (actual_params : gmap string value)
    (params : module_params) (create_module : result module_params)
    (w : R * list call) (r1 r2 : R) (free : bool) (node : value) :
  p_state params = present ->
  get_component_by_display_name console "fabric-orderer" (p_name params) w.1
    = Ok (node, r1) ->
  node <> VNone ->
  contains "deployment_attrs_missing" node = Ok false ->
  is_free_cluster console r1 = Ok (free, r2) ->
  (free = true ->
   actual_params !! "resources" = None /\ actual_params !! "storage" = None) ->
  main console actual_params params create_module w =
    let params' := if free then clear_resources_and_storage params else params in
    match bind (update_path console params' node)
            (fun reconciled =>
               finish console params' reconciled.1 reconciled.2)
            (r2, w.2 ++ [call_get_component_by_display_name "fabric-orderer"
                           (p_name params);
                         call_is_free_cluster]) with
    | (Ok out, w') => (out, w')
    | (Raise e, w') => (fail_json e, w')
    end.
Proof.
  intros Hstate Hget Hnode Hcorrupt Hfree Hparams.
  unfold main, main_body.
  unfold bind at 1, invoke at 1. rewrite Hget. simpl.
  rewrite bool_decide_eq_false_2 by done. simpl.
  unfold bind at 1, lift at 1. rewrite Hcorrupt.
  unfold bind at 1, invoke at 1. simpl. rewrite Hfree. simpl.
  unfold bind at 1.
  assert (forall ww,
    (if free
     then if bool_decide (is_Some (actual_params !! "resources"))
             || bool_decide (is_Some (actual_params !! "storage"))
          then raise (PyException
                 [Lit "Cannot specify resources or storage for a free IBM Kubernetes Service cluster"])
          else ret (clear_resources_and_storage params)
     else ret params) ww
    = (Ok (if free then clear_resources_and_storage params else params), ww))
    as ->.
  { intros ww. destruct free; [|done].
    by destruct (Hparams eq_refl) as [-> ->]. }
  assert (p_state (if free then clear_resources_and_storage params
                   else params) = present) as ->
    by (by destruct free).
  unfold bind at 1, ret at 1. rewrite <- !app_assoc. reflexivity.
Qed.

End scrubbing.

(** ** Runs of the update path from [main] *)

Section reconciliation_runs.
Import dict_utils ordering_service_node.
Context {R : Type} (console : Console R).

Ltac emits_step :=
  first
    [ apply emits_ret | apply emits_raise | apply emits_lift
    | apply emits_perform
    | apply emits_invoke; solve [reflexivity | simpl; tauto | intros; discriminate]
    | apply emits_bind; [|intros ?]
    | match goal with
      | |- emits _ (if ?b then _ else _) => destruct b
      | |- emits _ (match ?x with _ => _ end) => destruct x
      end ].

Lemma finish_reads params node changed :
  emits (fun c => is_write c = false /\ ~ is_update c)
    (finish console params node changed).
Proof. unfold finish. repeat emits_step. Qed.

(** The log of a run that has come to the update path. *)
Lemma run_log_after_update_path {A} (m : M R A) (k : A -> M R outcome)
    (P : call -> Prop) (w : R * list call) :
  (forall a, emits P (k a)) ->
  exists l,
    (match bind m k w with
     | (Ok out, w') => (out, w')
     | (Raise e, w') => (fail_json e, w')
     end).2.2 = (m w).2.2 ++ l /\ Forall P l.
Proof.
  intros Hk. unfold bind. destruct (m w) as [[a|e] w0]; simpl.
  - destruct (k a w0) as [[out|e] w'] eqn:E;
      destruct (Hk a _ _ _ E) as (l & Hl & HP); by exists l.
  - exists []. by rewrite app_nil_r.
Qed.

(** C6, as the code has it: [main] for state [present] on a node that exists
    and has its deployment, when the scrubbed observed state and the merged
    new state differ and the node has an [id]: the update call is made with
    a payload that holds exactly the top-level keys on which the two states
    differ, each with its new value, except that [resources] carries the
    whole new resources subtree whenever the caller supplied resources or
    the cluster is free, where [main] has set the resources to an empty
    mapping.  No other update call follows. *)
Theorem update_payload_is_diff (actual_params : gmap string value)
    (params : module_params) (create_module : result module_params)
    (node : value) (obs expected : gmap string value) (id : value)
    (w w1 : R * list call) (r1 r2 : R) (free : bool) :
  p_state params = present ->
  get_component_by_display_name console "fabric-orderer" (p_name params) w.1
    = Ok (node, r1) ->
  node <> VNone ->
  contains "deployment_attrs_missing" node = Ok false ->
  is_free_cluster console r1 = Ok (free, r2) ->
  (free = true ->
   actual_params !! "resources" = None /\ actual_params !! "storage" = None) ->
  scrub_resources node = Ok obs ->
  expected_for_update console
    (if free then clear_resources_and_storage params else params)
    (r2, w.2 ++ [call_get_component_by_display_name "fabric-orderer"
                   (p_name params);
                 call_is_free_cluster])
    = (Ok expected, w1) ->
  obs <> merge_dicts (copy_dict obs) expected ->
  obs !! "id" = Some id ->
  exists payload rest,
    (main console actual_params params create_module w).2.2
      = w1.2 ++ call_update_ordering_service_node id payload :: rest /\
    Forall (fun c => ~ is_update c) rest /\
    forall k,
      payload !! k =
        if decide (k = "resources" /\
                   (free = true \/ is_Some (p_resources params)))
        then merge_dicts (copy_dict obs) expected !! "resources"
        else if decide (obs !! k = merge_dicts (copy_dict obs) expected !! k)
             then None
             else merge_dicts (copy_dict obs) expected !! k.
Proof.
  intros Hstate Hget Hnode Hcorrupt Hfree Hparams Hscrub Hexp Hneq Hid.
  rewrite (main_on_existing_node console actual_params params create_module
             w r1 r2 free node) by done.
  cbv zeta.
  set (params' := if free then clear_resources_and_storage params else params)
    in *.
  destruct (update_path_sends_diff console params' node obs expected id _ w1
              Hscrub Hexp Hneq Hid) as (payload & rest & Hlog & Hrest & Hpayload).
  destruct (run_log_after_update_path (update_path console params' node)
              (fun reconciled =>
                 finish console params' reconciled.1 reconciled.2)
              (fun c => ~ is_update c)
              (r2, w.2 ++ [call_get_component_by_display_name "fabric-orderer"
                             (p_name params);
                           call_is_free_cluster]))
    as (l & Hl & Hnone).
  { intros a. eapply emits_weaken; [|apply finish_reads]. by intros c [_ ?]. }
  exists payload, (rest ++ l). rewrite Hl, Hlog, <- app_assoc.
  split; [done|]. split; [by apply Forall_app|].
  intros k. rewrite Hpayload.
  assert (is_Some (p_resources params')
          <-> free = true \/ is_Some (p_resources params)) as Hiff.
  { unfold params'. destruct free; simpl.
    - split; [by left|by eexists].
    - split; [by right|]. by intros [?|?]. }
  destruct (decide (k = "resources" /\ is_Some (p_resources params')))
    as [[-> H]|H];
    destruct (decide (_ /\ (free = true \/ is_Some (p_resources params))))
      as [[? H']|H']; try done.
  - destruct H'. split; [done|]. by apply Hiff.
  - destruct H. split; [done|]. by apply Hiff.
Qed.




(** C10, as the code has it: the scrubbed observed state is the node without
    [resources.orderer.limits], [resources.proxy.limits] and
    [resources.init], everything else being kept.  When the caller's
    resources set none of the three and merging the expected configuration
    into the node changes nothing outside them, the diff is empty and no
    update call is made.  When the caller's resources do set one of the
    three, an update call carrying the resources is made, whatever the node
    holds. *)
Theorem scrubbed_fields_ignored (params : module_params) (node : value)
    (obs expected : gmap string value) (w w1 : R * list call) :
  scrub_resources node = Ok obs ->
  expected_for_update console params w = (Ok expected, w1) ->
  VDict obs = without_scrubbed_fields node /\
  ((forall resources,
      p_resources params = Some resources -> ~ sets_scrubbed_field resources) ->
   without_scrubbed_fields (merge_value node (VDict expected))
     = without_scrubbed_fields node ->
   diff_dicts obs (merge_dicts (copy_dict obs) expected) = ∅ /\
   exists rest,
     (update_path console params node w).2.2 = w1.2 ++ rest /\
     Forall (fun c => ~ is_update c) rest) /\
  (forall resources id,
     p_resources params = Some resources ->
     sets_scrubbed_field resources ->
     obs !! "id" = Some id ->
     exists payload rest,
       (update_path console params node w).2.2
         = w1.2 ++ call_update_ordering_service_node id payload :: rest /\
       Forall (fun c => ~ is_update c) rest /\
       is_Some (payload !! "resources") /\
       payload !! "resources"
         = merge_dicts (copy_dict obs) expected !! "resources").
Proof.
  intros Hscrub Hexp.
  destruct (expected_for_update_inv _ _ _ _ _ Hexp) as (_ & Hres & _).
  split; [by apply scrub_resources_remove|]. split.
  - intros Hsets Hsame.
    destruct (scrub_resources_inv _ _ Hscrub) as (d & ? & ? & -> & _).
    destruct (overlay_sets_no_scrubbed_field params expected Hres Hsets)
      as (Ho & Hp & Hi).
    pose proof (scrubbed_merge_unchanged d obs expected Hscrub Ho Hp Hi Hsame)
      as Hmerge.
    destruct (unchanged_merge_sends_nothing console params (VDict d) obs expected
                w w1 Hscrub) as [_ H].
    by apply H.
  - intros resources id Hp Hsets Hid.
    assert (obs <> merge_dicts (copy_dict obs) expected) as Hneq
      by (by eapply scrubbed_field_differs).
    destruct (update_path_sends_diff console params node obs expected id w w1
                Hscrub Hexp Hneq Hid) as (payload & rest & Hlog & Hrest & Hk).
    exists payload, rest. split; [done|]. split; [done|].
    rewrite (Hk "resources"), decide_True by (split; [done|by rewrite Hp]).
    split; [|done].
    rewrite merge_dicts_lookup, Hres, Hp. simpl.
    destruct (copy_dict obs !! "resources"); by eexists.
Qed.

End reconciliation_runs.

(** ** Runs on the console kept in memory *)

Section examples.
Import dict_utils ordering_service_node fixtures.

(** Resources given by the caller: the payload is the whole merged
    resources. *)
Lemma update_payload_is_diff_witness :
  let params := with_resources (Some other_limits) sample_params in
  let expected : gmap string value :=
    list_to_map [("config_override", dict []);
                 ("resources", VDict other_limits)] in
  let new := merge_dicts (copy_dict scrubbed_sample_node) expected in
  exists payload rest,
    (main memory_console ∅ params (Ok params) start).2.2
      = [call_get_component_by_display_name "fabric-orderer"
           "Ordering Service Node 2";
         call_is_free_cluster]
        ++ call_update_ordering_service_node (VStr "orderer1") payload :: rest /\
    Forall (fun c => ~ is_update c) rest /\
    forall k,
      payload !! k =
        if decide (k = "resources" /\
                   (false = true \/ is_Some (p_resources params)))
        then new !! "resources"
        else if decide (scrubbed_sample_node !! k = new !! k) then None
             else new !! k.
Proof.
  intros params expected new.
  apply (update_payload_is_diff memory_console ∅ params (Ok params)
           (VDict sample_node) scrubbed_sample_node expected (VStr "orderer1")
           start
           (VDict sample_node,
            [call_get_component_by_display_name "fabric-orderer"
               "Ordering Service Node 2";
             call_is_free_cluster])
           (VDict sample_node) (VDict sample_node) false).
  - reflexivity.
  - reflexivity.
  - discriminate.
  - reflexivity.
  - reflexivity.
  - discriminate.
  - vm_compute. reflexivity.
  - vm_compute. reflexivity.
  - intros H. apply (f_equal (fun m => m !! "resources")) in H.
    vm_compute in H. discriminate.
  - reflexivity.
Defined.

(** C6, as stated, fails: on a free cluster the caller gives a version and
    no resources; the payload carries the version and, besides, the
    resources as they were observed. *)
Lemma free_cluster_sends_resources :
  let params := with_version (Some ">=2.2,<3.0") sample_params in
  let run := main (on_free_cluster memory_console) ∅ params (Ok params) start in
  let new := merge_dicts (copy_dict scrubbed_sample_node)
               (list_to_map [("config_override", dict []);
                             ("resources", dict []);
                             ("version", VStr "2.2.5")]) in
  p_resources params = None /\
  scrubbed_sample_node !! "resources" = new !! "resources" /\
  (forall k, k <> "version" -> scrubbed_sample_node !! k = new !! k) /\
  exists payload,
    run.2.2 !! 3%nat
      = Some (call_update_ordering_service_node (VStr "orderer1") payload) /\
    dom payload = {["version"; "resources"]} /\
    payload !! "resources" = scrubbed_sample_node !! "resources".
Proof.
  intros params run new.
  split; [reflexivity|]. split; [vm_compute; reflexivity|]. split.
  - intros k Hk. unfold new. rewrite copy_dict_id, merge_dicts_lookup.
    destruct (decide (k = "config_override")) as [->|H1];
      [vm_compute; reflexivity|].
    destruct (decide (k = "resources")) as [->|H2];
      [vm_compute; reflexivity|].
    simpl. by rewrite !lookup_insert_ne, lookup_empty by done.
  - exists (list_to_map
              [("version", VStr "2.2.5");
               ("resources",
                default_or (scrubbed_sample_node !! "resources") VNone)]).
    split; [vm_compute; reflexivity|]. split; [|vm_compute; reflexivity].
    vm_compute. reflexivity.
Qed.

(** The payload of that run, computed. *)
Lemma update_payload_of_version_change : (update_path memory_console (with_version (Some ">=2.2,<3.0") sample_params) (VDict sample_node) start).2.2
      = [call_resolve_peer_version ">=2.2,<3.0"; call_update_ordering_service_node (VStr "orderer1") {[ "version" := VStr "2.2.5" ]}].
Proof. vm_compute. reflexivity. Qed.




(** The sample node has limits the caller did not ask for: no update.  With
    limits among the caller's resources, an update is sent. *)
Lemma scrubbed_fields_ignored_witness :
  (let expected : gmap string value :=
     list_to_map [("config_override", dict [])] in
   VDict scrubbed_sample_node = without_scrubbed_fields (VDict sample_node) /\
   diff_dicts scrubbed_sample_node
     (merge_dicts (copy_dict scrubbed_sample_node) expected) = ∅ /\
   exists rest,
     (update_path memory_console sample_params (VDict sample_node) start).2.2
       = [] ++ rest /\
     Forall (fun c => ~ is_update c) rest) /\
  (let params := with_resources (Some other_limits) sample_params in
   let expected : gmap string value :=
     list_to_map [("config_override", dict []);
                  ("resources", VDict other_limits)] in
   exists payload rest,
     (update_path memory_console params (VDict sample_node) start).2.2
       = [] ++ call_update_ordering_service_node (VStr "orderer1") payload
               :: rest /\
     Forall (fun c => ~ is_update c) rest /\
     is_Some (payload !! "resources") /\
     payload !! "resources"
       = merge_dicts (copy_dict scrubbed_sample_node) expected !! "resources").
Proof.
  split.
  - intros expected.
    destruct (scrubbed_fields_ignored memory_console sample_params
                (VDict sample_node) scrubbed_sample_node expected start start
                ltac:(vm_compute; reflexivity) eq_refl)
      as (Hscrubbed & Hsame & _).
    split; [exact Hscrubbed|]. apply Hsame.
    + discriminate.
    + vm_compute. reflexivity.
  - intros params expected.
    destruct (scrubbed_fields_ignored memory_console params
                (VDict sample_node) scrubbed_sample_node expected start start
                ltac:(vm_compute; reflexivity) eq_refl)
      as (_ & _ & Hsets).
    apply (Hsets other_limits (VStr "orderer1")).
    + reflexivity.
    + left. by eexists.
    + reflexivity.
Defined.

(** C10, as stated, fails: the caller's resources differ from the observed
    node in [resources.orderer.limits] only, everything else agrees, and the
    difference is detected and an update call is made. *)
Lemma differing_limits_are_updated :
  let params := with_resources (Some other_limits) sample_params in
  let run := main memory_console ∅ params (Ok params) start in
  lookup_path ["resources"; "orderer"; "limits"] (VDict sample_node)
    = Some (dict [("cpu", VStr "2")]) /\
  VDict other_limits = dict [("orderer", dict [("limits", dict [("cpu", VStr "1")])])] /\
  expected_update_configuration params
    = list_to_map [("config_override", dict []); ("resources", VDict other_limits)] /\
  sample_node !! "config_override" = Some (dict []) /\
  outcome_changed run.1 = Some true /\
  call_name <$> run.2.2 =
    ["get_component_by_display_name"; "is_free_cluster";
     "update_ordering_service_node";
     "extract_ordering_service_node_info"; "wait_for"].
Proof. vm_compute. repeat split; reflexivity. Qed.




(** Desired {A, B}, one with a leading blank, against observed {B, C}. *)
Lemma admin_certs_reconciled_on_update_witness :
  let params := with_admins (Some ["A"; " B"]) sample_params in
  let Es : gset string := list_to_set (strip_whitespace <$> ["A"; " B"]) in
  let As : gset string := list_to_set (strip_whitespace <$> ["B"; "C"]) in
  exists append remove rest,
    (update_path memory_console params (VDict sample_node) start).2.2
      = [] ++ call_edit_admin_certs (VStr "orderer1") append remove :: rest /\
    Forall (fun c => ~ is_edit_admin_certs c) rest /\
    NoDup append /\ NoDup remove /\
    (forall c, c ∈ append <-> c ∈ Es /\ c ∉ As) /\
    (forall c, c ∈ remove <-> c ∈ As /\ c ∉ Es) /\
    (forall a b c, a <> b -> a <> c -> b <> c ->
       Es = {[a; b]} -> As = {[b; c]} -> append = [a] /\ remove = [c]).
Proof.
  apply (proj1 (admin_certs_reconciled_on_update memory_console)
           (with_admins (Some ["A"; " B"]) sample_params) (VDict sample_node)
           scrubbed_sample_node (list_to_map [("config_override", dict [])])
           (VDict scrubbed_sample_node, false)
           (VList [VStr "A"; VStr " B"]) (VList [VStr "B"; VStr "C"])
           (VStr "orderer1") ["A"; " B"] ["B"; "C"] start start start).
  - vm_compute. reflexivity.
  - reflexivity.
  - vm_compute. reflexivity.
  - reflexivity.
  - reflexivity.
  - reflexivity.
  - reflexivity.
  - discriminate.
  - reflexivity.
  - reflexivity.
  - intros H. apply (f_equal (fun s : gset string => bool_decide ("A" ∈ s))) in H.
    vm_compute in H. discriminate.
Defined.

(** The scenario of the specification, run. *)
Lemma admin_certs_scenario :
  (update_path memory_console (with_admins (Some ["A"; " B"]) sample_params)
     (VDict sample_node) start).2.2
    = [call_edit_admin_certs (VStr "orderer1") ["A"] ["C"]].
Proof. vm_compute. reflexivity. Qed.

(** C5, as stated, fails: after a creation with desired admin certificate
    [A], the created node reports no admin certificates and no
    [edit_admin_certs] call is made. *)
Lemma create_skips_admin_certs :
  let params := with_resources (Some ∅) (with_admins (Some ["A"]) sample_params) in
  let run := main memory_console ∅ params (Ok params) (VNone, []) in
  outcome_changed run.1 = Some true /\
  lookup_path ["admin_certs"] run.2.1 = Some (VList []) /\
  find_expected_admins params = Ok (VList [VStr "A"]) /\
  call_name <$> run.2.2 =
    ["get_component_by_display_name"; "is_free_cluster"; "is_free_cluster";
     "create_ordering_service"; "extract_ordering_service_node_info"].
Proof. vm_compute. repeat split; reflexivity. Qed.

(** A version range on the sample node is resolved as a peer version. *)
Lemma update_resolves_version_as_peer_witness :
  (expected_for_update memory_console
     (with_version (Some ">=2.2,<3.0") sample_params) start).2.2
    = start.2 ++ [call_resolve_peer_version ">=2.2,<3.0"].
Proof.
  apply (proj1 (update_resolves_version_as_peer memory_console)
           (with_version (Some ">=2.2,<3.0") sample_params) ">=2.2,<3.0" start).
  reflexivity.
Defined.

(** The two paths on the same version range. *)
Lemma version_resolution_on_both_paths :
  let params :=
    with_resources (Some ∅) (with_version (Some ">=2.2,<3.0") sample_params) in
  let update := main memory_console ∅ params (Ok params) start in
  let create := main memory_console ∅ params (Ok params) (VNone, []) in
  call_name <$> update.2.2 =
    ["get_component_by_display_name"; "is_free_cluster";
     "resolve_peer_version"; "update_ordering_service_node";
     "extract_ordering_service_node_info"; "wait_for"] /\
  call_name <$> create.2.2 =
    ["get_component_by_display_name"; "is_free_cluster"; "is_free_cluster";
     "resolve_ordering_service_node_version"; "create_ordering_service";
     "extract_ordering_service_node_info"] /\
  lookup_path ["version"] update.2.1 = Some (VStr "2.2.5") /\
  lookup_path ["version"] create.2.1 = Some (VStr "2.2.3").
Proof. vm_compute. repeat split; reflexivity. Qed.

End examples.

(** * Further properties *)

(** ** The MSP compiler, for every choice of policies *)

Section msp_further.
Import organizations msp_utils.

(** X1: whatever the endorsement flag and the caller's policies, parsing back
    the MSP built from an organization returns that organization, named by
    its MSP identifier and without a signing identity: the policies play no
    part in what is read back. *)
Theorem msp_round_trip_any_policies (O : Organization)
    (endorsement_policy_required : bool) (policies : gmap string value) :
  msp_to_organization (msp_id O)
    (organization_to_msp O endorsement_policy_required policies)
  = Ok (Build_Organization (msp_id O) (msp_id O) (root_certs O)
          (intermediate_certs O) (admins O) (revocation_list O)
          (tls_root_certs O) (tls_intermediate_certs O) (fabric_node_ous O)
          (organizational_unit_identifiers O) VNone).
Proof. reflexivity. Qed.

(** X2: a policy passed by the caller is stored under its name, wrapped with
    the [Admins] modification policy, and takes the place of a default of
    the same name; every other name keeps the default it would have had
    without the caller's policies. *)
Theorem caller_policies_override (O : Organization)
    (endorsement_policy_required : bool) (policies : gmap string value)
    (policyName : string) :
  msp_policies O endorsement_policy_required policies !! policyName =
    match policies !! policyName with
    | Some policy => Some (wrap_policy policy)
    | None => msp_policies O endorsement_policy_required ∅ !! policyName
    end.
Proof.
  unfold msp_policies at 1.
  match goal with
  | |- map_fold ?f ?b policies !! _ = _ =>
      apply (map_fold_weak_ind
               (fun r m => r !! policyName =
                  match m !! policyName with
                  | Some policy => Some (wrap_policy policy)
                  | None => b !! policyName
                  end) f b)
  end.
  - by rewrite lookup_empty.
  - intros i x m r Hi IH.
    destruct (decide (i = policyName)) as [->|Hne].
    + by rewrite !lookup_insert_eq.
    + by rewrite !lookup_insert_ne.
Qed.

(** X3: with no policies from the caller, asking for the endorsement policy
    adds exactly the [Endorsement] entry, a single-role policy for the
    member role of the organization, to the three defaults and leaves those
    as they are. *)
Theorem endorsement_policy_when_required (O : Organization) :
  dom (msp_policies O true ∅) = {["Admins"; "Readers"; "Writers"; "Endorsement"]} /\
  dom (msp_policies O false ∅) = {["Admins"; "Readers"; "Writers"]} /\
  msp_policies O true ∅ !! "Endorsement"
    = Some (wrap_policy (get_default_endorsement_policy O)) /\
  is_single_role_policy (msp_id O) "MEMBER" (get_default_endorsement_policy O) /\
  (forall k, k <> "Endorsement" ->
     msp_policies O true ∅ !! k = msp_policies O false ∅ !! k).
Proof.
  unfold msp_policies. rewrite !map_fold_empty.
  split; [reflexivity|]. split; [reflexivity|]. split; [reflexivity|]. split.
  - repeat split; try reflexivity. eexists. repeat split; reflexivity.
  - intros k Hk. by rewrite lookup_insert_ne.
Qed.

Lemma rbind_ok_inv {A B} (r : result A) (k : A -> result B) (b : B) :
  rbind r k = Ok b -> exists a, r = Ok a /\ k a = Ok b.
Proof. destruct r as [a|e]; simpl; [by exists a|discriminate]. Qed.

Lemma getitem_ok_inv (v : value) (k : string) (x : value) :
  getitem v k = Ok x -> exists d, v = VDict d /\ d !! k = Some x.
Proof.
  destruct v as [| | | | |d]; simpl; try discriminate.
  destruct (d !! k) as [y|] eqn:E; [|discriminate].
  intros [= <-]. by exists d.
Qed.

Lemma lookup_path_config (msp : value) (config : gmap string value) :
  lookup_path msp_config_path msp = Some (VDict config) ->
  exists values, getitem msp "values" = Ok values /\
  exists msp_value, getitem values "MSP" = Ok msp_value /\
  exists value_, getitem msp_value "value" = Ok value_ /\
  getitem value_ "config" = Ok (VDict config).
Proof.
  intros Hpath.
  apply lookup_path_cons_inv in Hpath as (d1 & v1 & -> & H1 & Hpath).
  apply lookup_path_cons_inv in Hpath as (d2 & v2 & -> & H2 & Hpath).
  apply lookup_path_cons_inv in Hpath as (d3 & v3 & -> & H3 & Hpath).
  apply lookup_path_cons_inv in Hpath as (d4 & v4 & -> & H4 & Hpath).
  simpl in Hpath. injection Hpath as ->. simpl.
  rewrite H1. eexists. split; [done|]. simpl.
  rewrite H2. eexists. split; [done|]. simpl.
  rewrite H3. eexists. split; [done|]. simpl. by rewrite H4.
Qed.

(** What a successful parse has read. *)
Lemma msp_to_organization_ok_inv (id : string) (msp : value) (O : Organization) :
  msp_to_organization id msp = Ok O ->
  exists config,
    lookup_path msp_config_path msp = Some (VDict config) /\
    config !! "root_certs" = Some (root_certs O) /\
    config !! "intermediate_certs" = Some (intermediate_certs O) /\
    config !! "admins" = Some (admins O) /\
    config !! "revocation_list" = Some (revocation_list O) /\
    config !! "tls_root_certs" = Some (tls_root_certs O) /\
    config !! "tls_intermediate_certs" = Some (tls_intermediate_certs O) /\
    config !! "fabric_node_ous" = Some (fabric_node_ous O) /\
    config !! "organizational_unit_identifiers"
      = Some (organizational_unit_identifiers O) /\
    name O = id /\ msp_id O = id /\ signing_identity O = VNone.
Proof.
  unfold msp_to_organization. intros H.
  apply rbind_ok_inv in H as (values & H1 & H).
  apply rbind_ok_inv in H as (msp_value & H2 & H).
  apply rbind_ok_inv in H as (value_ & H3 & H).
  apply rbind_ok_inv in H as (msp_config & H4 & H).
  apply getitem_ok_inv in H1 as (d1 & -> & H1).
  apply getitem_ok_inv in H2 as (d2 & -> & H2).
  apply getitem_ok_inv in H3 as (d3 & -> & H3).
  apply getitem_ok_inv in H4 as (d4 & -> & H4).
  repeat match type of H with
         | rbind (getitem ?c ?f) _ = Ok _ =>
             let F := fresh "F" in
             apply rbind_ok_inv in H as (? & F & H);
             apply getitem_ok_inv in F as (? & ? & F)
         end.
  simplify_eq. eexists. simpl. rewrite H1, H2, H3, H4.
  repeat split; done.
Qed.

(** X4: [msp_to_organization] returns an organization exactly when the MSP
    holds a mapping at [values.MSP.value.config] with the eight fields, and
    then the organization carries those eight values, the identifier it was
    given as name and as MSP identifier, and no signing identity.  Nothing
    else of the MSP is looked at. *)
Theorem msp_to_organization_reads_config (id : string) (msp : value)
    (O : Organization) :
  msp_to_organization id msp = Ok O <->
  exists config,
    lookup_path msp_config_path msp = Some (VDict config) /\
    config !! "root_certs" = Some (root_certs O) /\
    config !! "intermediate_certs" = Some (intermediate_certs O) /\
    config !! "admins" = Some (admins O) /\
    config !! "revocation_list" = Some (revocation_list O) /\
    config !! "tls_root_certs" = Some (tls_root_certs O) /\
    config !! "tls_intermediate_certs" = Some (tls_intermediate_certs O) /\
    config !! "fabric_node_ous" = Some (fabric_node_ous O) /\
    config !! "organizational_unit_identifiers"
      = Some (organizational_unit_identifiers O) /\
    name O = id /\ msp_id O = id /\ signing_identity O = VNone.
Proof.
  split; [apply msp_to_organization_ok_inv|].
  intros (config & Hpath & H1 & H2 & H3 & H4 & H5 & H6 & H7 & H8
          & Hname & Hid & Hsign).
  apply lookup_path_config in Hpath
    as (values & E1 & msp_value & E2 & value_ & E3 & E4).
  unfold msp_to_organization. rewrite E1. simpl. rewrite E2. simpl.
  rewrite E3. simpl.
  rewrite E4. simpl. rewrite H1, H2, H3, H4, H5, H6, H7, H8. simpl.
  destruct O. simpl in *. by subst.
Qed.

(** X5: when the config mapping is there, the fields are read in a fixed
    order and the parse stops at the first one that is missing, with a
    [KeyError] naming that field. *)
Theorem msp_to_organization_first_missing_field (id : string) (msp : value)
    (config : gmap string value) (before after : list string) (field : string) :
  lookup_path msp_config_path msp = Some (VDict config) ->
  msp_config_fields = before ++ field :: after ->
  Forall (fun k => is_Some (config !! k)) before ->
  config !! field = None ->
  msp_to_organization id msp = Raise (KeyError field).
Proof.
  intros Hpath Hsplit Hbefore Hfield.
  apply lookup_path_config in Hpath
    as (values & E1 & msp_value & E2 & value_ & E3 & E4).
  unfold msp_to_organization. rewrite E1. simpl. rewrite E2. simpl.
  rewrite E3. simpl. rewrite E4. simpl.
  unfold msp_config_fields in Hsplit.
  repeat (destruct before as [|? before];
          [ simpl in Hsplit; injection Hsplit as <- <-; by rewrite Hfield
          | simpl in Hsplit; injection Hsplit as <- Hsplit;
            apply Forall_cons in Hbefore as [[? ->] Hbefore]; simpl ]).
  by destruct before.
Qed.

(** X6: building an MSP from a parsed organization keeps the eight config
    fields of the MSP that was parsed; its config has those fields, the
    fixed [crypto_config], a null [signing_identity] and, as [name], the
    identifier given to the parse, and nothing else. *)
Theorem organization_to_msp_keeps_config (id : string) (msp : value)
    (O : Organization) (endorsement_policy_required : bool)
    (policies : gmap string value) :
  msp_to_organization id msp = Ok O ->
  exists config config',
    lookup_path msp_config_path msp = Some (VDict config) /\
    lookup_path msp_config_path
      (organization_to_msp O endorsement_policy_required policies)
      = Some (VDict config') /\
    Forall (fun field => config' !! field = config !! field) msp_config_fields /\
    config' !! "name" = Some (VStr id) /\
    config' !! "signing_identity" = Some VNone /\
    dom config' =
      list_to_set (["crypto_config"; "name"; "signing_identity"]
                   ++ msp_config_fields).
Proof.
  intros H. apply msp_to_organization_ok_inv in H
    as (config & Hpath & H1 & H2 & H3 & H4 & H5 & H6 & H7 & H8 & _ & Hid & _).
  exists config. eexists. split; [done|]. split; [reflexivity|].
  split; [|split; [|split]].
  - unfold msp_config_fields.
    repeat constructor;
      [rewrite H1|rewrite H2|rewrite H3|rewrite H4|rewrite H5|rewrite H6
      |rewrite H7|rewrite H8]; reflexivity.
  - by rewrite <- Hid.
  - reflexivity.
  - reflexivity.
Qed.

End msp_further.

(** ** Writing an identity out *)

Section convert_properties.
Import msp_utils.
Context {F : Type} (fs : FileSystem F).

(** X7: an identity without a CA is refused before the file system is
    touched, and only such an identity is: a run that returns a path was
    given an identity with a CA. *)
Theorem convert_identity_needs_ca (identity : Identity) (path : string)
    (w : F * list fs_call) :
  (truthy (ca identity) = false ->
   convert_identity_to_msp_path fs identity path w =
     (Raise (PyException [Lit
        "The specified identity cannot be used as it does not have a CA field"]),
      w)) /\
  (forall p w',
     convert_identity_to_msp_path fs identity path w = (Ok p, w') ->
     truthy (ca identity) = true).
Proof.
  unfold convert_identity_to_msp_path. split.
  - by intros ->.
  - intros p w'. by destruct (truthy (ca identity)).
Qed.

Ltac fs_step :=
  match goal with
  | |- context [match mkdir fs ?p ?f with _ => _ end] =>
      destruct (mkdir fs p f) as [[[] ?]|?]; simpl
  | |- context [match write_file fs ?p ?d ?f with _ => _ end] =>
      destruct (write_file fs p d f) as [[[] ?]|?]; simpl
  end.

(** X8: with a CA, the operations made are the temporary directory (only for
    the path ['temp']) followed by a prefix of the fixed layout: the four
    directories admincerts, cacerts, signcerts and keystore, each made before
    the file put in it, the key file only for an identity with a private key.
    A run that returns has made the whole layout and returns the directory
    it is under: the given path, or the one the temporary directory got. *)
Theorem convert_identity_layout (identity : Identity) (path : string)
    (w w' : F * list fs_call) (r : result string) :
  truthy (ca identity) = true ->
  convert_identity_to_msp_path fs identity path w = (r, w') ->
  exists msp_path made,
    w'.2 = w.2 ++ (if String.eqb path "temp" then [fs_mkdtemp] else []) ++ made /\
    (path <> "temp" -> msp_path = path) /\
    made `prefix_of` msp_directory_calls msp_path identity /\
    (forall p, r = Ok p ->
       p = msp_path /\ made = msp_directory_calls msp_path identity /\
       (path = "temp" -> exists f, mkdtemp fs w.1 = Ok (msp_path, f))).
Proof.
  intros Hca. unfold convert_identity_to_msp_path. rewrite Hca. simpl.
  match goal with
  | |- fs_bind ?m ?k w = _ -> _ => set (steps := k)
  end.
  assert (forall msp_path w0 r w',
            steps msp_path w0 = (r, w') ->
            exists made,
              w'.2 = w0.2 ++ made /\
              made `prefix_of` msp_directory_calls msp_path identity /\
              (forall p, r = Ok p ->
                 p = msp_path /\ made = msp_directory_calls msp_path identity))
    as Hsteps.
  { clear. intros msp_path w0 r w'. unfold steps, msp_directory_calls.
    unfold fs_bind, fs_do, fs_ret.
    repeat fs_step;
      try (destruct (truthy (private_key identity)); simpl; try fs_step);
      intros [= <- <-]; simpl; rewrite <- ?app_assoc; simpl;
      eexists; (split; [reflexivity|]);
      (split; [by eexists|]); intros p [= <-]; done. }
  clearbody steps. unfold fs_bind.
  destruct (String.eqb path "temp") eqn:Epath.
  - apply String.eqb_eq in Epath as ->. unfold fs_do.
    destruct (mkdtemp fs w.1) as [[msp_path f']|e] eqn:Emk; simpl.
    + intros H. destruct (Hsteps _ _ _ _ H) as (made & Hlog & Hprefix & Hok).
      exists msp_path, made. simpl in Hlog. rewrite Hlog, <- app_assoc.
      split; [done|]. split; [done|]. split; [done|].
      intros p Hp. destruct (Hok p Hp) as [-> ->].
      split; [done|]. split; [done|]. intros _. by exists f'.
    + intros [= <- <-]. exists "", []. simpl.
      split; [done|]. split; [done|]. split; [apply prefix_nil|]. discriminate.
  - apply String.eqb_neq in Epath. unfold fs_ret.
    intros H. destruct (Hsteps _ _ _ _ H) as (made & Hlog & Hprefix & Hok).
    exists path, made. split; [done|]. split; [done|]. split; [done|].
    intros p Hp. destruct (Hok p Hp) as [-> ->]. done.
Qed.

End convert_properties.

(** ** Steps of the reconciler *)

Section reconciler_further.
Import dict_utils ordering_service_node.
Context {R : Type} (console : Console R).

Lemma strip_limits_fixed (thing : string) (d : gmap string value) :
  match d !! thing with
  | None => True
  | Some x => contains "limits" x = Ok false
  end ->
  strip_limits thing (VDict d) = Ok (VDict d).
Proof.
  unfold strip_limits. simpl.
  destruct (d !! thing) as [x|] eqn:E.
  - intros Hx. rewrite bool_decide_eq_true_2 by (by eexists). simpl.
    by rewrite Hx.
  - intros _. rewrite bool_decide_eq_false_2; [done|]. by intros [? ?].
Qed.

Lemma strip_limits_result (thing : string) (d : gmap string value) (r' : value) :
  strip_limits thing (VDict d) = Ok r' ->
  exists d', r' = VDict d' /\
    match d' !! thing with
    | None => True
    | Some x => contains "limits" x = Ok false
    end /\
    forall k, k <> thing -> d' !! k = d !! k.
Proof.
  unfold strip_limits. simpl.
  case_bool_decide as Hthing; simpl.
  - destruct Hthing as [x Hx]. rewrite Hx. simpl.
    destruct (contains "limits" x) as [[|]|] eqn:Hc; simpl; try discriminate.
    + destruct x as [| | | | |dx]; simpl; try discriminate.
      simpl in Hc. injection Hc as Hc. apply bool_decide_eq_true_1 in Hc.
      destruct Hc as [y Hy]. rewrite Hy. simpl. intros [= <-].
      eexists. split; [done|]. rewrite lookup_insert_eq. split.
      * simpl. rewrite bool_decide_eq_false_2; [done|].
        rewrite lookup_delete_eq. by intros [? ?].
      * intros k Hk. by rewrite lookup_insert_ne.
    + intros [= <-]. exists d. rewrite Hx. done.
  - intros [= <-]. exists d. split; [done|]. split; [|done].
    destruct (d !! thing) eqn:E; [|done]. exfalso. apply Hthing. by eexists.
Qed.

(** X9: scrubbing an observed node touches its [resources] only, and
    scrubbing what it returns changes nothing more: the scrubbed node is a
    fixed point. *)
Theorem scrub_resources_idempotent (node : value) (obs : gmap string value) :
  scrub_resources node = Ok obs ->
  scrub_resources (VDict obs) = Ok obs /\
  exists d, node = VDict d /\
    dom obs = dom d /\
    forall k, k <> "resources" -> obs !! k = d !! k.
Proof.
  unfold scrub_resources at 1.
  destruct node as [| | | | |d]; simpl; try discriminate.
  destruct (d !! "resources") as [r0|] eqn:Hres; simpl; [|discriminate].
  destruct (strip_limits "orderer" r0) as [r1|] eqn:H1; simpl; [|discriminate].
  destruct (strip_limits "proxy" r1) as [r2|] eqn:H2; simpl; [|discriminate].
  destruct r0 as [| | | | |d0];
    try (apply strip_limits_inv in H1; subst r1;
         apply strip_limits_inv in H2; subst r2; simpl; discriminate).
  apply strip_limits_result in H1 as (d1 & -> & Ho1 & Hk1).
  apply strip_limits_result in H2 as (d2 & -> & Hp2 & Hk2).
  simpl. intros [= <-]. split.
  - unfold scrub_resources. simpl. rewrite lookup_insert_eq. simpl.
    rewrite (strip_limits_fixed "orderer").
    2:{ rewrite lookup_delete_ne by done. by rewrite Hk2. }
    simpl. rewrite (strip_limits_fixed "proxy").
    2:{ by rewrite lookup_delete_ne. }
    simpl. by rewrite delete_delete_eq, insert_insert_eq.
  - exists d. split; [done|]. split.
    + rewrite dom_insert_L. apply elem_of_dom_2 in Hres. set_solver.
    + intros k Hk. by rewrite lookup_insert_ne.
Qed.




(** A leaf that the overlay has is there, unchanged, after the merge. *)
Lemma lookup_path_merge_leaf (path : list string) (base overlay x : value) :
  (forall d, x <> VDict d) ->
  lookup_path path overlay = Some x ->
  lookup_path path (merge_value base overlay) = Some x.
Proof.
  intros Hleaf. revert base overlay.
  induction path as [|k rest IH]; intros base overlay.
  - simpl. intros [= ->]. destruct base, x; try done. by destruct (Hleaf d0).
  - simpl. destruct overlay as [| | | | |o]; try discriminate.
    destruct (o !! k) as [y|] eqn:Ho; [|discriminate].
    intros Hy. destruct base as [| | | | |b]; simpl; try by rewrite Ho.
    rewrite lookup_union_with, Ho.
    destruct (b !! k) as [bx|]; simpl; [by apply IH|done].
Qed.

(** X11: with an HSM and a config override that is a mapping, the HSM step
    succeeds; the override then selects PKCS11 with the label and the pin of
    the HSM and keeps every section other than [General]; [hsm] is set to
    the endpoint when that is a non-empty string and left alone otherwise;
    the rest of the expected configuration is untouched. *)
Theorem hsm_configuration_added (params : module_params) (hsm : hsm_params)
    (expected config_override : gmap string value) :
  p_hsm params = Some hsm ->
  expected !! "config_override" = Some (VDict config_override) ->
  exists expected' config_override',
    add_hsm params expected = Ok expected' /\
    expected' !! "config_override" = Some (VDict config_override') /\
    lookup_path ["General"; "BCCSP"; "Default"] (VDict config_override')
      = Some (VStr "PKCS11") /\
    lookup_path ["General"; "BCCSP"; "PKCS11"; "Label"] (VDict config_override')
      = Some (VStr (label hsm)) /\
    lookup_path ["General"; "BCCSP"; "PKCS11"; "Pin"] (VDict config_override')
      = Some (VStr (pin hsm)) /\
    (forall k, k <> "General" -> config_override' !! k = config_override !! k) /\
    expected' !! "hsm" =
      match pkcs11endpoint hsm with
      | Some endpoint =>
          if String.eqb endpoint "" then expected !! "hsm"
          else Some (dict [("pkcs11endpoint", VStr endpoint)])
      | None => expected !! "hsm"
      end /\
    forall k, k <> "hsm" -> k <> "config_override" ->
      expected' !! k = expected !! k.
Proof.
  intros Hhsm Hco. unfold add_hsm. rewrite Hhsm.
  set (expected1 :=
         match pkcs11endpoint hsm with
         | Some endpoint =>
             if truthy (VStr endpoint)
             then <["hsm" := dict [("pkcs11endpoint", VStr endpoint)]]> expected
             else expected
         | None => expected
         end).
  assert (expected1 !! "config_override" = Some (VDict config_override)) as Hco1.
  { unfold expected1. destruct (pkcs11endpoint hsm) as [endpoint|]; [|done].
    destruct (truthy (VStr endpoint)); [|done]. by rewrite lookup_insert_ne. }
  simpl. rewrite Hco1. simpl.
  eexists. exists (merge_dicts config_override (hsm_config_override hsm)).
  split; [reflexivity|]. split; [by rewrite lookup_insert_eq|].
  split; [|split; [|split]].
  - exact (lookup_path_merge_leaf ["General"; "BCCSP"; "Default"]
             (VDict config_override) (VDict (hsm_config_override hsm))
             (VStr "PKCS11") ltac:(congruence) eq_refl).
  - exact (lookup_path_merge_leaf ["General"; "BCCSP"; "PKCS11"; "Label"]
             (VDict config_override) (VDict (hsm_config_override hsm))
             (VStr (label hsm)) ltac:(congruence) eq_refl).
  - exact (lookup_path_merge_leaf ["General"; "BCCSP"; "PKCS11"; "Pin"]
             (VDict config_override) (VDict (hsm_config_override hsm))
             (VStr (pin hsm)) ltac:(congruence) eq_refl).
  - split; [|split].
    + intros k Hk. rewrite merge_dicts_lookup.
      unfold hsm_config_override. simpl.
      rewrite lookup_insert_ne by done. by rewrite lookup_empty.
    + rewrite lookup_insert_ne by done. unfold expected1.
      destruct (pkcs11endpoint hsm) as [endpoint|]; [|done]. simpl.
      destruct (String.eqb endpoint ""); simpl; [done|].
      by rewrite lookup_insert_eq.
    + intros k Hk1 Hk2. rewrite lookup_insert_ne by done. unfold expected1.
      destruct (pkcs11endpoint hsm) as [endpoint|]; [|done].
      destruct (truthy (VStr endpoint)); [|done]. by rewrite lookup_insert_ne.
Qed.

(** X12: the crypto configuration of a creation has the one key
    [enrollment]; its component carries the [admins] parameter as admin
    certificates; the certificate authority is looked up twice, the [ca]
    entry is built from the first answer under its CA name and the [tlsca]
    entry from the second under its TLS CA name. *)
Theorem crypto_built_on_create (params : module_params) (crypto : value)
    (w w' : R * list call) :
  get_crypto console params w = (Ok crypto, w') ->
  exists c, crypto = VDict c /\
    dom c = {["enrollment"]} /\
    crypto_admincerts c "enrollment" = Ok (admins_value params) /\
    exists ca1 r1 ca2,
      get_certificate_authority_by_module console params w.1 = Ok (ca1, r1) /\
      get_certificate_authority_by_module console params r1 = Ok (ca2, w'.1) /\
      lookup_path ["enrollment"; "ca"] crypto
        = Some (crypto_ca_config params ca1 (ca_name ca1)) /\
      lookup_path ["enrollment"; "tlsca"] crypto
        = Some (crypto_ca_config params ca2 (tlsca_name ca2)).
Proof.
  unfold get_crypto, get_crypto_enrollment_config,
    get_crypto_enrollment_ca_config, get_crypto_enrollment_tlsca_config.
  unfold bind, perform, ret.
  destruct (get_certificate_authority_by_module console params w.1)
    as [[ca1 r1]|e] eqn:E1; simpl; [|discriminate].
  destruct (get_certificate_authority_by_module console params r1)
    as [[ca2 r2]|e] eqn:E2; simpl; [|discriminate].
  intros [= <- <-]. simpl.
  eexists. split; [reflexivity|]. split; [reflexivity|]. split; [reflexivity|].
  exists ca1, r1, ca2. done.
Qed.

(** X13: a node that reports no admin certificates is never edited, whatever
    is desired; and a node whose admin certificates are the desired ones up
    to order, repetition and the whitespace that [normalize_whitespace]
    removes is left alone as well. *)
Theorem admin_certs_left_alone (params : module_params) (node : value)
    (w : R * list call) :
  (get node "admin_certs" VNone = Ok VNone ->
   exists r, reconcile_admin_certs console params node w = (r, w) /\
             r <> Ok true) /\
  (forall d desired actual E A,
     node = VDict d ->
     find_expected_admins params = Ok desired ->
     as_str_list desired = Ok E ->
     d !! "admin_certs" = Some actual ->
     as_str_list actual = Ok A ->
     (list_to_set (normalize_whitespace console <$> E) : gset string)
       = list_to_set (normalize_whitespace console <$> A) ->
     reconcile_admin_certs console params node w = (Ok false, w)).
Proof.
  split.
  - intros Hget. unfold reconcile_admin_certs, bind, lift.
    destruct (find_expected_admins params) as [desired|]; [|by eexists].
    destruct (truthy desired); [|by eexists].
    destruct (as_str_list desired); [|by eexists].
    rewrite Hget. simpl. by eexists.
  - intros d desired actual E A -> Hfind HE Hactual HA Hsets.
    apply reconcile_admin_certs_settled.
    exists desired. split; [done|].
    destruct (truthy desired) eqn:Htruthy; [|by left].
    right. exists E. split; [done|]. right. exists A. rewrite Hactual.
    done.
Qed.

(** X14: the config block step makes no call, or submits the encoded block
    of the [config_block] file for the node, or submits it and then marks
    the node as joined, in that order; the mark is never made without the
    submission.  It reports a change exactly when both calls were made, and
    otherwise hands the node back as it was. *)
Theorem join_submits_before_marking (params : module_params) (node : value)
    (w w' : R * list call) (r : result (value * bool)) :
  join_system_channel console params node w = (r, w') ->
  exists l,
    w'.2 = w.2 ++ l /\
    (l = [] \/
     exists id file content f,
       p_config_block params = Some file /\
       read_file console file w.1 = Ok (content, f) /\
       getitem node "id" = Ok id /\
       (l = [call_submit_config_block id (b64encode console content)] \/
        l = [call_submit_config_block id (b64encode console content);
             call_edit_ordering_service_node id joined_flag])) /\
    (forall n changed, r = Ok (n, changed) ->
       if changed then length l = 2 else n = node /\ l = []).
Proof.
  unfold join_system_channel, bind at 1, lift at 1.
  destruct (getitem node "consenter_proposal_fin") as [fin|e];
    [|intros [= <- <-]; exists []; rewrite app_nil_r;
      split; [done|]; split; [by left|]; discriminate].
  destruct (truthy fin).
  { intros [= <- <-]. exists []. rewrite app_nil_r.
    split; [done|]. split; [by left|]. by intros n changed [= <- <-]. }
  destruct (p_config_block params) as [file|] eqn:Hfile.
  2:{ intros [= <- <-]. exists []. rewrite app_nil_r.
      split; [done|]. split; [by left|]. by intros n changed [= <- <-]. }
  destruct (truthy (VStr file)).
  2:{ intros [= <- <-]. exists []. rewrite app_nil_r.
      split; [done|]. split; [by left|]. by intros n changed [= <- <-]. }
  unfold bind at 1, perform at 1.
  destruct (read_file console file w.1) as [[content f]|e] eqn:Hread;
    [|intros [= <- <-]; exists []; rewrite app_nil_r;
      split; [done|]; split; [by left|]; discriminate].
  unfold bind at 1, lift at 1.
  destruct (getitem node "id") as [id|e] eqn:Hid;
    [|intros [= <- <-]; exists []; rewrite app_nil_r;
      split; [done|]; split; [by left|]; discriminate].
  unfold bind, invoke, ret. simpl.
  destruct (submit_config_block console id (b64encode console content) f)
    as [[[] f1]|e]; simpl.
  - destruct (edit_ordering_service_node console id
                (dict [("consenter_proposal_fin", VBool true)]) f1)
      as [[edited f2]|e]; simpl; intros [= <- <-]; simpl;
      rewrite <- app_assoc; simpl;
      (eexists; split; [reflexivity|]; split;
       [right; exists id, file, content, f; repeat split; auto|]).
    + by intros n changed [= <- <-].
    + discriminate.
  - intros [= <- <-]. simpl.
    eexists; split; [reflexivity|]; split;
      [right; exists id, file, content, f; repeat split; auto|].
    discriminate.
Qed.

(** X15: the end of [main] extracts the node first and waits at most once,
    with the [wait_timeout] parameter and only for a node that has joined
    the system channel; when it returns, it exits with the flag it was given
    and the node as the console shows it. *)
Theorem wait_only_once_joined (params : module_params) (node : value)
    (changed : bool) (w w' : R * list call) (r : result outcome) :
  finish console params node changed w = (r, w') ->
  exists l,
    w'.2 = w.2 ++ call_extract_ordering_service_node_info node :: l /\
    (l = [] \/
     l = [call_wait_for (p_wait_timeout params)] /\
     exists info f n,
       extract_ordering_service_node_info console node w.1 = Ok (info, f) /\
       from_json console info = Ok n /\
       consenter_proposal_fin console n = true) /\
    forall out, r = Ok out ->
      exists info f n,
        extract_ordering_service_node_info console node w.1 = Ok (info, f) /\
        from_json console info = Ok n /\
        out = exit_json changed (Some (to_json console n)) /\
        (consenter_proposal_fin console n = false -> l = []).
Proof.
  unfold finish, bind, invoke, lift, ret. simpl.
  destruct (extract_ordering_service_node_info console node w.1)
    as [[info f]|e] eqn:Hextract; simpl.
  2:{ intros [= <- <-]. exists []. simpl. split; [done|]. split; [by left|].
      discriminate. }
  destruct (from_json console info) as [n|e] eqn:Hjson; simpl.
  2:{ intros [= <- <-]. exists []. simpl. split; [done|]. split; [by left|].
      discriminate. }
  destruct (consenter_proposal_fin console n) eqn:Hfin; simpl.
  - destruct (wait_for console n (p_wait_timeout params) f) as [[[] f']|e];
      simpl; intros [= <- <-]; simpl;
      exists [call_wait_for (p_wait_timeout params)];
      rewrite <- app_assoc; simpl; (split; [done|]);
      (split; [right; split; [done|]; by exists info, f, n|]).
    + intros out [= <-]. exists info, f, n. repeat split; try done.
      congruence.
    + discriminate.
  - intros [= <- <-]. exists []. simpl. split; [done|]. split; [by left|].
    intros out [= <-]. by exists info, f, n.
Qed.

End reconciler_further.

(** ** The request of the create path *)

Section create_properties.
Import dict_utils ordering_service_node.
Context {R : Type} (console : Console R).

Lemma emits_bind_when {A B} (P : call -> Prop) (Q : A -> Prop)
    (m : M R A) (k : A -> M R B) :
  emits P m ->
  (forall w a w', m w = (Ok a, w') -> Q a) ->
  (forall a, Q a -> emits P (k a)) ->
  emits P (bind m k).
Proof.
  intros Hm HQ Hk w r w'. unfold bind.
  destruct (m w) as [[a|e] w1] eqn:E.
  - intros H. destruct (Hm _ _ _ E) as (l1 & E1 & H1).
    destruct (Hk a (HQ _ _ _ E) _ _ _ H) as (l2 & E2 & H2).
    exists (l1 ++ l2). rewrite E2, E1, app_assoc. split; [done|].
    by apply Forall_app.
  - intros [= <- <-]. exact (Hm _ _ _ E).
Qed.

Lemma emits_bind_lift {A B} (P : call -> Prop) (x : result A) (k : A -> M R B) :
  (forall a, x = Ok a -> emits P (k a)) -> emits P (bind (lift x) k).
Proof.
  intros Hk. apply (emits_bind_when P (fun a => x = Ok a)).
  - apply emits_lift.
  - by intros w a w' [= -> _].
  - exact Hk.
Qed.

Lemma add_hsm_keeps (params : module_params) (expected expected' : gmap string value) :
  add_hsm params expected = Ok expected' ->
  (forall k, k <> "hsm" -> k <> "config_override" ->
     expected' !! k = expected !! k) /\
  (p_hsm params = None -> expected' = expected).
Proof.
  unfold add_hsm. destruct (p_hsm params) as [hsm|]; [|by intros [= <-]].
  set (expected1 :=
         match pkcs11endpoint hsm with
         | Some endpoint =>
             if truthy (VStr endpoint)
             then <["hsm" := dict [("pkcs11endpoint", VStr endpoint)]]> expected
             else expected
         | None => expected
         end).
  assert (forall k, k <> "hsm" -> expected1 !! k = expected !! k) as H1.
  { intros k Hk. unfold expected1.
    destruct (pkcs11endpoint hsm) as [endpoint|]; [|done].
    destruct (truthy (VStr endpoint)); [|done]. by rewrite lookup_insert_ne. }
  simpl. destruct (expected1 !! "config_override") as [co|]; simpl; [|discriminate].
  destruct co; try discriminate. intros [= <-]. split; [|discriminate].
  intros k Hk1 Hk2. rewrite lookup_insert_ne by done. by apply H1.
Qed.

Lemma get_crypto_ok_inv (params : module_params) (crypto : value)
    (w w' : R * list call) :
  get_crypto console params w = (Ok crypto, w') ->
  exists c, crypto = VDict c /\
    crypto_admincerts c "enrollment" = Ok (admins_value params).
Proof.
  unfold get_crypto, get_crypto_enrollment_config,
    get_crypto_enrollment_ca_config, get_crypto_enrollment_tlsca_config.
  unfold bind, perform, ret.
  destruct (get_certificate_authority_by_module console params w.1)
    as [[ca1 r1]|e]; simpl; [|discriminate].
  destruct (get_certificate_authority_by_module console params r1)
    as [[ca2 r2]|e]; simpl; [|discriminate].
  intros [= <- <-]. eexists. split; reflexivity.
Qed.

Lemma get_crypto_emits (P : call -> Prop) (params : module_params) :
  emits P (get_crypto console params).
Proof.
  unfold get_crypto, get_crypto_enrollment_config,
    get_crypto_enrollment_ca_config, get_crypto_enrollment_tlsca_config.
  repeat first [ apply emits_ret | apply emits_perform
               | apply emits_bind; [|intros ?] ].
Qed.

(** X23: whatever the console answers, a creation made by the create path
    sends a one-node request: the display name of the first module, the
    other fields of the rebuilt one, the config override, zone and crypto
    configuration as one-element lists, a version only when one was asked
    for, and resources and storage together or not at all.  A create path
    that returns has made the creation as its last call and reports a
    change. *)
Theorem create_sends_one_node_request (first_params params : module_params) :
  emits (creates_one_node first_params params)
    (create_path console first_params (Ok params)) /\
  (forall w node changed w',
     create_path console first_params (Ok params) w = (Ok (node, changed), w') ->
     changed = true /\
     exists data, last w'.2 = Some (call_create_ordering_service data)).
Proof.
  split.
  - unfold create_path.
    apply emits_bind; [apply emits_perform|intros nodes].
    apply emits_bind; [destruct nodes; [apply emits_raise|apply emits_ret]
                      |intros first_node].
    apply emits_bind_lift. intros ? [= <-].
    apply emits_bind_lift. intros storage Hstorage.
    apply emits_bind; [by apply emits_invoke|intros free].
    match goal with
    | |- emits _ (bind (lift (add_hsm params ?e)) _) => set (base := e)
    end.
    assert (base !! "display_name" = Some (VStr (p_name first_params)) /\
            base !! "msp_id" = Some (of_option_str (p_msp_id params)) /\
            base !! "orderer_type" = Some (VStr (p_orderer_type params)) /\
            base !! "system_channel_id"
              = Some (VStr (p_system_channel_id params)) /\
            base !! "config_override"
              = Some (of_option_dict (p_config_override params)) /\
            base !! "zone" = None /\ base !! "version" = None /\
            base !! "crypto" = None /\
            (base !! "resources" = None /\ base !! "storage" = None \/
             base !! "resources"
               = Some (VDict (merge_optional (copy_dict default_resources)
                                (p_resources params))) /\
             base !! "storage" = Some (VDict storage)))
      as (Bname & Bmsp & Btype & Bchannel & Bco & Bzone & Bversion & Bcrypto
          & Bres).
    { unfold base. destruct free; repeat split; try reflexivity;
        [left|right]; split; reflexivity. }
    clearbody base.
    apply emits_bind_lift. intros expected Hhsm.
    apply add_hsm_keeps in Hhsm as [Hkeep Hsame].
    set (zoned := match p_zone params with
                  | Some zone => <["zone" := VStr zone]> expected
                  | None => expected
                  end).
    assert (forall k, k <> "zone" -> zoned !! k = expected !! k) as Hzoned.
    { intros k Hk. unfold zoned. destruct (p_zone params); [|done].
      by rewrite lookup_insert_ne. }
    apply (emits_bind_when _
             (fun versioned : gmap string value =>
                (forall k, k <> "version" -> versioned !! k = zoned !! k) /\
                (is_Some (versioned !! "version") <-> is_Some (p_version params)))).
    { destruct (p_version params);
        [apply emits_bind; [by apply emits_invoke|intros ?]|]; apply emits_ret. }
    { intros w versioned w'. destruct (p_version params) as [version|] eqn:Hv.
      - intros H. apply bind_ok_inv in H as (resolved & w0 & _ & [= <- _]).
        split; [intros k Hk; by rewrite lookup_insert_ne|].
        rewrite lookup_insert_eq. split; by eexists.
      - intros [= <- _]. split; [done|].
        rewrite Hzoned, Hkeep, Bversion by done.
        split; intros [? ?]; discriminate. }
    intros versioned [Hversioned Hversion].
    apply emits_bind_lift. intros config_override Hco.
    apply (emits_bind_when _
             (fun crypto => exists c, crypto = VDict c /\
                crypto_admincerts c "enrollment" = Ok (admins_value params))).
    { apply get_crypto_emits. }
    { intros w crypto w'. apply get_crypto_ok_inv. }
    intros crypto (c & -> & Hadmins).
    apply emits_bind.
    2:{ intros ordering_service. apply emits_bind; [|intros ?; apply emits_ret].
        destruct ordering_service as [| | | |[|? ?]|];
          first [apply emits_ret | apply emits_raise]. }
    apply emits_invoke. simpl.
    eexists. split; [reflexivity|].
    assert (forall k, k <> "crypto" -> k <> "zone" -> k <> "config_override" ->
              k <> "version" -> k <> "hsm" ->
              (<["crypto" := VList [VDict c]]>
                 match p_zone params with
                 | Some zone =>
                     <["zone" := VList [VStr zone]]>
                       (<["config_override" := VList [config_override]]> versioned)
                 | None => <["config_override" := VList [config_override]]> versioned
                 end) !! k
              = base !! k) as Hrest.
    { intros k H1 H2 H3 H4 H5. rewrite lookup_insert_ne by done.
      destruct (p_zone params); rewrite ?lookup_insert_ne by done;
        rewrite Hversioned, Hzoned, Hkeep by done; reflexivity. }
    rewrite !Hrest by done.
    split; [done|]. split; [done|]. split; [done|]. split; [done|].
    split; [|split; [|split; [|split]]].
    + exists config_override. split.
      * rewrite lookup_insert_ne by done.
        destruct (p_zone params); rewrite ?lookup_insert_ne by done;
          by rewrite lookup_insert_eq.
      * intros Hnone. rewrite (Hsame Hnone) in *. simpl in Hco.
        rewrite Hversioned, Hzoned, Bco in Hco by done.
        by injection Hco as <-.
    + rewrite lookup_insert_ne by done.
      destruct (p_zone params) as [zone|] eqn:Hzone; simpl;
        [by rewrite lookup_insert_eq|].
      rewrite lookup_insert_ne by done. rewrite Hversioned by done.
      unfold zoned. by rewrite Hkeep, Bzone.
    + rewrite lookup_insert_ne by done.
      destruct (p_zone params); rewrite ?lookup_insert_ne by done; done.
    + exists c. by rewrite lookup_insert_eq.
    + rewrite !(Hrest "resources"), !(Hrest "storage") by done.
      destruct Bres as [[-> ->]|[-> ->]]; [by left|right].
      split; [done|]. by exists storage.
  - intros w node changed w' H. unfold create_path in H.
    repeat (cbv beta zeta in H;
            lazymatch type of H with
            | bind (invoke (call_create_ordering_service _) _) _ _ = _ => fail
            | _ => apply bind_ok_inv in H as (? & ? & _ & H)
            end).
    apply bind_ok_inv in H as (created & w1 & Hcreate & H).
    apply bind_ok_inv in H as (n & w2 & Hnode & [= <- <- <-]).
    assert (w2 = w1) as ->.
    { destruct created as [| | | |[|? ?]|]; try discriminate;
        by injection Hnode as <- <-. }
    unfold invoke in Hcreate.
    match type of Hcreate with
    | match ?x with _ => _ end = _ =>
        destruct x as [[? ?]|?]; [|discriminate]
    end.
    injection Hcreate as <- <-.
    split; [done|]. eexists. simpl. by rewrite last_snoc.
Qed.
End create_properties.

(** ** The change flag of [main] *)

Section main_properties.
Import dict_utils ordering_service_node.
Context {R : Type} (console : Console R).

Lemma written_app (l1 l2 : list call) :
  written (l1 ++ l2) <-> written l1 \/ written l2.
Proof. apply Exists_app. Qed.

Lemma not_written_quiet (l : list call) :
  Forall (fun c => is_write c = false) l -> ~ written l.
Proof.
  intros Hall Hex. apply Exists_exists in Hex as (c & Hc & Hw).
  rewrite Forall_forall in Hall. specialize (Hall c Hc). congruence.
Qed.

Lemma tracks_ret {A} (flag : A -> bool) (a : A) :
  flag a = false -> tracks (R:=R) flag (ret a).
Proof.
  intros Hflag w a' w' [= <- <-]. exists []. rewrite app_nil_r.
  split; [done|]. rewrite Hflag. split; [done|].
  intros H. by apply Exists_nil in H.
Qed.

Lemma tracks_raise {A} (flag : A -> bool) (e : pyexc) :
  tracks flag (@raise R A e).
Proof. intros w a w'. discriminate. Qed.

Lemma tracks_bind_quiet {A B} (flag : B -> bool) (m : M R A) (k : A -> M R B) :
  quiet m -> (forall a, tracks flag (k a)) -> tracks flag (bind m k).
Proof.
  intros Hm Hk w b w' H.
  apply bind_ok_inv in H as (a & w0 & Hm0 & Hk0).
  destruct (Hm _ _ _ Hm0) as (l1 & E1 & Hq).
  destruct (Hk a _ _ _ Hk0) as (l2 & E2 & Hflag).
  exists (l1 ++ l2). rewrite E2, E1, app_assoc. split; [done|].
  rewrite Hflag, written_app. split; [by right|].
  intros [H|H]; [|done]. by apply not_written_quiet in H.
Qed.

Lemma tracks_write_then {A B} (flag : B -> bool) (c : call)
    (op : R -> result (A * R)) (k : A -> M R B) :
  is_write c = true ->
  (forall a, emits (fun _ => True) (k a)) ->
  (forall a w b w', k a w = (Ok b, w') -> flag b = true) ->
  tracks flag (bind (invoke c op) k).
Proof.
  intros Hc Hk Hflag w b w' H.
  apply bind_ok_inv in H as (a & w0 & Hm0 & Hk0).
  unfold invoke in Hm0. destruct (op w.1) as [[a' r']|e]; [|discriminate].
  injection Hm0 as -> <-.
  destruct (Hk a _ _ _ Hk0) as (l2 & E2 & _). simpl in E2.
  exists (c :: l2). rewrite E2, <- app_assoc. split; [done|].
  rewrite (Hflag _ _ _ _ Hk0). split; [|done].
  intros _. by apply Exists_cons_hd.
Qed.

Lemma tracks_then_quiet {A B} (f : A -> bool) (g : B -> bool)
    (m : M R A) (k : A -> M R B) :
  tracks f m -> (forall a, quiet (k a)) ->
  (forall a w b w', k a w = (Ok b, w') -> g b = f a) ->
  tracks g (bind m k).
Proof.
  intros Hm Hk Hflag w b w' H.
  apply bind_ok_inv in H as (a & w0 & Hm0 & Hk0).
  destruct (Hm _ _ _ Hm0) as (l1 & E1 & Hf).
  destruct (Hk a _ _ _ Hk0) as (l2 & E2 & Hq).
  exists (l1 ++ l2). rewrite E2, E1, app_assoc. split; [done|].
  rewrite (Hflag _ _ _ _ Hk0), Hf, written_app. split; [by left|].
  intros [H|H]; [done|]. by apply not_written_quiet in H.
Qed.

Lemma tracks_assoc {A B C} (flag : C -> bool) (m : M R A) (k1 : A -> M R B)
    (k2 : B -> M R C) :
  tracks flag (bind m (fun a => bind (k1 a) k2)) ->
  tracks flag (bind (bind m k1) k2).
Proof.
  intros H w c w' E. apply (H w c w'). rewrite <- E.
  unfold bind. by destruct (m w) as [[a|e] w0].
Qed.

Ltac emits_step :=
  first
    [ apply emits_ret | apply emits_raise | apply emits_lift
    | apply emits_perform
    | apply emits_invoke; solve [reflexivity | simpl; tauto | intros; discriminate]
    | apply emits_bind; [|intros ?]
    | match goal with
      | |- emits _ (if ?b then _ else _) => destruct b
      | |- emits _ (match ?x with _ => _ end) => destruct x
      end ].

Ltac flag_of_result :=
  intros;
  repeat match goal with
         | H : bind _ _ _ = (Ok _, _) |- _ =>
             apply bind_ok_inv in H as (? & ? & _ & H)
         end;
  match goal with
  | H : ret _ _ = (Ok _, _) |- _ => by injection H as <- <-
  end.

Ltac tracks_step :=
  first
    [ apply tracks_ret; reflexivity
    | apply tracks_raise
    | apply tracks_write_then;
        [reflexivity | intros ?; repeat emits_step | flag_of_result]
    | apply tracks_bind_quiet; [unfold quiet; solve [repeat emits_step]|intros ?]
    | match goal with
      | |- tracks _ (if ?b then _ else _) => destruct b
      | |- tracks _ (match ?x with _ => _ end) => destruct x
      end ].

Lemma reconcile_admin_certs_tracks params node :
  tracks (fun edited : bool => edited)
    (reconcile_admin_certs console params node).
Proof. unfold reconcile_admin_certs. repeat tracks_step. Qed.

Lemma join_system_channel_tracks params node :
  tracks (fun joined : value * bool => joined.2)
    (join_system_channel console params node).
Proof.
  unfold join_system_channel.
  repeat first
    [ apply tracks_bind_quiet;
        [unfold quiet; solve [repeat emits_step]|intros ?]
    | apply tracks_ret; reflexivity
    | match goal with
      | |- tracks _ (if ?b then _ else _) => destruct b
      | |- tracks _ (match ?x with _ => _ end) => destruct x
      | |- tracks _ (bind (invoke (call_submit_config_block _ _) _) _) =>
          apply tracks_write_then;
            [reflexivity | intros ?; repeat emits_step | flag_of_result]
      end ].
Qed.

Lemma apply_update_tracks params obs new diff :
  tracks (fun updated : value * bool => updated.2)
    (apply_update console params obs new diff).
Proof. unfold apply_update. repeat tracks_step. Qed.

Lemma expected_for_update_quiet params :
  quiet (expected_for_update console params).
Proof. unfold quiet, expected_for_update. repeat emits_step. Qed.

Lemma update_path_tracks params node :
  tracks (fun reconciled : value * bool => reconciled.2)
    (update_path console params node).
Proof.
  intros w res w' H. unfold update_path in H.
  apply bind_ok_inv in H as (obs & w0 & Hscrub & H).
  injection Hscrub as Hscrub <-.
  apply bind_ok_inv in H as (expected & w1 & Hexp & H).
  apply bind_ok_inv in H as (updated & w2 & Hupd & H).
  apply bind_ok_inv in H as (edited & w3 & Hedit & H).
  apply bind_ok_inv in H as (joined & w4 & Hjoin & H).
  injection H as <- <-.
  destruct (expected_for_update_quiet _ _ _ _ Hexp) as (l1 & E1 & Hq1).
  destruct (apply_update_tracks _ _ _ _ _ _ _ Hupd) as (l2 & E2 & F2).
  destruct (reconcile_admin_certs_tracks _ _ _ _ _ Hedit) as (l3 & E3 & F3).
  destruct (join_system_channel_tracks _ _ _ _ _ Hjoin) as (l4 & E4 & F4).
  exists (l1 ++ l2 ++ l3 ++ l4).
  split; [by rewrite E4, E3, E2, E1, <- !app_assoc|].
  simpl in *. rewrite !written_app, <- F2, <- F3, <- F4.
  rewrite !orb_true_iff. split.
  - intros [[?|?]|?]; auto.
  - intros [H|[?|[?|?]]]; auto. by apply not_written_quiet in H.
Qed.

Lemma create_path_tracks params create_module :
  tracks (fun reconciled : value * bool => reconciled.2)
    (create_path console params create_module).
Proof.
  unfold create_path, get_crypto, get_crypto_enrollment_config,
    get_crypto_enrollment_ca_config, get_crypto_enrollment_tlsca_config.
  repeat tracks_step.
Qed.

Lemma finish_quiet params node changed :
  quiet (finish console params node changed).
Proof. unfold quiet, finish. repeat emits_step. Qed.

Lemma finish_flag params node changed w out w' :
  finish console params node changed w = (Ok out, w') ->
  outcome_flag out = changed.
Proof.
  unfold finish. intros H.
  repeat match goal with
         | H : bind _ _ _ = (Ok _, _) |- _ =>
             apply bind_ok_inv in H as (? & ? & _ & H)
         end.
  by injection H as <- <-.
Qed.

Lemma create_then_finish_flag params params' create_module w out w' :
  bind (create_path console params create_module)
    (fun reconciled => finish console params' reconciled.1 reconciled.2) w
    = (Ok out, w') ->
  outcome_flag out = true.
Proof.
  intros H. apply bind_ok_inv in H as (reconciled & w0 & Hcreate & H).
  apply finish_flag in H. rewrite H. clear H.
  unfold create_path in Hcreate.
  repeat match goal with
         | H : bind _ _ _ = (Ok _, _) |- _ =>
             apply bind_ok_inv in H as (? & ? & _ & H)
         end.
  by injection Hcreate as <- <-.
Qed.

Lemma main_body_tracks actual_params params create_module :
  tracks outcome_flag (main_body console actual_params params create_module).
Proof.
  unfold main_body.
  apply tracks_bind_quiet; [unfold quiet; repeat emits_step|intros node].
  apply tracks_bind_quiet; [unfold quiet; repeat emits_step|intros corrupt].
  apply tracks_bind_quiet; [unfold quiet; repeat emits_step|intros free].
  apply tracks_bind_quiet; [unfold quiet; repeat emits_step|intros params'].
  destruct (p_state params').
  - destruct corrupt.
    + apply tracks_assoc.
      apply tracks_bind_quiet; [unfold quiet; repeat emits_step|intros id].
      apply tracks_assoc.
      apply tracks_write_then; [reflexivity| |].
      * intros _. apply emits_bind; [apply emits_ret|intros exists_].
        apply emits_bind.
        -- destruct exists_.
           ++ unfold update_path, expected_for_update, apply_update,
                reconcile_admin_certs, join_system_channel.
              repeat emits_step.
           ++ unfold create_path, get_crypto, get_crypto_enrollment_config,
                get_crypto_enrollment_ca_config,
                get_crypto_enrollment_tlsca_config.
              repeat emits_step.
        -- intros reconciled. unfold finish. repeat emits_step.
      * intros [] w out w' H.
        apply bind_ok_inv in H as (exists_ & w0 & Hret & H).
        injection Hret as <- <-.
        by apply create_then_finish_flag in H.
    + apply tracks_bind_quiet; [unfold quiet; repeat emits_step|intros exists_].
      apply (tracks_then_quiet (fun reconciled : value * bool => reconciled.2)).
      * destruct exists_; [apply update_path_tracks|apply create_path_tracks].
      * intros reconciled. apply finish_quiet.
      * intros reconciled w out w' H. by apply finish_flag in H.
  - repeat tracks_step.
Qed.

(** X16: when [main] exits normally, the [changed] flag it reports is set
    exactly when the run made a call that changes the remote state: no
    change is reported without a write and no write goes unreported.  This
    holds on every path, for every console. *)
Theorem changed_flag_is_exact (actual_params : gmap string value)
    (params : module_params) (create_module : result module_params)
    (w w' : R * list call) (changed : bool) (node : option value) :
  main console actual_params params create_module w
    = (exit_json changed node, w') ->
  exists l,
    w'.2 = w.2 ++ l /\
    (changed = true <-> Exists (fun c => is_write c = true) l).
Proof.
  unfold main.
  destruct (main_body console actual_params params create_module w)
    as [[out|e] w0] eqn:Hbody; [|discriminate].
  intros [= -> ->].
  exact (main_body_tracks _ _ _ _ _ _ Hbody).
Qed.

End main_properties.

(** ** Runs of [main] *)

Section main_runs.
Import dict_utils ordering_service_node.
Context {R : Type} (console : Console R).

Ltac among_step :=
  first
    [ apply emits_ret | apply emits_raise | apply emits_lift
    | apply emits_perform
    | apply emits_invoke; unfold among; simpl; solve [set_solver]
    | apply emits_bind; [|intros ?]
    | match goal with
      | |- emits _ (if ?b then _ else _) => destruct b
      | |- emits _ (match ?x with _ => _ end) => destruct x
      end ].

(** X17: the update path calls nothing on the console but the peer version
    resolver, the node update, the admin certificate edit, the config block
    submission and the node edit: it never deletes or creates a node. *)
Theorem update_path_keeps_to_its_calls (params : module_params) (node : value) :
  emits (among ["resolve_peer_version"; "update_ordering_service_node";
                "edit_admin_certs"; "submit_config_block";
                "edit_ordering_service_node"])
    (update_path console params node).
Proof.
  unfold update_path, expected_for_update, apply_update,
    reconcile_admin_certs, join_system_channel.
  repeat among_step.
Qed.

(** X18: with state [absent] and no node of that name, [main] looks the
    node up, asks whether the cluster is free, makes no other call and exits
    unchanged. *)
Theorem absent_and_missing_is_noop (actual_params : gmap string value)
    (params : module_params) (create_module : result module_params)
    (w : R * list call) (r1 r2 : R) (free : bool) :
  p_state params = absent ->
  get_component_by_display_name console "fabric-orderer" (p_name params) w.1
    = Ok (VNone, r1) ->
  is_free_cluster console r1 = Ok (free, r2) ->
  (free = true ->
   actual_params !! "resources" = None /\ actual_params !! "storage" = None) ->
  main console actual_params params create_module w
    = (exit_json false None,
       (r2, w.2 ++ [call_get_component_by_display_name "fabric-orderer"
                      (p_name params);
                    call_is_free_cluster])).
Proof.
  intros Hstate Hget Hfree Hparams.
  unfold main, main_body, bind, invoke, ret, raise, lift. rewrite Hget. simpl.
  rewrite Hfree. simpl. rewrite <- app_assoc. simpl.
  destruct free.
  - destruct (Hparams eq_refl) as [-> ->]. simpl. by rewrite Hstate.
  - by rewrite Hstate.
Qed.

(** X19: with state [absent] and a node of that name, corrupt or not,
    [main] makes one more call, the deletion of the node by its [id], and
    exits with [changed] set; a failure of the deletion is reported through
    [fail_json]. *)
Theorem absent_deletes_the_node (actual_params : gmap string value)
    (params : module_params) (create_module : result module_params)
    (w : R * list call) (r1 r2 : R) (free corrupt : bool) (node id : value) :
  p_state params = absent ->
  get_component_by_display_name console "fabric-orderer" (p_name params) w.1
    = Ok (node, r1) ->
  node <> VNone ->
  contains "deployment_attrs_missing" node = Ok corrupt ->
  is_free_cluster console r1 = Ok (free, r2) ->
  (free = true ->
   actual_params !! "resources" = None /\ actual_params !! "storage" = None) ->
  getitem node "id" = Ok id ->
  let log :=
    w.2 ++ [call_get_component_by_display_name "fabric-orderer" (p_name params);
            call_is_free_cluster;
            call_delete_ordering_service_node id] in
  main console actual_params params create_module w =
    match delete_ordering_service_node console id r2 with
    | Ok (_, r3) => (exit_json true None, (r3, log))
    | Raise e => (fail_json e, (r2, log))
    end.
Proof.
  intros Hstate Hget Hnode Hcorrupt Hfree Hparams Hid log. unfold log.
  unfold main, main_body, bind, invoke, ret, raise, lift. rewrite Hget. simpl.
  rewrite bool_decide_eq_false_2 by done. simpl. rewrite Hcorrupt.
  rewrite Hfree. simpl.
  destruct free.
  - destruct (Hparams eq_refl) as [-> ->]. simpl. rewrite Hstate, Hid. simpl.
    destruct (delete_ordering_service_node console id r2) as [[[] r3]|e];
      simpl; by rewrite <- !app_assoc.
  - rewrite Hstate, Hid. simpl.
    destruct (delete_ordering_service_node console id r2) as [[[] r3]|e];
      simpl; by rewrite <- !app_assoc.
Qed.

(** X20: on a free cluster, a run whose own parameters name [resources] or
    [storage] fails with the fixed message right after the cluster test,
    whatever the state asked for and whether or not the node exists. *)
Theorem free_cluster_rejects_resources (actual_params : gmap string value)
    (params : module_params) (create_module : result module_params)
    (w : R * list call) (r1 r2 : R) (node : value) :
  get_component_by_display_name console "fabric-orderer" (p_name params) w.1
    = Ok (node, r1) ->
  (node = VNone \/ exists corrupt,
     contains "deployment_attrs_missing" node = Ok corrupt) ->
  is_free_cluster console r1 = Ok (true, r2) ->
  is_Some (actual_params !! "resources") \/ is_Some (actual_params !! "storage") ->
  main console actual_params params create_module w
    = (fail_json (PyException free_cluster_message),
       (r2, w.2 ++ [call_get_component_by_display_name "fabric-orderer"
                      (p_name params);
                    call_is_free_cluster])).
Proof.
  intros Hget Hnode Hfree Hactual.
  assert (bool_decide (is_Some (actual_params !! "resources"))
          || bool_decide (is_Some (actual_params !! "storage")) = true) as Hb.
  { apply orb_true_iff.
    destruct Hactual; [left|right]; by apply bool_decide_eq_true_2. }
  unfold main, main_body, bind, invoke, ret, raise, lift. rewrite Hget. simpl.
  destruct Hnode as [->|[corrupt Hcorrupt]].
  - simpl. rewrite Hfree. simpl. rewrite Hb. by rewrite <- app_assoc.
  - destruct (bool_decide (node = VNone)); simpl;
      rewrite ?Hcorrupt, Hfree; simpl; rewrite Hb; by rewrite <- app_assoc.
Qed.


Lemma emits_ok {A} (P : call -> Prop) (m : M R A) w :
  emits P m -> exists l, (m w).2.2 = w.2 ++ l /\ Forall P l.
Proof.
  intros Hm. destruct (m w) as [r w'] eqn:E. exact (Hm _ _ _ E).
Qed.

(** X21: a node that exists in the console without its deployment is
    deleted with [delete_ext_ordering_service_node] and the run goes on as
    for a missing node: after the deletion only calls of the create path and
    of the end of [main] are made, and a run that exits normally reports a
    change. *)
Theorem corrupt_node_is_replaced (actual_params : gmap string value)
    (params : module_params) (create_module : result module_params)
    (w : R * list call) (r1 r2 r3 : R) (free : bool) (node id : value) :
  p_state params = present ->
  get_component_by_display_name console "fabric-orderer" (p_name params) w.1
    = Ok (node, r1) ->
  contains "deployment_attrs_missing" node = Ok true ->
  is_free_cluster console r1 = Ok (free, r2) ->
  (free = true ->
   actual_params !! "resources" = None /\ actual_params !! "storage" = None) ->
  getitem node "id" = Ok id ->
  delete_ext_ordering_service_node console id r2 = Ok ((), r3) ->
  exists l,
    (main console actual_params params create_module w).2.2
      = w.2 ++ [call_get_component_by_display_name "fabric-orderer"
                  (p_name params);
                call_is_free_cluster;
                call_delete_ext_ordering_service_node id] ++ l /\
    Forall (among ["is_free_cluster"; "resolve_ordering_service_node_version";
                   "create_ordering_service";
                   "extract_ordering_service_node_info"; "wait_for"]) l /\
    forall changed out,
      (main console actual_params params create_module w).1
        = exit_json changed out -> changed = true.
Proof.
  intros Hstate Hget Hcorrupt Hfree Hparams Hid Hdelete.
  assert (node <> VNone) as Hnode by (intros ->; discriminate).
  set (params' := if free then clear_resources_and_storage params else params).
  set (w3 := (r3, w.2 ++ [call_get_component_by_display_name "fabric-orderer"
                            (p_name params);
                          call_is_free_cluster;
                          call_delete_ext_ordering_service_node id])).
  set (rest := bind (create_path console params' create_module)
                 (fun reconciled =>
                    finish console params' reconciled.1 reconciled.2)).
  assert (main console actual_params params create_module w =
          match rest w3 with
          | (Ok out, w') => (out, w')
          | (Raise e, w') => (fail_json e, w')
          end) as ->.
  { unfold main, main_body, rest, w3, params'.
    unfold bind at 1, invoke at 1. rewrite Hget. simpl.
    rewrite bool_decide_eq_false_2 by done. simpl.
    unfold bind at 1, lift at 1. rewrite Hcorrupt.
    unfold bind at 1, invoke at 1. simpl. rewrite Hfree. simpl.
    unfold bind at 1.
    assert (forall ww,
      (if free
       then if bool_decide (is_Some (actual_params !! "resources"))
               || bool_decide (is_Some (actual_params !! "storage"))
            then raise (PyException
                   [Lit "Cannot specify resources or storage for a free IBM Kubernetes Service cluster"])
            else ret (clear_resources_and_storage params)
       else ret params) ww
      = (Ok (if free then clear_resources_and_storage params else params), ww))
      as ->.
    { intros ww. destruct free; [|done].
      by destruct (Hparams eq_refl) as [-> ->]. }
    assert (p_state (if free then clear_resources_and_storage params
                     else params) = present) as ->
      by (by destruct free).
    unfold bind at 1, bind at 1, lift at 1. rewrite Hid.
    unfold bind at 1, invoke at 1. simpl. rewrite Hdelete. simpl.
    rewrite <- !app_assoc. reflexivity. }
  assert (emits (among ["is_free_cluster";
                        "resolve_ordering_service_node_version";
                        "create_ordering_service";
                        "extract_ordering_service_node_info"; "wait_for"])
            rest) as Hrest.
  { unfold rest, create_path, finish, get_crypto, get_crypto_enrollment_config,
      get_crypto_enrollment_ca_config, get_crypto_enrollment_tlsca_config.
    repeat among_step. }
  destruct (rest w3) as [[out|e] w'] eqn:Erest;
    destruct (Hrest _ _ _ Erest) as (l & Hl & Hall);
    exists l;
    (split; [simpl; rewrite Hl; unfold w3; simpl; by rewrite <- app_assoc|]);
    (split; [done|]).
  - intros changed o [= ->]. unfold rest in Erest.
    by apply create_then_finish_flag in Erest.
  - discriminate.
Qed.




End main_runs.

(** ** The further properties on the fixtures *)

Import dict_utils organizations msp_utils ordering_service_node fixtures.

(** The MSP built from the sample organization holds the config that the
    parse reads. *)
Lemma msp_to_organization_reads_config_witness :
  exists config,
    lookup_path msp_config_path (organization_to_msp sample_organization true ∅)
      = Some (VDict config) /\
    config !! "root_certs" = Some (VList [VStr "cm9vdA=="]) /\
    config !! "intermediate_certs" = Some (VList []) /\
    config !! "admins" = Some (VList [VStr "YWRtaW4="]) /\
    config !! "revocation_list" = Some (VList []) /\
    config !! "tls_root_certs" = Some (VList [VStr "dGxzcm9vdA=="]) /\
    config !! "tls_intermediate_certs" = Some (VList []) /\
    config !! "fabric_node_ous" = Some (dict [("enable", VBool true)]) /\
    config !! "organizational_unit_identifiers" = Some (VList []) /\
    "Org1MSP" = "Org1MSP" /\ "Org1MSP" = "Org1MSP" /\ VNone = VNone.
Proof.
  apply (proj1 (msp_to_organization_reads_config "Org1MSP"
                  (organization_to_msp sample_organization true ∅)
                  (Build_Organization "Org1MSP" "Org1MSP"
                     (VList [VStr "cm9vdA=="]) (VList [])
                     (VList [VStr "YWRtaW4="]) (VList [])
                     (VList [VStr "dGxzcm9vdA=="]) (VList [])
                     (dict [("enable", VBool true)]) (VList []) VNone))).
  reflexivity.
Defined.

(** An MSP whose config stops after the intermediate certificates fails on
    [admins]. *)
Lemma msp_to_organization_first_missing_field_witness :
  msp_to_organization "Org1MSP" truncated_msp = Raise (KeyError "admins").
Proof.
  apply (msp_to_organization_first_missing_field "Org1MSP" truncated_msp
           (list_to_map [("root_certs", VList [VStr "cm9vdA=="]);
                         ("intermediate_certs", VList [])])
           ["root_certs"; "intermediate_certs"]
           ["revocation_list"; "tls_root_certs"; "tls_intermediate_certs";
            "fabric_node_ous"; "organizational_unit_identifiers"]
           "admins").
  - reflexivity.
  - reflexivity.
  - repeat constructor; by eexists.
  - reflexivity.
Defined.

(** Parsing the MSP of the sample organization and building it again. *)
Lemma organization_to_msp_keeps_config_witness :
  let msp := organization_to_msp sample_organization false ∅ in
  let O := Build_Organization "Org1MSP" "Org1MSP"
             (VList [VStr "cm9vdA=="]) (VList [])
             (VList [VStr "YWRtaW4="]) (VList [])
             (VList [VStr "dGxzcm9vdA=="]) (VList [])
             (dict [("enable", VBool true)]) (VList []) VNone in
  exists config config',
    lookup_path msp_config_path msp = Some (VDict config) /\
    lookup_path msp_config_path (organization_to_msp O true ∅)
      = Some (VDict config') /\
    Forall (fun field => config' !! field = config !! field) msp_config_fields /\
    config' !! "name" = Some (VStr "Org1MSP") /\
    config' !! "signing_identity" = Some VNone /\
    dom config' =
      list_to_set (["crypto_config"; "name"; "signing_identity"]
                   ++ msp_config_fields).
Proof.
  apply (organization_to_msp_keeps_config "Org1MSP"
           (organization_to_msp sample_organization false ∅)).
  reflexivity.
Defined.

(** The identity without a CA, on the empty file system. *)
Lemma convert_identity_needs_ca_witness :
  convert_identity_to_msp_path memory_file_system identity_without_ca "temp"
    (∅, [])
  = (Raise (PyException [Lit
       "The specified identity cannot be used as it does not have a CA field"]),
     (∅, [])).
Proof.
  apply (proj1 (convert_identity_needs_ca memory_file_system
                  identity_without_ca "temp" (∅, []))).
  reflexivity.
Defined.

(** The sample identity, written under a temporary directory of the empty
    file system. *)
Lemma convert_identity_layout_witness :
  let run := convert_identity_to_msp_path memory_file_system sample_identity
               "temp" (∅, []) in
  exists msp_path made,
    run.2.2 = [] ++ [fs_mkdtemp] ++ made /\
    ("temp" <> "temp" -> msp_path = "temp") /\
    made `prefix_of` msp_directory_calls msp_path sample_identity /\
    (forall p, run.1 = Ok p ->
       p = msp_path /\ made = msp_directory_calls msp_path sample_identity /\
       ("temp" = "temp" ->
        exists f, mkdtemp memory_file_system ∅ = Ok (msp_path, f))).
Proof.
  intros run.
  apply (convert_identity_layout memory_file_system sample_identity "temp"
           (∅, []) run.2 run.1).
  - reflexivity.
  - apply surjective_pairing.
Defined.

(** The sample node: its scrubbed form is a fixed point. *)
Lemma scrub_resources_idempotent_witness :
  scrub_resources (VDict scrubbed_sample_node) = Ok scrubbed_sample_node /\
  exists d, VDict sample_node = VDict d /\
    dom scrubbed_sample_node = dom d /\
    forall k, k <> "resources" -> scrubbed_sample_node !! k = d !! k.
Proof.
  apply (scrub_resources_idempotent (VDict sample_node) scrubbed_sample_node).
  vm_compute. reflexivity.
Defined.


(** The sample HSM on an expected configuration with an empty override. *)
Lemma hsm_configuration_added_witness :
  let params := with_hsm (Some sample_hsm) sample_params in
  let expected : gmap string value := {["config_override" := dict []]} in
  exists expected' config_override',
    add_hsm params expected = Ok expected' /\
    expected' !! "config_override" = Some (VDict config_override') /\
    lookup_path ["General"; "BCCSP"; "Default"] (VDict config_override')
      = Some (VStr "PKCS11") /\
    lookup_path ["General"; "BCCSP"; "PKCS11"; "Label"] (VDict config_override')
      = Some (VStr "fabric") /\
    lookup_path ["General"; "BCCSP"; "PKCS11"; "Pin"] (VDict config_override')
      = Some (VStr "987654") /\
    (forall k, k <> "General" ->
       config_override' !! k = (∅ : gmap string value) !! k) /\
    expected' !! "hsm" =
      Some (dict [("pkcs11endpoint",
                   VStr "tcp://pkcs11-proxy.example.org:2345")]) /\
    forall k, k <> "hsm" -> k <> "config_override" ->
      expected' !! k = expected !! k.
Proof.
  apply (hsm_configuration_added (with_hsm (Some sample_hsm) sample_params)
           sample_hsm {["config_override" := dict []]} ∅).
  - reflexivity.
  - reflexivity.
Defined.

(** The crypto configuration of the sample parameters with one admin. *)
Lemma crypto_built_on_create_witness :
  let params := with_admins (Some ["A"]) sample_params in
  let crypto :=
    dict [("enrollment", dict [
       ("component", dict [("admincerts", VList [VStr "A"])]);
       ("ca", crypto_ca_config params sample_ca (VStr "ca"));
       ("tlsca", crypto_ca_config params sample_ca (VStr "tlsca"))])] in
  exists c, crypto = VDict c /\
    dom c = {["enrollment"]} /\
    crypto_admincerts c "enrollment" = Ok (admins_value params) /\
    exists ca1 r1 ca2,
      get_certificate_authority_by_module memory_console params start.1
        = Ok (ca1, r1) /\
      get_certificate_authority_by_module memory_console params r1
        = Ok (ca2, start.1) /\
      lookup_path ["enrollment"; "ca"] crypto
        = Some (crypto_ca_config params ca1 (ca_name ca1)) /\
      lookup_path ["enrollment"; "tlsca"] crypto
        = Some (crypto_ca_config params ca2 (tlsca_name ca2)).
Proof.
  intros params crypto.
  apply (crypto_built_on_create memory_console params crypto start start).
  reflexivity.
Defined.

(** The sample node without its admin certificates, with an admin desired. *)
Lemma admin_certs_left_alone_witness :
  let params := with_admins (Some ["A"]) sample_params in
  let node := VDict (delete "admin_certs" sample_node) in
  exists r, reconcile_admin_certs memory_console params node start = (r, start) /\
            r <> Ok true.
Proof.
  intros params node.
  apply (proj1 (admin_certs_left_alone memory_console params node start)).
  reflexivity.
Defined.

(** A node that has not joined, with a config block to send. *)
Lemma join_submits_before_marking_witness :
  let params := with_config_block (Some "block.pb") sample_params in
  let w : value * list call := (VDict pending_node, []) in
  let run := join_system_channel memory_console params (VDict pending_node) w in
  exists l,
    run.2.2 = [] ++ l /\
    (l = [] \/
     exists id file content f,
       p_config_block params = Some file /\
       read_file memory_console file w.1 = Ok (content, f) /\
       getitem (VDict pending_node) "id" = Ok id /\
       (l = [call_submit_config_block id (b64encode memory_console content)] \/
        l = [call_submit_config_block id (b64encode memory_console content);
             call_edit_ordering_service_node id joined_flag])) /\
    (forall n changed, run.1 = Ok (n, changed) ->
       if changed then length l = 2 else n = VDict pending_node /\ l = []).
Proof.
  intros params w run.
  apply (join_submits_before_marking memory_console params (VDict pending_node)
           w run.2 run.1).
  apply surjective_pairing.
Defined.

(** The end of a run on the sample node, which has joined. *)
Lemma wait_only_once_joined_witness :
  let run := finish memory_console sample_params (VDict sample_node) false start in
  exists l,
    run.2.2 = [] ++ call_extract_ordering_service_node_info (VDict sample_node) :: l /\
    (l = [] \/
     l = [call_wait_for 60] /\
     exists info f n,
       extract_ordering_service_node_info memory_console (VDict sample_node)
         start.1 = Ok (info, f) /\
       from_json memory_console info = Ok n /\
       consenter_proposal_fin memory_console n = true) /\
    forall out, run.1 = Ok out ->
      exists info f n,
        extract_ordering_service_node_info memory_console (VDict sample_node)
          start.1 = Ok (info, f) /\
        from_json memory_console info = Ok n /\
        out = exit_json false (Some (to_json memory_console n)) /\
        (consenter_proposal_fin memory_console n = false -> l = []).
Proof.
  intros run.
  apply (wait_only_once_joined memory_console sample_params (VDict sample_node)
           false start run.2 run.1).
  apply surjective_pairing.
Defined.

(** A run that resolves a version and updates the sample node. *)
Lemma changed_flag_is_exact_witness :
  let params := with_version (Some ">=2.2,<3.0") sample_params in
  let run := main memory_console ∅ params (Ok params) start in
  outcome_flag run.1 = true /\
  exists l,
    run.2.2 = [] ++ l /\
    (true = true <-> Exists (fun c => is_write c = true) l).
Proof.
  intros params run. split; [vm_compute; reflexivity|].
  apply (changed_flag_is_exact memory_console ∅ params (Ok params) start run.2
           true
           (match run.1 with
            | exit_json _ node => node
            | fail_json _ => None
            end)).
  vm_compute. reflexivity.
Defined.

(** State [absent] on an empty console. *)
Lemma absent_and_missing_is_noop_witness :
  let params := with_state absent sample_params in
  main memory_console ∅ params (Ok params) (VNone, [])
    = (exit_json false None,
       (VNone, [] ++ [call_get_component_by_display_name "fabric-orderer"
                        "Ordering Service Node 2";
                      call_is_free_cluster])).
Proof.
  intros params.
  apply (absent_and_missing_is_noop memory_console ∅ params (Ok params)
           (VNone, []) VNone VNone false).
  - reflexivity.
  - reflexivity.
  - reflexivity.
  - discriminate.
Defined.

(** State [absent] on the console that holds the sample node. *)
Lemma absent_deletes_the_node_witness :
  let params := with_state absent sample_params in
  main memory_console ∅ params (Ok params) start =
    match delete_ordering_service_node memory_console (VStr "orderer1")
            (VDict sample_node) with
    | Ok (_, r3) =>
        (exit_json true None,
         (r3, [] ++ [call_get_component_by_display_name "fabric-orderer"
                       "Ordering Service Node 2";
                     call_is_free_cluster;
                     call_delete_ordering_service_node (VStr "orderer1")]))
    | Raise e =>
        (fail_json e,
         (VDict sample_node,
          [] ++ [call_get_component_by_display_name "fabric-orderer"
                   "Ordering Service Node 2";
                 call_is_free_cluster;
                 call_delete_ordering_service_node (VStr "orderer1")]))
    end.
Proof.
  intros params.
  apply (absent_deletes_the_node memory_console ∅ params (Ok params) start
           (VDict sample_node) (VDict sample_node) false false
           (VDict sample_node) (VStr "orderer1")).
  - reflexivity.
  - reflexivity.
  - discriminate.
  - reflexivity.
  - reflexivity.
  - discriminate.
  - reflexivity.
Defined.

(** The sample node on a free cluster, with resources among the caller's
    parameters. *)
Lemma free_cluster_rejects_resources_witness :
  main (on_free_cluster memory_console) {["resources" := dict []]}
    sample_params (Ok sample_params) start
  = (fail_json (PyException free_cluster_message),
     (VDict sample_node,
      [] ++ [call_get_component_by_display_name "fabric-orderer"
               "Ordering Service Node 2";
             call_is_free_cluster])).
Proof.
  apply (free_cluster_rejects_resources (on_free_cluster memory_console)
           {["resources" := dict []]} sample_params (Ok sample_params) start
           (VDict sample_node) (VDict sample_node) (VDict sample_node)).
  - reflexivity.
  - right. exists false. reflexivity.
  - reflexivity.
  - left. by eexists.
Defined.

(** The corrupt node is deleted and created again. *)
Lemma corrupt_node_is_replaced_witness :
  let params := with_resources (Some ∅) sample_params in
  let run := main memory_console ∅ params (Ok params) (VDict corrupt_node, []) in
  exists l,
    run.2.2
      = [] ++ [call_get_component_by_display_name "fabric-orderer"
                 "Ordering Service Node 2";
               call_is_free_cluster;
               call_delete_ext_ordering_service_node (VStr "orderer1")] ++ l /\
    Forall (among ["is_free_cluster"; "resolve_ordering_service_node_version";
                   "create_ordering_service";
                   "extract_ordering_service_node_info"; "wait_for"]) l /\
    forall changed out, run.1 = exit_json changed out -> changed = true.
Proof.
  intros params run.
  apply (corrupt_node_is_replaced memory_console ∅ params (Ok params)
           (VDict corrupt_node, []) (VDict corrupt_node) (VDict corrupt_node)
           VNone false (VDict corrupt_node) (VStr "orderer1")).
  - reflexivity.
  - reflexivity.
  - reflexivity.
  - reflexivity.
  - discriminate.
  - reflexivity.
  - reflexivity.
Defined.


(** A creation on an empty console. *)
Lemma create_sends_one_node_request_witness :
  let params := with_resources (Some ∅) sample_params in
  let run := create_path memory_console params (Ok params) (VNone, []) in
  true = true /\
  exists data, last run.2.2 = Some (call_create_ordering_service data).
Proof.
  intros params run.
  apply (proj2 (create_sends_one_node_request memory_console params params)
           (VNone, [])
           (match run.1 with
            | Ok reconciled => reconciled.1
            | Raise _ => VNone
            end) true run.2).
  vm_compute. reflexivity.
Defined.
